(** * magic-ball-with-actions: the gesture-to-physics loop

    A shallow embedding of [src/components/InteractiveCanvas.tsx] (the
    per-frame [animate] callback with its helper [calculateGrip]) and of
    the metric computations of the HUD component, together with proofs of
    the properties its specification states.

    Number model.  JavaScript numbers are modelled by [num]: a finite
    value carries a real number and arithmetic on finite values is exact
    (binary64 rounding, overflow and the sign of zero are abstracted
    away); the IEEE special values [NaN], [+Infinity] and [-Infinity] are
    kept with their IEEE behaviour, because the code divides without a
    guard.

    Exact arithmetic stands for binary64 up to the last digits of a
    result only where no intermediate value leaves the range of the
    doubles and no result is read at a point of discontinuity.  The
    statements that depend on it therefore carry their range with them
    ([regularHand], [withinRange], [nearestWithin]), and the lines of the
    code on which binary64 departs in kind -- a square that underflows
    to 0, a product that rounds onto a half -- are embedded a second
    time in [Binary64], over the binary64 numbers of Rocq's kernel. *)

From Stdlib Require Import Reals Lra Lia List Bool Arith.
From Stdlib Require Floats.
Import ListNotations.

Local Open Scope R_scope.

(** ** JavaScript numbers *)

Module Num.

Inductive num : Type :=
| Fin (r : R)
| PInf
| NInf
| NaN.

Definition neg (a : num) : num :=
  match a with
  | Fin r => Fin (- r)
  | PInf => NInf
  | NInf => PInf
  | NaN => NaN
  end.

Definition add (a b : num) : num :=
  match a, b with
  | NaN, _ | _, NaN => NaN
  | Fin x, Fin y => Fin (x + y)
  | PInf, NInf | NInf, PInf => NaN
  | PInf, _ | _, PInf => PInf
  | NInf, _ | _, NInf => NInf
  end.

Definition sub (a b : num) : num := add a (neg b).

(** [signed_inf x] is the infinity an infinite operand turns into when it
    is scaled by the finite [x]; scaling by zero is invalid. *)
Definition signed_inf (x : R) (pos : num) : num :=
  if Rlt_dec 0 x then pos
  else if Rlt_dec x 0 then neg pos
  else NaN.

Definition mul (a b : num) : num :=
  match a, b with
  | NaN, _ | _, NaN => NaN
  | Fin x, Fin y => Fin (x * y)
  | Fin x, PInf | PInf, Fin x => signed_inf x PInf
  | Fin x, NInf | NInf, Fin x => signed_inf x NInf
  | PInf, PInf | NInf, NInf => PInf
  | PInf, NInf | NInf, PInf => NInf
  end.

(** Division.  A zero divisor is read as [+0]: a positive numerator gives
    [+Infinity], a negative one [-Infinity], and [0/0] is [NaN]. *)
Definition div (a b : num) : num :=
  match a, b with
  | NaN, _ | _, NaN => NaN
  | Fin x, Fin y =>
      if Req_dec_T y 0 then signed_inf x PInf else Fin (x / y)
  | Fin _, (PInf | NInf) => Fin 0
  | (PInf | NInf), (PInf | NInf) => NaN
  | PInf, Fin y => if Rlt_dec y 0 then NInf else PInf
  | NInf, Fin y => if Rlt_dec y 0 then PInf else NInf
  end.

(** [Math.sqrt] *)
Definition sqrt (a : num) : num :=
  match a with
  | Fin x => if Rlt_dec x 0 then NaN else Fin (R_sqrt.sqrt x)
  | PInf => PInf
  | NInf | NaN => NaN
  end.

(** [Math.pow(a, 2)], as the exact square: the binary64 square is 0
    below about [2^-537] and infinite above about [2^512], see
    [Binary64.Math_pow2]. *)
Definition pow2 (a : num) : num :=
  match a with
  | Fin x => Fin (x * x)
  | PInf | NInf => PInf
  | NaN => NaN
  end.

(** [Math.max] and [Math.min] of two arguments: [NaN] if either is. *)
Definition max (a b : num) : num :=
  match a, b with
  | NaN, _ | _, NaN => NaN
  | Fin x, Fin y => Fin (Rmax x y)
  | PInf, _ | _, PInf => PInf
  | NInf, c | c, NInf => c
  end.

Definition min (a b : num) : num :=
  match a, b with
  | NaN, _ | _, NaN => NaN
  | Fin x, Fin y => Fin (Rmin x y)
  | NInf, _ | _, NInf => NInf
  | PInf, c | c, PInf => c
  end.

(** [a > b]: false as soon as an operand is [NaN]. *)
Definition gtb (a b : num) : bool :=
  match a, b with
  | NaN, _ | _, NaN => false
  | Fin x, Fin y => if Rlt_dec y x then true else false
  | PInf, PInf => false
  | PInf, _ => true
  | _, PInf => false
  | NInf, _ => false
  | Fin _, NInf => true
  end.

(** [a <= b]: false as soon as an operand is [NaN]. *)
Definition le (a b : num) : Prop :=
  match a, b with
  | NaN, _ | _, NaN => False
  | Fin x, Fin y => x <= y
  | NInf, _ => True
  | _, PInf => True
  | _, _ => False
  end.

(** [Math.round]: the nearest integer, halves rounded up.  The argument
    is the exact value: where the code rounds a product that binary64
    has put onto a half, see [Binary64.Math_round]. *)
Definition round (a : num) : num :=
  match a with
  | Fin x => Fin (IZR (Int_part (x + / 2)))
  | other => other
  end.

(** [Math.sin] and [Math.cos] *)
Definition sin (a : num) : num :=
  match a with
  | Fin x => Fin (Rtrigo_def.sin x)
  | _ => NaN
  end.

Definition cos (a : num) : num :=
  match a with
  | Fin x => Fin (Rtrigo_def.cos x)
  | _ => NaN
  end.

(** [Math.acos]: [NaN] outside [[-1, 1]]. *)
Definition acos (a : num) : num :=
  match a with
  | Fin x =>
      if Rle_dec (-1) x then
        if Rle_dec x 1 then Fin (Ratan.acos x) else NaN
      else NaN
  | _ => NaN
  end.

(** A JavaScript number that is an array index. *)
Definition of_nat (n : nat) : num := Fin (INR n).

Definition nonfinite (a : num) : Prop := a = NaN \/ a = PInf \/ a = NInf.

(** [in01 a]: [a] is a finite number of the interval [[0,1]]. *)
Definition in01 (a : num) : Prop := exists r, a = Fin r /\ 0 <= r <= 1.

End Num.

Import Num.

Declare Scope js_scope.
Delimit Scope js_scope with js.
Bind Scope js_scope with num.
Coercion Fin : R >-> num.
Infix "+" := add : js_scope.
Infix "-" := sub : js_scope.
Infix "*" := mul : js_scope.
Infix "/" := div : js_scope.
Infix ">?" := gtb (at level 70, no associativity) : js_scope.
Infix "<=" := le : js_scope.


(** ** Data model *)

(** [THREE.Vector3] with the methods the loop calls. *)
Module Vector3.

Record t : Type := mk { x : num; y : num; z : num }.

(** [new THREE.Vector3()] *)
Definition zero : t := mk 0 0 0.

(** [this.lerp(v, alpha)]: each component moves by
    [(v.c - this.c) * alpha]. *)
Definition lerp (this v : t) (alpha : num) : t :=
  mk (x this + (x v - x this) * alpha)%js
     (y this + (y v - y this) * alpha)%js
     (z this + (z v - z this) * alpha)%js.

End Vector3.

(** [NormalizedLandmark] of the hand detector: finite coordinates. *)
Module Landmark.

Record t : Type := mk { x : R; y : R; z : R }.

End Landmark.

(** The landmarks of one detected hand, [NormalizedLandmark[]]. *)
Definition Hand : Type := list Landmark.t.

(** [enum HandGesture] of [types.ts]. *)
Inductive HandGesture : Type := NONE | GRIP | HOVER | SPLIT.

(** ['SINGLE' | 'DUAL' | 'NONE'] *)
Inductive TrackingMode : Type := SINGLE | DUAL | TM_NONE.

(** [const CONFIG] *)
Module CONFIG.
Definition PARTICLE_COUNT : nat := 1200.
Definition SPHERE_RADIUS : R := 1.5.
Definition SMOOTHING_FACTOR : R := 0.15.
Definition COMPRESSION_FACTOR : R := 0.7.
End CONFIG.

(** ** Fallible pure code

    Reading a property of [undefined] (an array index out of range)
    throws a [TypeError]; in code without side effects the throw is
    [None]. *)

Definition obind {A B : Type} (m : option A) (f : A -> option B) : option B :=
  match m with
  | Some a => f a
  | None => None
  end.

Notation "x <- m ;; k" := (obind m (fun x => k))
  (at level 61, m at next level, right associativity).

(** 2D distance as the source writes it:
    [Math.sqrt(Math.pow(a.x - b.x, 2) + Math.pow(a.y - b.y, 2))]. *)
Definition dist2D (a b : Landmark.t) : num :=
  sqrt (pow2 (Landmark.x a - Landmark.x b) + pow2 (Landmark.y a - Landmark.y b))%js.

(** [calculateGrip] *)
Definition calculateGrip (landmarks : Hand) : option num :=
  wrist <- nth_error landmarks 0 ;;
  t4 <- nth_error landmarks 4 ;;
  t8 <- nth_error landmarks 8 ;;
  t12 <- nth_error landmarks 12 ;;
  t16 <- nth_error landmarks 16 ;;
  t20 <- nth_error landmarks 20 ;;
  let tips := [t4; t8; t12; t16; t20] in
  l9 <- nth_error landmarks 9 ;;
  let scaleBase := dist2D l9 wrist in
  let totalDist :=
    fold_left (fun totalDist tip => (totalDist + dist2D tip wrist)%js) tips (Fin 0) in
  let avgDist := (totalDist / 5)%js in
  let rawGrip := (1 - ((avgDist / scaleBase) - 0.6) / 1.2)%js in
  Some (max 0 (min 1 rawGrip)).

(** ** Mutable state of the component *)

(** [physicsState.current]: the smoothed values. *)
Module PhysicsState.

Record t : Type := mk {
  position : Vector3.t;
  splitFactor : num;
  gripStrength : num;
  rotationSpeed : num;
  time : num
}.

Definition initial : t := mk Vector3.zero 0 0 0.005 0.

End PhysicsState.

(** [HandData.worldPosition]: the initial snapshot owns a literal
    [{x: 0, y: 0}]; [animate] stores [state.position] itself, a reference
    to the vector the smoother keeps mutating. *)
Inductive WorldPosition : Type :=
| OwnVector (x y : num)
| StatePosition.

(** [interface HandData], the snapshot handed to the HUD. *)
Module HandData.

Record t : Type := mk {
  gesture : HandGesture;
  position : num * num;
  worldPosition : WorldPosition;
  isPresent : bool;
  trackingMode : TrackingMode;
  handSeparation : num;
  gripStrength : num;
  energyOutput : num
}.

(** the argument of [useState<HandData>] *)
Definition initial : t :=
  mk NONE (Fin 0.5, Fin 0.5) (OwnVector 0 0) false TM_NONE 0 0 0.

Definition with_isPresent (prev : t) (b : bool) : t :=
  mk (gesture prev) (position prev) (worldPosition prev) b
     (trackingMode prev) (handSeparation prev) (gripStrength prev)
     (energyOutput prev).

End HandData.

(** An entry of [instancedMesh.userData.particles]. *)
Module Particle.

Record t : Type := mk {
  basePos : Vector3.t;
  randomOffset : Vector3.t;
  speed : num
}.

End Particle.

(** What [dummy.updateMatrix()] composes into [dummy.matrix]: the
    position, the orientation (given by the point [lookAt] was last
    called with, from that position; [None] for a dummy that was never
    turned) and the uniform scale of the dummy. *)
Record Matrix4 : Type := compose {
  m_position : Vector3.t;
  m_lookAt : option Vector3.t;
  m_scale : num
}.

(** [instancedParticlesRef.current] *)
Module InstancedMesh.

Record t : Type := mk {
  position : Vector3.t;
  particles : list Particle.t;      (* userData.particles *)
  instanceMatrix : list Matrix4     (* one matrix per instance *)
}.

End InstancedMesh.

(** [list_set i v l]: [l] with index [i] overwritten; nothing happens out
    of range, as for the typed array behind [setMatrixAt]. *)
Fixpoint list_set {A : Type} (i : nat) (v : A) (l : list A) : list A :=
  match l, i with
  | [], _ => []
  | _ :: l', O => v :: l'
  | a :: l', S i' => a :: list_set i' v l'
  end.

Record World : Type := mkWorld {
  physicsState : PhysicsState.t;
  lastTimeRef : R;
  handData : HandData.t;
  instancedParticles : option InstancedMesh.t
}.

(** What one tick observes of its environment. *)
Record Frame : Type := mkFrame {
  (* handLandmarkerRef.current && videoRef.current && sceneRef.current *)
  refsReady : bool;
  (* videoRef.current.currentTime *)
  currentTime : R;
  (* results.landmarks, were detectForVideo called on this frame *)
  landmarks : list Hand;
  (* mapScreenToWorld with the camera as it is at this tick *)
  mapScreenToWorld : num -> num -> num -> Vector3.t
}.

(** ** Scene setup

    The part of [initThree] that builds the particle mesh.  [random k] is
    the value of the [k]-th call of [Math.random()], a number of
    [[0, 1)]; the records are built in index order, each drawing the
    three components of its [randomOffset] and then its [speed]. *)

(** the record pushed for particle [i] *)
Definition particleData (random : nat -> R) (i : nat) : Particle.t :=
  let phi :=
    acos (-1 + (2 * of_nat i) / of_nat CONFIG.PARTICLE_COUNT)%js in
  let theta :=
    (sqrt (of_nat CONFIG.PARTICLE_COUNT * PI) * phi)%js in
  let r : num := CONFIG.SPHERE_RADIUS in
  Particle.mk
    (Vector3.mk (r * cos theta * sin phi)%js
                (r * sin theta * sin phi)%js
                (r * cos phi)%js)
    (Vector3.mk ((random (4 * i)%nat - 0.5) * 2)%js
                ((random (4 * i + 1)%nat - 0.5) * 2)%js
                ((random (4 * i + 2)%nat - 0.5) * 2)%js)
    (0.5 + random (4 * i + 3)%nat)%js.

(** [instancedMesh] when [initThree] is done: a record per instance, and
    the matrix of a dummy placed at the seed position, never turned, of
    scale 1. *)
Definition initThree (random : nat -> R) : InstancedMesh.t :=
  let particleData :=
    map (particleData random) (seq 0 CONFIG.PARTICLE_COUNT) in
  InstancedMesh.mk Vector3.zero particleData
    (map (fun p => compose (Particle.basePos p) None 1) particleData).

(** ** Effectful code: state and exceptions

    A callback runs on the world and either completes or throws; what it
    wrote before throwing stays written. *)

Inductive Completion (A : Type) : Type :=
| Normal (a : A)
| Throw.
Arguments Normal {A} a.
Arguments Throw {A}.

Definition Exec (A : Type) : Type := World -> Completion A * World.

Definition ret {A : Type} (a : A) : Exec A := fun w => (Normal a, w).

Definition bind {A B : Type} (m : Exec A) (k : A -> Exec B) : Exec B :=
  fun w =>
    match m w with
    | (Normal a, w') => k a w'
    | (Throw, w') => (Throw, w')
    end.

Definition get : Exec World := fun w => (Normal w, w).

(** a pure computation that may throw *)
Definition lift {A : Type} (m : option A) : Exec A :=
  fun w =>
    match m with
    | Some a => (Normal a, w)
    | None => (Throw, w)
    end.

Declare Scope exec_scope.
Delimit Scope exec_scope with exec.
Notation "x <- m ;; k" := (bind m (fun x => k))
  (at level 61, m at next level, right associativity) : exec_scope.
Notation "m ;;; k" := (bind m (fun _ => k))
  (at level 61, right associativity) : exec_scope.

(** ** The main loop *)

(** The local variables of step 1 of [animate]. *)
Record Targets : Type := mkTargets {
  targetPos : Vector3.t;
  targetGrip : num;
  targetSplit : num;
  t_isPresent : bool;
  t_trackingMode : TrackingMode
}.

(** their initial values *)
Definition defaultTargets : Targets :=
  mkTargets (Vector3.mk 0 0 0) 0 0 false TM_NONE.

Definition set_lastTimeRef (v : R) : Exec unit :=
  fun w => (Normal tt,
            mkWorld (physicsState w) v (handData w) (instancedParticles w)).

Definition set_physicsState (s : PhysicsState.t) : Exec unit :=
  fun w => (Normal tt,
            mkWorld s (lastTimeRef w) (handData w) (instancedParticles w)).

(** [setHandData(update)] *)
Definition setHandData (update : HandData.t -> HandData.t) : Exec unit :=
  fun w => (Normal tt,
            mkWorld (physicsState w) (lastTimeRef w) (update (handData w))
                    (instancedParticles w)).

Definition set_instancedParticles (m : InstancedMesh.t) : Exec unit :=
  fun w => (Normal tt,
            mkWorld (physicsState w) (lastTimeRef w) (handData w) (Some m)).

(** What step 1 of [animate] derives from the hands the detector
    returned ([results.landmarks]); [None] when it throws. *)
Definition detectTargets (f : Frame) : option Targets :=
  match landmarks f with
  | [] => Some defaultTargets
  | [h1; h2] =>
      a <- nth_error h1 9 ;;
      b <- nth_error h2 9 ;;
      let cx := ((Landmark.x a + Landmark.x b) / 2)%js in
      let cy := ((Landmark.y a + Landmark.y b) / 2)%js in
      let dist := dist2D a b in
      let split := max 0 (min 1 ((dist - 0.1) / 0.5)%js) in
      g1 <- calculateGrip h1 ;;
      g2 <- calculateGrip h2 ;;
      Some (mkTargets (mapScreenToWorld f cx cy 0) ((g1 + g2) / 2)%js
                      split true DUAL)
  | h1 :: _ =>
      a <- nth_error h1 9 ;;
      g <- calculateGrip h1 ;;
      Some (mkTargets (mapScreenToWorld f (Landmark.x a) (Landmark.y a) 0)
                      g 0 true SINGLE)
  end.

(** Step 1, PROCESS VISION.  The detector is consulted only when the
    video has moved on from the last processed timestamp, which is
    recorded before the call. *)
Definition processVision (f : Frame) : Exec Targets :=
  (w <- get ;;
   if Req_dec_T (currentTime f) (lastTimeRef w) then ret defaultTargets
   else
     set_lastTimeRef (currentTime f) ;;;
     lift (detectTargets f))%exec.

(** [state += (target - state) * CONFIG.SMOOTHING_FACTOR] *)
Definition smooth (state target : num) : num :=
  (state + (target - state) * CONFIG.SMOOTHING_FACTOR)%js.

(** Step 2, SMOOTH PHYSICS *)
Definition smoothPhysics (tg : Targets) (state : PhysicsState.t)
  : PhysicsState.t :=
  let targetPos :=
    if t_isPresent tg then targetPos tg else Vector3.mk 0 0 0 in
  PhysicsState.mk
    (Vector3.lerp (PhysicsState.position state) targetPos
                  CONFIG.SMOOTHING_FACTOR)
    (smooth (PhysicsState.splitFactor state) (targetSplit tg))
    (smooth (PhysicsState.gripStrength state) (targetGrip tg))
    (PhysicsState.rotationSpeed state)
    (PhysicsState.time state).

(** [state.rotationSpeed = rotSpeed], the one write of step 3 to the
    physics state. *)
Definition updateRotationSpeed (state : PhysicsState.t) : PhysicsState.t :=
  let rotSpeed :=
    (0.005 + (PhysicsState.gripStrength state * 0.05)
     + (PhysicsState.splitFactor state * 0.02))%js in
  PhysicsState.mk (PhysicsState.position state)
    (PhysicsState.splitFactor state) (PhysicsState.gripStrength state)
    rotSpeed (PhysicsState.time state).

Definition compression (state : PhysicsState.t) : num :=
  (1 - (PhysicsState.gripStrength state * CONFIG.COMPRESSION_FACTOR))%js.

Definition visualScale (state : PhysicsState.t) : num :=
  (compression state * (1 + PhysicsState.splitFactor state * 2))%js.

(** The target position of particle [i] (the [tx, ty, tz] of the loop
    body). *)
Definition particleTarget (state : PhysicsState.t) (i : nat)
    (p : Particle.t) : Vector3.t :=
  let time := PhysicsState.time state in
  let splitFactor := PhysicsState.splitFactor state in
  let compression := compression state in
  let angle := (time * Particle.speed p + (of_nat i * 0.1))%js in
  let radius :=
    (CONFIG.SPHERE_RADIUS * visualScale state * (1 + splitFactor * 4))%js in
  let noiseX := (sin (time * 2 + of_nat i) * splitFactor * 2)%js in
  let noiseY := (cos (time * 3 + of_nat i) * splitFactor * 2)%js in
  let noiseZ := (sin (time * 1.5 + of_nat i) * splitFactor * 2)%js in
  if (splitFactor >? 0.1)%js then
    Vector3.mk (cos angle * radius + noiseX)%js
               ((Vector3.y (Particle.basePos p) * compression) + noiseY)%js
               (sin angle * radius + noiseZ)%js
  else
    Vector3.mk (Vector3.x (Particle.basePos p) * compression)%js
               (Vector3.y (Particle.basePos p) * compression)%js
               (Vector3.z (Particle.basePos p) * compression)%js.

(** The matrix written for instance [i]: the dummy placed at the target,
    looking at the origin, scaled by [1 + gripStrength * 2]. *)
Definition particleMatrix (state : PhysicsState.t) (i : nat)
    (p : Particle.t) : Matrix4 :=
  compose (particleTarget state i p) (Some (Vector3.mk 0 0 0))
          (1 + PhysicsState.gripStrength state * 2)%js.

(** One iteration of the particle loop: [data[i]] is read (a missing
    entry throws at [p.speed]) and [mesh.setMatrixAt(i, dummy.matrix)]
    writes instance [i]. *)
Definition particleStep (state : PhysicsState.t) (i : nat) : Exec unit :=
  (w <- get ;;
   match instancedParticles w with
   | None => ret tt
   | Some mesh =>
       p <- lift (nth_error (InstancedMesh.particles mesh) i) ;;
       set_instancedParticles
         (InstancedMesh.mk (InstancedMesh.position mesh)
            (InstancedMesh.particles mesh)
            (list_set i (particleMatrix state i p)
                      (InstancedMesh.instanceMatrix mesh)))
   end)%exec.

(** [for (let i = start; i < start + count; i++) body(i)] *)
Fixpoint for_loop (start count : nat) (body : nat -> Exec unit) : Exec unit :=
  match count with
  | O => ret tt
  | S count' => (body start ;;; for_loop (S start) count' body)%exec
  end.

(** PARTICLE VORTEX PHYSICS *)
Definition updateParticles (state : PhysicsState.t) : Exec unit :=
  (w <- get ;;
   match instancedParticles w with
   | None => ret tt
   | Some mesh =>
       set_instancedParticles
         (InstancedMesh.mk (PhysicsState.position state)
            (InstancedMesh.particles mesh)
            (InstancedMesh.instanceMatrix mesh)) ;;;
       for_loop 0 CONFIG.PARTICLE_COUNT (particleStep state)
   end)%exec.

(** The gesture of step 4, when a hand is tracked. *)
Definition classifyGesture (state : PhysicsState.t) : HandGesture :=
  if (PhysicsState.splitFactor state >? 0.3)%js then SPLIT
  else if (PhysicsState.gripStrength state >? 0.5)%js then GRIP
  else HOVER.

(** Step 4, SYNC UI *)
Definition syncUI (trackingMode : TrackingMode) (state : PhysicsState.t)
  : Exec unit :=
  match trackingMode with
  | TM_NONE => setHandData (fun prev => HandData.with_isPresent prev false)
  | _ =>
      setHandData (fun _ =>
        HandData.mk (classifyGesture state) (Fin 0, Fin 0) StatePosition true
          trackingMode
          (PhysicsState.splitFactor state)
          (PhysicsState.gripStrength state)
          ((PhysicsState.gripStrength state
            + PhysicsState.splitFactor state) / 2)%js)
  end.

(** [physicsState.current.time += 0.01] *)
Definition advanceTime : Exec unit :=
  (w <- get ;;
   let s := physicsState w in
   set_physicsState
     (PhysicsState.mk (PhysicsState.position s) (PhysicsState.splitFactor s)
        (PhysicsState.gripStrength s) (PhysicsState.rotationSpeed s)
        (PhysicsState.time s + 0.01)%js))%exec.

(** [animate], one tick.  The writes to the sphere and core meshes and
    the render call are left out: nothing of the state below reads
    them. *)
Definition animate_body (f : Frame) : Exec unit :=
  (advanceTime ;;;
   if negb (refsReady f) then ret tt
   else
     tg <- processVision f ;;
     w <- get ;;
     let state := updateRotationSpeed (smoothPhysics tg (physicsState w)) in
     set_physicsState state ;;;
     updateParticles state ;;;
     syncUI (t_trackingMode tg) state)%exec.

(** The world after the tick, whether the callback completed or threw. *)
Definition animate (f : Frame) (w : World) : World := snd (animate_body f w).

(** The world after a sequence of ticks. *)
Definition run (fs : list Frame) (w : World) : World :=
  fold_left (fun w f => animate f w) fs w.

(** The state the component mounts with, for a given particle mesh. *)
Definition initialWorld (mesh : option InstancedMesh.t) : World :=
  mkWorld PhysicsState.initial 0 HandData.initial mesh.

(** ** The HUD component

    The visual metrics and the status line [HUD] derives from the
    snapshot it is given. *)
Module HUD.

(** [Math.round] is applied to the exact product here and to the
    binary64 product in the code: on a product that binary64 puts onto
    a half the two differ by one, see [pressure_on_a_half]. *)
Definition pressure (handData : HandData.t) : num :=
  round (HandData.gripStrength handData * 100)%js.

Definition stability (handData : HandData.t) : num :=
  max 0 (100 - (HandData.handSeparation handData * 100))%js.

Definition energyLevel (handData : HandData.t) : num :=
  min 100
    (round ((HandData.gripStrength handData * 0.5
             + HandData.handSeparation handData * 0.5) * 100)
     + 10)%js.

Inductive StatusText : Type :=
| FIELD_DIVERGENCE
| CRITICAL_COMPRESSION
| SUBJECT_TRACKED
| SCANNING.

Definition getStatusText (handData : HandData.t) : StatusText :=
  if (HandData.handSeparation handData >? 0.3)%js then FIELD_DIVERGENCE
  else if (HandData.gripStrength handData >? 0.6)%js then CRITICAL_COMPRESSION
  else if HandData.isPresent handData then SUBJECT_TRACKED
  else SCANNING.

End HUD.

(** ** The particle loop in closed form *)

(** What the iterations [start .. start + count - 1] leave in the
    instance matrices, and whether they all completed: the loop stops at
    the first missing particle record. *)
Fixpoint placeParticles (state : PhysicsState.t) (data : list Particle.t)
    (start count : nat) (matrices : list Matrix4) : bool * list Matrix4 :=
  match count with
  | O => (true, matrices)
  | S count' =>
      match nth_error data start with
      | None => (false, matrices)
      | Some p =>
          placeParticles state data (S start) count'
            (list_set start (particleMatrix state start p) matrices)
      end
  end.

Definition completion_of (completed : bool) : Completion unit :=
  if completed then Normal tt else Throw.

Definition with_mesh (w : World) (m : InstancedMesh.t) : World :=
  mkWorld (physicsState w) (lastTimeRef w) (handData w) (Some m).

(** Two particle records with the same seed position and speed. *)
Definition sameSeed (p q : Particle.t) : Prop :=
  Particle.basePos p = Particle.basePos q
  /\ Particle.speed p = Particle.speed q.

(** Two worlds that differ at most in the [randomOffset] fields. *)
Definition sameButOffsets (w w' : World) : Prop :=
  physicsState w = physicsState w'
  /\ lastTimeRef w = lastTimeRef w'
  /\ handData w = handData w'
  /\ match instancedParticles w, instancedParticles w' with
     | None, None => True
     | Some m, Some m' =>
         InstancedMesh.position m = InstancedMesh.position m'
         /\ InstancedMesh.instanceMatrix m = InstancedMesh.instanceMatrix m'
         /\ Forall2 sameSeed (InstancedMesh.particles m)
                            (InstancedMesh.particles m')
     | _, _ => False
     end.

(** [userData.particles] of a world ([[]] before the mesh exists). *)
Definition particlesOf (w : World) : list Particle.t :=
  match instancedParticles w with
  | Some m => InstancedMesh.particles m
  | None => []
  end.

Definition matricesOf (w : World) : list Matrix4 :=
  match instancedParticles w with
  | Some m => InstancedMesh.instanceMatrix m
  | None => []
  end.

(** ** One tick in closed form *)

(** The targets of a tick whose last processed timestamp is [last];
    [None] when step 1 throws. *)
Definition frameTargets (f : Frame) (last : R) : option Targets :=
  if Req_dec_T (currentTime f) last then Some defaultTargets
  else detectTargets f.

(** the physics state after [time += 0.01] *)
Definition advance (s : PhysicsState.t) : PhysicsState.t :=
  PhysicsState.mk (PhysicsState.position s) (PhysicsState.splitFactor s)
    (PhysicsState.gripStrength s) (PhysicsState.rotationSpeed s)
    (PhysicsState.time s + 0.01)%js.

(** the physics state steps 2 and 3 compute from the targets *)
Definition nextPhysics (tg : Targets) (s : PhysicsState.t) : PhysicsState.t :=
  updateRotationSpeed (smoothPhysics tg (advance s)).

(** whether the particle loop of a tick runs to its end *)
Definition loopCompletes (state : PhysicsState.t) (w : World) : bool :=
  match instancedParticles w with
  | None => true
  | Some mesh =>
      fst (placeParticles state (InstancedMesh.particles mesh) 0
             CONFIG.PARTICLE_COUNT (InstancedMesh.instanceMatrix mesh))
  end.

(** the mesh after the particle step of a tick *)
Definition nextMesh (state : PhysicsState.t) (w : World)
  : option InstancedMesh.t :=
  match instancedParticles w with
  | None => None
  | Some mesh =>
      Some (InstancedMesh.mk (PhysicsState.position state)
              (InstancedMesh.particles mesh)
              (snd (placeParticles state (InstancedMesh.particles mesh) 0
                      CONFIG.PARTICLE_COUNT
                      (InstancedMesh.instanceMatrix mesh))))
  end.

(** the snapshot step 4 leaves in the UI state *)
Definition nextHandData (tm : TrackingMode) (state : PhysicsState.t)
    (prev : HandData.t) : HandData.t :=
  match tm with
  | TM_NONE => HandData.with_isPresent prev false
  | _ =>
      HandData.mk (classifyGesture state) (Fin 0, Fin 0) StatePosition true tm
        (PhysicsState.splitFactor state) (PhysicsState.gripStrength state)
        ((PhysicsState.gripStrength state
          + PhysicsState.splitFactor state) / 2)%js
  end.

(** ** The formulas of the specification *)

(** [|a - b|], the Euclidean distance of two landmarks in the image
    plane. *)
Definition euclid2D (a b : Landmark.t) : R :=
  R_sqrt.sqrt ((Landmark.x a - Landmark.x b) ^ 2
               + (Landmark.y a - Landmark.y b) ^ 2).

(** [landmark[i]] of a hand (the origin stands in where the list is too
    short; the statements below fix the length). *)
Definition landmark_at (h : Hand) (i : nat) : Landmark.t :=
  nth i h (Landmark.mk 0 0 0).

Definition wrist_of (h : Hand) : Landmark.t := landmark_at h 0.

(** [scaleBase = |landmark[9] - wrist|] *)
Definition scaleBase_of (h : Hand) : R :=
  euclid2D (landmark_at h 9) (wrist_of h).

(** [avgDist = mean_i |tips[i] - wrist|] over the five fingertips *)
Definition avgDist_of (h : Hand) : R :=
  (euclid2D (landmark_at h 4) (wrist_of h)
   + euclid2D (landmark_at h 8) (wrist_of h)
   + euclid2D (landmark_at h 12) (wrist_of h)
   + euclid2D (landmark_at h 16) (wrist_of h)
   + euclid2D (landmark_at h 20) (wrist_of h)) / 5.

(** [clamp_[0,1]] *)
Definition clamp01 (r : R) : R := Rmax 0 (Rmin 1 r).

(** [clamp_[0,1](1 - ((avgDist/scaleBase) - 0.6) / 1.2)] *)
Definition grip_formula (avgDist scaleBase : R) : R :=
  clamp01 (1 - ((avgDist / scaleBase) - 0.6) / 1.2).

(** ** Sample hands *)

(** A hand with the wrist at [w], the middle-finger base at [b], the five
    fingertips at [t] and every other landmark at the wrist. *)
Definition sampleHand (w b t : Landmark.t) : Hand :=
  [ w; w; w; w; t;  w; w; w; t;  b; w; w; t;  w; w; w; t;  w; w; w; t ].

Definition pt (x y : R) : Landmark.t := Landmark.mk x y 0.

(** fingertips at 1.8 times the hand scale *)
Definition openHand : Hand := sampleHand (pt 0 0) (pt 1 0) (pt 1.8 0).

(** fingertips at 0.6 times the hand scale *)
Definition closedHand : Hand := sampleHand (pt 0 0) (pt 1 0) (pt 0.6 0).

(** wrist and middle-finger base coincide, fingertips elsewhere *)
Definition flatHand : Hand := sampleHand (pt 0 0) (pt 0 0) (pt 1 0).

(** all landmarks at one point *)
Definition pointHand : Hand := sampleHand (pt 0 0) (pt 0 0) (pt 0 0).

(** ** Sample worlds and frames *)

Definition sampleParticle : Particle.t :=
  Particle.mk (Vector3.mk 1.5 0 0) (Vector3.mk 0 0 0) 1.

(** a run in which [Math.random()] always returns 0.5 *)
Definition sampleRandom : nat -> R := fun _ => 0.5.

(** a run with the same draws for the speeds and other draws for the
    noise seeds *)
Definition sampleRandom' : nat -> R :=
  fun k => if (k mod 4 =? 3)%nat then 0.5 else 0.25.

(** the mesh [initThree] builds on the first run *)
Definition sampleMesh : InstancedMesh.t := initThree sampleRandom.

Definition sampleWorld : World := initialWorld (Some sampleMesh).

(** a camera-independent stand-in for the projector *)
Definition flatProjector (sx sy depthZ : num) : Vector3.t :=
  Vector3.mk sx sy depthZ.

(** a new video frame at time 1 showing one open hand *)
Definition frameOpenHand : Frame :=
  mkFrame true 1 [openHand] flatProjector.

(** a new video frame at time 2 showing no hand *)
Definition frameNoHand : Frame := mkFrame true 2 [] flatProjector.

(** a tick at which the video still shows the frame of time 1 *)
Definition frameRepeated : Frame :=
  mkFrame true 1 [openHand] flatProjector.

(** a world in the middle of a squeeze, last video frame at time 1 *)
Definition squeezedWorld : World :=
  mkWorld (PhysicsState.mk (Vector3.mk 1 2 0) 0.4 0.8 0.053 0.25) 1
    (HandData.mk GRIP (Fin 0, Fin 0) StatePosition true SINGLE 0.4 0.8 0.6)
    (Some sampleMesh).

(** The gesture the specification assigns to smoothed values and hand
    presence. *)
Definition specGesture (splitFactor gripStrength : num) (present : bool)
  : HandGesture :=
  if (splitFactor >? 0.3)%js then SPLIT
  else if (gripStrength >? 0.5)%js then GRIP
  else if present then HOVER
  else NONE.

(** the sample world after the open hand was seen and then lost *)
Definition worldAfterLoss : World :=
  run [frameOpenHand; frameNoHand] sampleWorld.

(** ** Iterated smoothing *)

(** a vector of finite components *)
Definition vec (x y z : R) : Vector3.t := Vector3.mk (Fin x) (Fin y) (Fin z).

(** the real a finite number carries ([0] for the special values) *)
Definition toR (a : num) : R :=
  match a with
  | Fin r => r
  | _ => 0
  end.

(** [residual n target start]: the target plus [(1 - SMOOTHING_FACTOR)^n]
    times the initial error [start - target]. *)
Definition residual (n : nat) (target start : R) : R :=
  target + (1 - CONFIG.SMOOTHING_FACTOR) ^ n * (start - target).

(** two hands side by side, their middle-finger bases 0.5 apart *)
Definition leftHand : Hand := sampleHand (pt 0.1 0.5) (pt 0.2 0.5) (pt 0.3 0.5).
Definition rightHand : Hand := sampleHand (pt 0.6 0.5) (pt 0.7 0.5) (pt 0.8 0.5).

Definition frameTwoHands : Frame :=
  mkFrame true 1 [rightHand; leftHand] flatProjector.

(** The separation of two hands: the distance between their landmarks 9. *)
Definition separation_of (h1 h2 : Hand) : R :=
  euclid2D (landmark_at h1 9) (landmark_at h2 9).

(** [basePos * c]: a vector scaled by a number *)
Definition scaled (v : Vector3.t) (c : num) : Vector3.t :=
  Vector3.mk (Vector3.x v * c)%js (Vector3.y v * c)%js (Vector3.z v * c)%js.

(** the physics state at another value of the [time] accumulator *)
Definition at_time (s : PhysicsState.t) (time : num) : PhysicsState.t :=
  PhysicsState.mk (PhysicsState.position s) (PhysicsState.splitFactor s)
    (PhysicsState.gripStrength s) (PhysicsState.rotationSpeed s) time.

(** ** Runs whose hands have a positive scale *)

(** The hands a tick passes to [calculateGrip], given the last processed
    timestamp. *)
Definition processedHands (f : Frame) (last : R) : list Hand :=
  if refsReady f then
    if Req_dec_T (currentTime f) last then []
    else
      match landmarks f with
      | [] => []
      | [h1; h2] => [h1; h2]
      | h1 :: _ => [h1]
      end
  else [].

(** a landmark set of 21 points with [scaleBase > 0] *)
Definition positiveScale (h : Hand) : Prop :=
  length h = 21%nat /\ 0 < scaleBase_of h.

(** every landmark set processed along the run has [scaleBase > 0] *)
Fixpoint positiveScaleRun (fs : list Frame) (w : World) : Prop :=
  match fs with
  | [] => True
  | f :: fs' =>
      Forall positiveScale (processedHands f (lastTimeRef w))
      /\ positiveScaleRun fs' (animate f w)
  end.

(** the smoothed grip and split are numbers of [[0,1]] *)
Definition unitPhysics (s : PhysicsState.t) : Prop :=
  in01 (PhysicsState.gripStrength s) /\ in01 (PhysicsState.splitFactor s).

(** a vector whose components are all [NaN] *)
Definition nanVector : Vector3.t := Vector3.mk NaN NaN NaN.

(** a new video frame at time 1 showing one hand *)
Definition frameOf (h : Hand) : Frame := mkFrame true 1 [h] flatProjector.

(** [nearest x n]: the integer [n] is [x] rounded to the nearest
    integer, halves rounded up. *)
Definition nearest (x : R) (n : Z) : Prop := IZR n - / 2 <= x < IZR n + / 2.

(** a snapshot with finite grip and separation *)
Definition snapshotOf (prev : HandData.t) (grip separation : R) : HandData.t :=
  HandData.mk (HandData.gesture prev) (HandData.position prev)
    (HandData.worldPosition prev) (HandData.isPresent prev)
    (HandData.trackingMode prev) (Fin separation) (Fin grip)
    (HandData.energyOutput prev).

(** the sample world of the second run *)
Definition sampleWorld' : World :=
  initialWorld (Some (initThree sampleRandom')).

(** [untouched w]: no tick has yet passed the guard on the refs, so the
    world is as mounted but for the [time] accumulator. *)
Definition untouched (w : World) : Prop :=
  physicsState w
  = at_time PhysicsState.initial (PhysicsState.time (physicsState w))
  /\ handData w = HandData.initial.

(** a physics state with the given smoothed split and grip *)
Definition stateOf (splitFactor gripStrength : R) : PhysicsState.t :=
  PhysicsState.mk Vector3.zero splitFactor gripStrength 0.005 0.

(** ** Hands seen from elsewhere *)

(** A landmark moved in the image plane: scaled by [k] about the origin,
    shifted by [(dx, dy)], its depth replaced by [depth]. *)
Definition moveLandmark (k dx dy : R) (depth : Landmark.t -> R)
    (p : Landmark.t) : Landmark.t :=
  Landmark.mk (k * Landmark.x p + dx) (k * Landmark.y p + dy) (depth p).

Definition moveHand (k dx dy : R) (depth : Landmark.t -> R) (h : Hand)
  : Hand :=
  map (moveLandmark k dx dy depth) h.

(** What [calculateGrip] makes of the mean fingertip distance and the
    hand scale. *)
Definition gripOf (avgDist scaleBase : R) : num :=
  max 0 (min 1 (1 - ((Fin avgDist / Fin scaleBase) - 0.6) / 1.2)%js).

(** ** Frames and hands for the further properties *)

(** the frame [f] with other hands returned by the detector *)
Definition withLandmarks (f : Frame) (hands : list Hand) : Frame :=
  mkFrame (refsReady f) (currentTime f) hands (mapScreenToWorld f).

(** a hand that lacks landmarks *)
Definition short (h : Hand) : Prop := (length h < 21)%nat.

(** a hand cut off after the middle-finger base *)
Definition cutHand : Hand := firstn 10 openHand.

(** a new video frame at time 1 showing the cut hand *)
Definition frameCutHand : Frame := mkFrame true 1 [cutHand] flatProjector.

(** a number of [[0,1]], or [NaN] *)
Definition unitOrNaN (a : num) : Prop := in01 a \/ a = NaN.

(** a finite number of the interval [[lo, hi]] *)
Definition within (lo hi : R) (a : num) : Prop :=
  exists r : R, a = Fin r /\ lo <= r <= hi.

(** a tick that passes the guard and is shown no hand *)
Definition noHand (f : Frame) : Prop :=
  refsReady f = true /\ landmarks f = [].

(** every hand of the frame has its 21 landmarks *)
Definition fullHands (f : Frame) : Prop :=
  Forall (fun h : Hand => (21 <= length h)%nat) (landmarks f).

(** every tick of the run completes *)
Fixpoint runCompletes (fs : list Frame) (w : World) : Prop :=
  match fs with
  | [] => True
  | f :: fs' =>
      fst (animate_body f w) = Normal tt /\ runCompletes fs' (animate f w)
  end.

(** the matrices of the particles [ps], numbered from [i] on *)
Fixpoint matricesFrom (state : PhysicsState.t) (i : nat)
    (ps : list Particle.t) : list Matrix4 :=
  match ps with
  | [] => []
  | p :: ps' => particleMatrix state i p :: matricesFrom state (S i) ps'
  end.

(** the polar and the azimuthal angle of seed [i] *)
Definition seedPhi (i : nat) : R :=
  Ratan.acos (-1 + 2 * INR i / INR CONFIG.PARTICLE_COUNT).

Definition seedTheta (i : nat) : R :=
  R_sqrt.sqrt (INR CONFIG.PARTICLE_COUNT * PI) * seedPhi i.

(** the squared distance of a point from the origin *)
Definition normSq (x y z : R) : R := x * x + y * y + z * z.

(** ** The status colour of the HUD *)

(** the classes ['text-red-400'], ['text-orange-400'], ['text-cyan-400'] *)
Inductive StatusColor : Type :=
| text_red_400
| text_orange_400
| text_cyan_400.

(** [getStatusColor] of the HUD component *)
Definition getStatusColor (handData : HandData.t) : StatusColor :=
  if (HandData.handSeparation handData >? 0.3)%js then text_red_400
  else if (HandData.gripStrength handData >? 0.6)%js then text_orange_400
  else text_cyan_400.


(** ** The math helpers of the utilities file *)

(** [a === b] on numbers: [NaN] equals nothing. *)
Definition strictEq (a b : num) : bool :=
  match a, b with
  | Fin x, Fin y => if Req_dec_T x y then true else false
  | PInf, PInf | NInf, NInf => true
  | _, _ => false
  end.

Module Utils.

(** [interface Point] and [interface Vector]: [z] is optional. *)
Record Point : Type := mkPoint { x : num; y : num; z : option num }.

Definition Vector : Type := Point.

(** The helpers below compute exactly.  The code computes in binary64:
    its squares underflow to 0 and overflow to [Infinity] at the ends of
    the range, and its results are rounded, so that a bound met exactly
    here can be missed by a digit there. *)
Definition distance (p1 p2 : Point) : num :=
  sqrt (pow2 (x p2 - x p1) + pow2 (y p2 - y p1))%js.

Definition normalize (v : Vector) : Vector :=
  let mag := sqrt (x v * x v + y v * y v)%js in
  if strictEq mag 0 then mkPoint 0 0 None
  else mkPoint (x v / mag)%js (y v / mag)%js None.

(** [random] is the value [Math.random()] returns to the call. *)
Definition randomRange (random : R) (min max : num) : num :=
  (random * (max - min) + min)%js.

Definition mapRange (value inMin inMax outMin outMax : num) : num :=
  ((value - inMin) * (outMax - outMin) / (inMax - inMin) + outMin)%js.

End Utils.

(** a point of the plane with finite coordinates *)
Definition point2 (x y : R) (z : option num) : Utils.Point :=
  Utils.mkPoint (Fin x) (Fin y) z.

(** ** The screen-to-world projector

    [mapScreenToWorld] with the [THREE.Vector3] methods it calls.  What
    [vec.unproject(camera)] computes from the matrices of the camera is a
    field of the camera here. *)
Module Projector.

Record Camera : Type := mkCamera {
  position : Vector3.t;
  unproject : Vector3.t -> Vector3.t
}.

(** [a || b] on numbers: [b] when [a] is [0] or [NaN] *)
Definition orElse (a b : num) : num :=
  match a with
  | NaN => b
  | Fin x => if Req_dec_T x 0 then b else a
  | _ => a
  end.

Definition sub (a b : Vector3.t) : Vector3.t :=
  Vector3.mk (Vector3.x a - Vector3.x b)%js (Vector3.y a - Vector3.y b)%js
             (Vector3.z a - Vector3.z b)%js.

Definition add (a b : Vector3.t) : Vector3.t :=
  Vector3.mk (Vector3.x a + Vector3.x b)%js (Vector3.y a + Vector3.y b)%js
             (Vector3.z a + Vector3.z b)%js.

Definition multiplyScalar (a : Vector3.t) (scalar : num) : Vector3.t :=
  Vector3.mk (Vector3.x a * scalar)%js (Vector3.y a * scalar)%js
             (Vector3.z a * scalar)%js.

Definition length (a : Vector3.t) : num :=
  sqrt (Vector3.x a * Vector3.x a + Vector3.y a * Vector3.y a
        + Vector3.z a * Vector3.z a)%js.

(** [divideScalar(s)] is [multiplyScalar(1 / s)] *)
Definition divideScalar (a : Vector3.t) (scalar : num) : Vector3.t :=
  multiplyScalar a (1 / scalar)%js.

(** [normalize()] is [divideScalar(length() || 1)] *)
Definition normalize (a : Vector3.t) : Vector3.t :=
  divideScalar a (orElse (length a) 1).

Definition mapScreenToWorld (camera : option Camera)
    (screenX screenY depthZ : num) : Vector3.t :=
  match camera with
  | None => Vector3.mk 0 0 0
  | Some camera =>
      let vec :=
        Vector3.mk ((1 - screenX) * 2 - 1)%js (neg screenY * 2 + 1)%js 0.5 in
      let vec := unproject camera vec in
      let vec := normalize (sub vec (position camera)) in
      let distance :=
        ((depthZ - Vector3.z (position camera)) / Vector3.z vec)%js in
      add (position camera) (multiplyScalar vec distance)
  end.

End Projector.


(** a camera whose unprojection leaves points at its own depth *)
Definition flatCamera : Projector.Camera :=
  Projector.mkCamera (vec 0 0 8)
    (fun v => Vector3.mk (Vector3.x v) (Vector3.y v) 8).

(** ** The sphere and the core

    Step 3 of [animate] on the two meshes of the scene, as a function of
    the smoothed state and of the mesh before the tick.  [setRGB] is
    taken to store the three numbers it is given. *)
Record SceneMesh : Type := mkSceneMesh {
  mesh_position : Vector3.t;
  rotation_y : num;
  rotation_z : num;
  mesh_scale : num;
  color : num * num * num;
  opacity : num
}.

(** the writes to [sphere] *)
Definition updateSphere (state : PhysicsState.t) (sphere : SceneMesh)
  : SceneMesh :=
  let r := min 1 (PhysicsState.gripStrength state
                  + PhysicsState.splitFactor state)%js in
  let g := max 0 (1 - PhysicsState.gripStrength state * 0.5)%js in
  mkSceneMesh
    (PhysicsState.position state)
    (rotation_y sphere + PhysicsState.rotationSpeed state)%js
    (rotation_z sphere + PhysicsState.rotationSpeed state * 0.5)%js
    (visualScale state)
    ((r * 0.5)%js, g, Fin 1)
    (max 0 (0.3 - PhysicsState.splitFactor state)%js).

(** the writes to [core] *)
Definition updateCore (state : PhysicsState.t) (core : SceneMesh)
  : SceneMesh :=
  mkSceneMesh
    (PhysicsState.position state)
    (rotation_y core) (rotation_z core)
    (visualScale state * 0.3)%js
    (Fin 1, (1 - PhysicsState.gripStrength state)%js,
     (1 - PhysicsState.gripStrength state)%js)
    (opacity core).

(** a frame whose projector maps finite screen points into the plane
    [z = 0] when asked for depth 0 *)
Definition planarFrame (f : Frame) : Prop :=
  forall sx sy : R, Vector3.z (mapScreenToWorld f sx sy 0) = Fin 0.

(** ** The range of the exact arithmetic *)

(** Sizes between which sums, products and quotients of a few numbers
    stay clear of the ends of the binary64 range. *)
Definition rangeTop : R := 2 ^ 200.
Definition rangeFloor : R := / 2 ^ 200.

(** a finite number of size at most [rangeTop] *)
Definition withinRange (x : R) : Prop := Rabs x <= rangeTop.

(** a landmark whose image coordinates are of size at most [rangeTop] *)
Definition inRange (p : Landmark.t) : Prop :=
  withinRange (Landmark.x p) /\ withinRange (Landmark.y p).

(** A hand scale far enough above [2^-537], where squares begin to
    underflow in binary64. *)
Definition scaleFloor : R := / 2 ^ 400.

(** A landmark set of 21 points in range whose scale is at least
    [scaleFloor]: on such a hand no square of [calculateGrip] overflows,
    the computed scale is positive, and a fingertip distance whose
    square underflows changes the quotient [avgDist/scaleBase] by less
    than [2^-137], far below the last digit of a double. *)
Definition regularHand (h : Hand) : Prop :=
  length h = 21%nat /\ Forall inRange h /\ scaleFloor <= scaleBase_of h.

(** every landmark set processed along the run is regular *)
Fixpoint regularRun (fs : list Frame) (w : World) : Prop :=
  match fs with
  | [] => True
  | f :: fs' =>
      Forall regularHand (processedHands f (lastTimeRef w))
      /\ regularRun fs' (animate f w)
  end.

(** [nearestWithin x n]: the integer [n] is within a half of [x], up to
    what rounding the last operations of [x] to binary64 can add (a
    relative [2^-50] covers three operations). *)
Definition nearestWithin (x : R) (n : Z) : Prop :=
  Rabs (IZR n - x) <= / 2 + Rabs x / 2 ^ 50.

(** a hand inside the frame, fingertips at 1.8 times the hand scale *)
Definition spreadHand : Hand := sampleHand (pt 0 0) (pt 0.5 0) (pt 0.9 0).

(** the spread hand at half the size, elsewhere in the frame, at other
    depths *)
Definition spreadHandMoved : Hand :=
  moveHand 0.5 0.25 0.5 (fun _ => 7) spreadHand.

(** two fists side by side, fingertips at 0.6 times the hand scale,
    their middle-finger bases 0.5 apart *)
Definition leftFist : Hand := sampleHand (pt 0.1 0.5) (pt 0.2 0.5) (pt 0.16 0.5).
Definition rightFist : Hand := sampleHand (pt 0.6 0.5) (pt 0.7 0.5) (pt 0.66 0.5).

(** a new video frame at time 1 showing the two fists *)
Definition frameTwoFists : Frame :=
  mkFrame true 1 [rightFist; leftFist] flatProjector.

(** ** The code in binary64

    The lines of the code on which rounded arithmetic departs in kind
    from exact arithmetic, over the binary64 numbers of the kernel and
    operation by operation as the source has them. *)

Module Binary64.

Import PrimFloat.
#[local] Open Scope float_scope.
#[local] Set Warnings "-inexact-float".

(** The real number a finite double stands for ([0] for the special
    values). *)
Definition toR (f : float) : R :=
  match FloatOps.Prim2SF f with
  | SpecFloat.S754_finite s m e =>
      ((if s then -1 else 1) * IZR (Zpos m) * powerRZ 2 e)%R
  | _ => 0%R
  end.

Definition is_neg_zero (a : float) : bool := eqb a 0 && ltb (1 / a) 0.

(** [Math.max] and [Math.min] of two arguments: [NaN] if either is, and
    [-0] below [+0]. *)
Definition Math_max (a b : float) : float :=
  if is_nan a || is_nan b then nan
  else if ltb a b then b
  else if ltb b a then a
  else if is_neg_zero a then b else a.

Definition Math_min (a b : float) : float :=
  if is_nan a || is_nan b then nan
  else if ltb a b then a
  else if ltb b a then b
  else if is_neg_zero b then b else a.

(** [Math.pow(a, 2)]: the square, rounded. *)
Definition Math_pow2 (a : float) : float := a * a.

(** [Math.round]: the nearest integer, halves towards [+Infinity].  A
    double of size [2^52] or more is an integer; below, [a + 2^52 - 2^52]
    is an integer next to [a]. *)
Definition Math_round (v : float) : float :=
  let a := abs v in
  if is_nan v then v
  else if leb 0x1p52 a then v
  else if eqb v 0 then v
  else
    let r := (a + 0x1p52) - 0x1p52 in
    let floor := if ltb a r then r - 1 else r in
    let frac := a - floor in
    if ltb v 0 then - (if ltb 0.5 frac then floor + 1 else floor)
    else if leb 0.5 frac then floor + 1 else floor.

(** [NormalizedLandmark] with binary64 coordinates *)
Record NormalizedLandmark : Type :=
  mkLandmark { x : float; y : float; z : float }.

(** [Math.sqrt(Math.pow(a.x - b.x, 2) + Math.pow(a.y - b.y, 2))] *)
Definition dist2D (a b : NormalizedLandmark) : float :=
  sqrt (Math_pow2 (x a - x b) + Math_pow2 (y a - y b)).

(** [calculateGrip] *)
Definition calculateGrip (landmarks : list NormalizedLandmark)
  : option float :=
  wrist <- nth_error landmarks 0 ;;
  t4 <- nth_error landmarks 4 ;;
  t8 <- nth_error landmarks 8 ;;
  t12 <- nth_error landmarks 12 ;;
  t16 <- nth_error landmarks 16 ;;
  t20 <- nth_error landmarks 20 ;;
  let tips := [t4; t8; t12; t16; t20] in
  l9 <- nth_error landmarks 9 ;;
  let scaleBase := dist2D l9 wrist in
  let totalDist :=
    fold_left (fun totalDist tip => totalDist + dist2D tip wrist) tips 0 in
  let avgDist := totalDist / 5 in
  let rawGrip := 1 - ((avgDist / scaleBase) - 0.6) / 1.2 in
  Some (Math_max 0 (Math_min 1 rawGrip)).

(** [state.gripStrength += (targetGrip - state.gripStrength)
    * CONFIG.SMOOTHING_FACTOR] *)
Definition smooth (state target : float) : float :=
  state + (target - state) * 0.15.

(** The smoothed grip after a tick that tracks the single hand [h]:
    [targetGrip = calculateGrip(h1)], then the smoothing step. *)
Definition gripAfterTick (gripStrength : float)
    (h : list NormalizedLandmark) : option float :=
  targetGrip <- calculateGrip h ;;
  Some (smooth gripStrength targetGrip).

(** [const pressure = Math.round(handData.gripStrength * 100)] *)
Definition pressure (gripStrength : float) : float :=
  Math_round (gripStrength * 100).

(** the landmark of real coordinates a binary64 landmark stands for *)
Definition toLandmark (p : NormalizedLandmark) : Landmark.t :=
  Landmark.mk (toR (x p)) (toR (y p)) (toR (z p)).

(** A hand with the wrist at [w], the middle-finger base at [b], the
    five fingertips at [t] and every other landmark at the wrist. *)
Definition sampleHand (w b t : NormalizedLandmark)
  : list NormalizedLandmark :=
  [ w; w; w; w; t;  w; w; w; t;  b; w; w; t;  w; w; w; t;  w; w; w; t ].

(** [0], [2^-600] and [2^-599] *)
Definition zero : float := 0.
Definition tiny : float := 0x1p-600.
Definition twice_tiny : float := 0x1p-599.

(** a hand inside the frame, [2^-600] of the frame wide, its fingertips
    at twice the hand scale *)
Definition tinyHand : list NormalizedLandmark :=
  sampleHand (mkLandmark zero zero zero) (mkLandmark tiny zero zero)
    (mkLandmark twice_tiny zero zero).

(** the hands of [spreadHand] and of a fist of the same scale, their
    coordinates the doubles next to 0.5, 0.9 and 0.3 *)
Definition spreadHand : list NormalizedLandmark :=
  sampleHand (mkLandmark 0 0 0) (mkLandmark 0.5 0 0) (mkLandmark 0.9 0 0).
Definition fistHand : list NormalizedLandmark :=
  sampleHand (mkLandmark 0 0 0) (mkLandmark 0.5 0 0) (mkLandmark 0.3 0 0).

Definition one : float := 1.

(** the double next to 0.075 *)
Definition grip075 : float := 0.075.

End Binary64.

(** the tiny hand, its coordinates read as real numbers *)
Definition tinyHand : Hand := map Binary64.toLandmark Binary64.tinyHand.

(** ** Arithmetic on finite numbers *)

Lemma add_Fin (x y : R) : (Fin x + Fin y)%js = Fin (x + y).
Proof. reflexivity. Qed.

Lemma sub_Fin (x y : R) : (Fin x - Fin y)%js = Fin (x - y).
Proof. reflexivity. Qed.

Lemma mul_Fin (x y : R) : (Fin x * Fin y)%js = Fin (x * y).
Proof. reflexivity. Qed.

Lemma max_Fin (x y : R) : max (Fin x) (Fin y) = Fin (Rmax x y).
Proof. reflexivity. Qed.

Lemma min_Fin (x y : R) : min (Fin x) (Fin y) = Fin (Rmin x y).
Proof. reflexivity. Qed.

Lemma sqrt_Fin (x : R) : 0 <= x -> sqrt (Fin x) = Fin (R_sqrt.sqrt x).
Proof.
  intros Hx. unfold sqrt.
  destruct (Rlt_dec x 0) as [Hneg | _]; [lra | reflexivity].
Qed.

Lemma div_Fin (x y : R) : y <> 0 -> (Fin x / Fin y)%js = Fin (x / y).
Proof.
  intros Hy. unfold div.
  destruct (Req_dec_T y 0) as [H0 | _]; [contradiction | reflexivity].
Qed.

Lemma gtb_Fin_true (x y : R) : y < x -> (Fin x >? Fin y)%js = true.
Proof.
  intros H. unfold gtb. destruct (Rlt_dec y x); [reflexivity | lra].
Qed.

Lemma gtb_Fin_false (x y : R) : x <= y -> (Fin x >? Fin y)%js = false.
Proof.
  intros H. unfold gtb. destruct (Rlt_dec y x); [lra | reflexivity].
Qed.

Lemma gtb_false_of_le (a b : num) : (a <= b)%js -> (a >? b)%js = false.
Proof.
  destruct a as [x | | |], b as [y | | |]; cbn; try contradiction;
    try reflexivity.
  intros H. destruct (Rlt_dec y x); [lra | reflexivity].
Qed.

Lemma dist2D_Fin (a b : Landmark.t) : dist2D a b = Fin (euclid2D a b).
Proof.
  unfold dist2D, euclid2D. cbn [pow2 sub add neg].
  rewrite sqrt_Fin.
  - do 2 f_equal. ring.
  - apply Rplus_le_le_0_compat; apply Rle_0_sqr.
Qed.

Lemma euclid2D_nonneg (a b : Landmark.t) : 0 <= euclid2D a b.
Proof. apply sqrt_pos. Qed.

Lemma clamp01_cases (r : R) :
  (r <= 0 /\ clamp01 r = 0) \/ (0 <= r <= 1 /\ clamp01 r = r)
  \/ (1 <= r /\ clamp01 r = 1).
Proof.
  unfold clamp01, Rmin. destruct (Rle_dec 1 r); unfold Rmax;
    match goal with |- context [Rle_dec ?a ?b] => destruct (Rle_dec a b) end;
    first [ left; split; lra
          | right; left; split; lra
          | right; right; split; lra ].
Qed.

Lemma clamp01_range (r : R) : 0 <= clamp01 r <= 1.
Proof.
  destruct (clamp01_cases r) as [[? ->] | [[? ->] | [? ->]]]; lra.
Qed.

Lemma clamp01_mono (r r' : R) : r <= r' -> clamp01 r <= clamp01 r'.
Proof.
  intros H.
  destruct (clamp01_cases r) as [[? ->] | [[? ->] | [? ->]]];
    destruct (clamp01_cases r') as [[? ->] | [[? ->] | [? ->]]]; lra.
Qed.

Lemma clamp01_low (r : R) : r <= 0 -> clamp01 r = 0.
Proof.
  intros H. destruct (clamp01_cases r) as [[? ->] | [[? ->] | [? ->]]]; lra.
Qed.

Lemma clamp01_high (r : R) : 1 <= r -> clamp01 r = 1.
Proof.
  intros H. destruct (clamp01_cases r) as [[? ->] | [[? ->] | [? ->]]]; lra.
Qed.

Lemma clamp01_mid (r : R) : 0 <= r <= 1 -> clamp01 r = r.
Proof.
  intros H. destruct (clamp01_cases r) as [[? ->] | [[? ->] | [? ->]]]; lra.
Qed.

Lemma max_min_Fin (r : R) : max 0 (min 1 (Fin r)) = Fin (clamp01 r).
Proof. reflexivity. Qed.

Lemma smooth_Fin (s t : R) :
  smooth (Fin s) (Fin t) = Fin (s + (t - s) * CONFIG.SMOOTHING_FACTOR).
Proof. reflexivity. Qed.

(** The quotient [avgDist / scaleBase] the code forms, as a number. *)
Lemma div_by_zero_scale (a : R) :
  0 <= a -> (Fin a / Fin 0)%js = if Rlt_dec 0 a then PInf else NaN.
Proof.
  intros Ha. unfold div, signed_inf.
  destruct (Req_dec_T 0 0) as [_ | Hne]; [| contradiction Hne; reflexivity].
  destruct (Rlt_dec 0 a); [reflexivity |].
  destruct (Rlt_dec a 0); [lra | reflexivity].
Qed.

(** ** The special values on small inputs *)

Example div_pos_zero : (1 / 0)%js = PInf.
Proof. rewrite div_by_zero_scale by lra. destruct (Rlt_dec 0 1); [reflexivity | lra]. Qed.

Example div_zero_zero : (0 / 0)%js = NaN.
Proof. rewrite div_by_zero_scale by lra. destruct (Rlt_dec 0 0); [lra | reflexivity]. Qed.

Example clamp_NInf : max 0 (min 1 NInf) = Fin 0.
Proof. reflexivity. Qed.

Example clamp_PInf : max 0 (min 1 PInf) = Fin 1.
Proof. cbn [min]. rewrite max_Fin. f_equal. apply Rmax_right. lra. Qed.

Example clamp_NaN : max 0 (min 1 NaN) = NaN.
Proof. reflexivity. Qed.

Example gtb_NaN : (NaN >? 0.1)%js = false.
Proof. reflexivity. Qed.

Example round_half_up : round 2.5 = Fin 3.
Proof.
  unfold round. do 2 f_equal. symmetry. apply Int_part_spec. lra.
Qed.

Example round_negative_half : round (-2.5) = Fin (-2).
Proof.
  unfold round. do 2 f_equal. symmetry. apply Int_part_spec. lra.
Qed.

(** Finite operands: the operations are those of the reals. *)
Ltac fin_arith :=
  repeat first
    [ rewrite add_Fin | rewrite sub_Fin | rewrite mul_Fin
    | rewrite max_min_Fin | rewrite max_Fin | rewrite min_Fin
    | rewrite dist2D_Fin | rewrite div_Fin by lra ].

(** A hand of 21 landmarks, spelled out. *)
Ltac hand21 h H :=
  do 21 (destruct h as [| ? h]; [discriminate H |]);
  destruct h; [clear H | discriminate H].

(** In the exact arithmetic of [num], [calculateGrip] on a full hand
    with a positive scale evaluates the grip formula on the two
    distances. *)
Lemma calculateGrip_formula (h : Hand) :
  length h = 21%nat -> 0 < scaleBase_of h ->
  calculateGrip h = Some (Fin (grip_formula (avgDist_of h) (scaleBase_of h))).
Proof.
  intros Hlen Hpos.
  hand21 h Hlen.
  unfold scaleBase_of, avgDist_of, wrist_of, landmark_at in *.
  cbn [nth] in *.
  unfold calculateGrip. cbn [nth_error obind fold_left].
  fin_arith. unfold grip_formula.
  do 3 f_equal. lra.
Qed.

Lemma grip_formula_antitone (a a' s : R) :
  0 < s -> a <= a' -> grip_formula a' s <= grip_formula a s.
Proof.
  intros Hs Ha. unfold grip_formula. apply clamp01_mono.
  assert (a / s <= a' / s).
  { unfold Rdiv. apply Rmult_le_compat_r; [| exact Ha].
    left. apply Rinv_0_lt_compat. exact Hs. }
  lra.
Qed.

Lemma euclid2D_horizontal (a b : Landmark.t) :
  Landmark.y a = Landmark.y b -> Landmark.x b <= Landmark.x a ->
  euclid2D a b = Landmark.x a - Landmark.x b.
Proof.
  intros Hy Hx. unfold euclid2D. rewrite Hy.
  replace (_ + _) with ((Landmark.x a - Landmark.x b) * (Landmark.x a - Landmark.x b))
    by ring.
  apply sqrt_square. lra.
Qed.

Lemma sampleHand_scaleBase (xb xt : R) :
  0 <= xb -> scaleBase_of (sampleHand (pt 0 0) (pt xb 0) (pt xt 0)) = xb.
Proof.
  intros H. unfold scaleBase_of, wrist_of, landmark_at, sampleHand. cbn [nth].
  rewrite euclid2D_horizontal; cbn; lra.
Qed.

Lemma sampleHand_avgDist (xb xt : R) :
  0 <= xt -> avgDist_of (sampleHand (pt 0 0) (pt xb 0) (pt xt 0)) = xt.
Proof.
  intros H. unfold avgDist_of, wrist_of, landmark_at, sampleHand. cbn [nth].
  rewrite euclid2D_horizontal; cbn; lra.
Qed.

(** ** Regular hands *)

Lemma rangeTop_large : 1 <= rangeTop.
Proof. unfold rangeTop. apply pow_R1_Rle. lra. Qed.

Lemma withinRange_unit (x : R) : - 1 <= x <= 1 -> withinRange x.
Proof.
  intros H. unfold withinRange. pose proof rangeTop_large.
  apply Rabs_le. lra.
Qed.

Lemma scaleFloor_pos : 0 < scaleFloor.
Proof. unfold scaleFloor. apply Rinv_0_lt_compat, pow_lt. lra. Qed.

Lemma scaleFloor_small : scaleFloor <= / 16.
Proof.
  unfold scaleFloor. apply Rinv_le_contravar; [lra |].
  change 400%nat with (4 + 396)%nat. rewrite pow_add.
  assert (H : 1 <= 2 ^ 396) by (apply pow_R1_Rle; lra).
  replace (2 ^ 4) with 16 by (cbn; lra). lra.
Qed.

Lemma regularHand_positiveScale (h : Hand) :
  regularHand h -> positiveScale h.
Proof.
  intros (Hlen & _ & Hscale). split; [exact Hlen |].
  pose proof scaleFloor_pos. lra.
Qed.

Lemma regularRun_positiveScaleRun (fs : list Frame) :
  forall w : World, regularRun fs w -> positiveScaleRun fs w.
Proof.
  induction fs as [| f fs IH]; intros w Hrun; [exact I |].
  destruct Hrun as [Hf Hrest]. split; [| apply IH; exact Hrest].
  eapply Forall_impl; [| exact Hf]. exact regularHand_positiveScale.
Qed.

Lemma regularRun_firstn (k : nat) :
  forall (fs : list Frame) (w : World),
    regularRun fs w -> regularRun (firstn k fs) w.
Proof.
  induction k as [| k IH]; intros [| f fs] w Hrun; cbn; try exact I.
  destruct Hrun as [Hf Hrest]. split; [exact Hf |]. apply IH. exact Hrest.
Qed.

(** a sample hand laid out along a horizontal line *)
Lemma sampleHand_row (wx bx tx y : R) :
  wx <= bx -> wx <= tx ->
  scaleBase_of (sampleHand (pt wx y) (pt bx y) (pt tx y)) = bx - wx
  /\ avgDist_of (sampleHand (pt wx y) (pt bx y) (pt tx y)) = tx - wx.
Proof.
  intros Hb Ht.
  unfold scaleBase_of, avgDist_of, wrist_of, landmark_at, sampleHand.
  cbn [nth]. rewrite !euclid2D_horizontal by (cbn; lra). cbn. lra.
Qed.

Lemma inRange_sampleHand (w b t : Landmark.t) :
  inRange w -> inRange b -> inRange t -> Forall inRange (sampleHand w b t).
Proof.
  intros Hw Hb Ht. unfold sampleHand.
  repeat (apply Forall_cons; [assumption |]). apply Forall_nil.
Qed.

Lemma inRange_pt (x y : R) : - 1 <= x <= 1 -> - 1 <= y <= 1 -> inRange (pt x y).
Proof. intros Hx Hy. split; apply withinRange_unit; assumption. Qed.

Lemma regularHand_row (wx bx tx y : R) :
  0 <= wx -> wx + / 16 <= bx <= 1 -> wx <= tx <= 1 -> 0 <= y <= 1 ->
  regularHand (sampleHand (pt wx y) (pt bx y) (pt tx y)).
Proof.
  intros Hw Hb Ht Hy.
  destruct (sampleHand_row wx bx tx y) as [Hs _]; [lra | lra |].
  split; [reflexivity |]. split.
  - apply inRange_sampleHand; apply inRange_pt; lra.
  - rewrite Hs. pose proof scaleFloor_small. lra.
Qed.

Lemma regularHand_spreadHand : regularHand spreadHand.
Proof. apply regularHand_row; lra. Qed.

Lemma regularHand_leftFist : regularHand leftFist.
Proof. apply regularHand_row; lra. Qed.

Lemma regularHand_rightFist : regularHand rightFist.
Proof. apply regularHand_row; lra. Qed.

(** ** The tiny hand *)

Lemma toR_zero : Binary64.toR Binary64.zero = 0.
Proof.
  unfold Binary64.toR.
  change (FloatOps.Prim2SF Binary64.zero) with (SpecFloat.S754_zero false).
  reflexivity.
Qed.

Lemma toR_tiny :
  Binary64.toR Binary64.tiny = IZR 4503599627370496 * powerRZ 2 (-652).
Proof.
  unfold Binary64.toR.
  change (FloatOps.Prim2SF Binary64.tiny)
    with (SpecFloat.S754_finite false 4503599627370496 (-652)).
  cbv iota. lra.
Qed.

Lemma toR_twice_tiny :
  Binary64.toR Binary64.twice_tiny = 2 * Binary64.toR Binary64.tiny.
Proof.
  rewrite toR_tiny. unfold Binary64.toR.
  change (FloatOps.Prim2SF Binary64.twice_tiny)
    with (SpecFloat.S754_finite false 4503599627370496 (-651)).
  cbv iota. change (-651)%Z with (1 + -652)%Z.
  rewrite powerRZ_add by lra. rewrite powerRZ_1. lra.
Qed.

Lemma toR_tiny_pos : 0 < Binary64.toR Binary64.tiny.
Proof.
  rewrite toR_tiny. apply Rmult_lt_0_compat.
  - apply IZR_lt. reflexivity.
  - apply powerRZ_lt. lra.
Qed.

Lemma toR_tiny_small : Binary64.toR Binary64.twice_tiny <= 1.
Proof.
  rewrite toR_twice_tiny, toR_tiny.
  assert (H : IZR 4503599627370496 = powerRZ 2 52).
  { change (powerRZ 2 52) with (2 ^ Pos.to_nat 52). rewrite pow_IZR.
    f_equal. }
  rewrite H.
  rewrite <- powerRZ_add by lra.
  replace 2 with (powerRZ 2 1) at 1 by (apply powerRZ_1).
  rewrite <- powerRZ_add by lra.
  change (1 + (52 + -652))%Z with (-599)%Z.
  change (powerRZ 2 (-599)) with (/ 2 ^ Pos.to_nat 599).
  rewrite <- Rinv_1. apply Rinv_le_contravar; [lra |].
  apply pow_R1_Rle. lra.
Qed.

Lemma tinyHand_eq :
  tinyHand
  = sampleHand (pt 0 0) (pt (Binary64.toR Binary64.tiny) 0)
      (pt (Binary64.toR Binary64.twice_tiny) 0).
Proof.
  unfold tinyHand, Binary64.tinyHand, Binary64.sampleHand, sampleHand, pt,
    Binary64.toLandmark.
  cbn [map Binary64.x Binary64.y Binary64.z].
  rewrite toR_zero. reflexivity.
Qed.

Lemma tinyHand_scale :
  scaleBase_of tinyHand = Binary64.toR Binary64.tiny
  /\ avgDist_of tinyHand = 2 * Binary64.toR Binary64.tiny.
Proof.
  pose proof toR_tiny_pos as Hpos.
  rewrite tinyHand_eq.
  destruct (sampleHand_row 0 (Binary64.toR Binary64.tiny)
              (Binary64.toR Binary64.twice_tiny) 0) as [Hs Ha].
  - lra.
  - rewrite toR_twice_tiny. lra.
  - rewrite Hs, Ha, toR_twice_tiny. split; lra.
Qed.

Lemma inRange_tinyHand : Forall inRange tinyHand.
Proof.
  pose proof toR_tiny_pos as Hpos. pose proof toR_tiny_small as Hsmall.
  pose proof toR_twice_tiny as Htwice.
  rewrite tinyHand_eq.
  apply inRange_sampleHand; apply inRange_pt; lra.
Qed.

(** ** The grip formula (C1) *)

(** The claim as the specification states it fails on the code.  The
    tiny hand has its 21 landmarks in range and a positive scale, and
    the formula gives it the grip 0 of an open hand; in
    binary64 the squares of [calculateGrip] underflow to 0, the scale
    and the mean distance are computed as 0, and the result is [NaN]. *)
Lemma C1_counterexample :
  length tinyHand = 21%nat
  /\ Forall inRange tinyHand
  /\ 0 < scaleBase_of tinyHand
  /\ grip_formula (avgDist_of tinyHand) (scaleBase_of tinyHand) = 0
  /\ Binary64.calculateGrip Binary64.tinyHand = Some PrimFloat.nan.
Proof.
  pose proof toR_tiny_pos as Hpos.
  destruct tinyHand_scale as [Hs Ha].
  split; [reflexivity |]. split; [exact inRange_tinyHand |].
  split; [rewrite Hs; exact Hpos |]. split.
  - rewrite Hs, Ha. unfold grip_formula.
    replace (2 * Binary64.toR Binary64.tiny / Binary64.toR Binary64.tiny)
      with 2 by (field; lra).
    apply clamp01_low. lra.
  - vm_compute. reflexivity.
Qed.

(** On hands of an ordinary size the binary64 grip is the one of the
    formula: 0 for the spread hand, 1 for the fist. *)
Example calculateGrip_binary64_samples :
  Binary64.calculateGrip Binary64.spreadHand = Some Binary64.zero
  /\ Binary64.calculateGrip Binary64.fistHand = Some Binary64.one.
Proof. split; vm_compute; reflexivity. Qed.

(** C1, on the hands the arithmetic of the code can handle.  On a
    regular hand -- 21 landmarks in range, scale at least
    [scaleFloor] -- [calculateGrip] returns the clamp to [[0,1]] of
    [1 - ((avgDist/scaleBase) - 0.6) / 1.2], with [avgDist] the mean
    distance of the five fingertips to the wrist: the value lies in
    [[0,1]], it is 0 at the ratio 1.8 and 1 at the ratio 0.6, and between
    regular hands of the same scale it does not increase when [avgDist]
    increases. *)
Theorem C1_calculateGrip_formula (h : Hand) :
  regularHand h ->
  calculateGrip h = Some (Fin (grip_formula (avgDist_of h) (scaleBase_of h)))
  /\ 0 <= grip_formula (avgDist_of h) (scaleBase_of h) <= 1
  /\ (avgDist_of h / scaleBase_of h = 1.8 -> calculateGrip h = Some (Fin 0))
  /\ (avgDist_of h / scaleBase_of h = 0.6 -> calculateGrip h = Some (Fin 1))
  /\ (forall h' : Hand,
        regularHand h' -> scaleBase_of h' = scaleBase_of h ->
        avgDist_of h <= avgDist_of h' ->
        exists g g' : R,
          calculateGrip h = Some (Fin g) /\ calculateGrip h' = Some (Fin g')
          /\ g' <= g).
Proof.
  intros Hreg.
  destruct (regularHand_positiveScale h Hreg) as [Hlen Hpos].
  pose proof (calculateGrip_formula h Hlen Hpos) as Hgrip.
  split; [exact Hgrip |].
  split; [apply clamp01_range |].
  split; [| split].
  - intros Hratio. rewrite Hgrip. unfold grip_formula. rewrite Hratio.
    do 2 f_equal. apply clamp01_low. lra.
  - intros Hratio. rewrite Hgrip. unfold grip_formula. rewrite Hratio.
    do 2 f_equal. apply clamp01_high. lra.
  - intros h' Hreg' Hscale Havg.
    destruct (regularHand_positiveScale h' Hreg') as [Hlen' Hpos'].
    exists (grip_formula (avgDist_of h) (scaleBase_of h)),
           (grip_formula (avgDist_of h') (scaleBase_of h')).
    split; [exact Hgrip |]. split.
    + apply calculateGrip_formula; assumption.
    + rewrite Hscale. apply grip_formula_antitone; assumption.
Qed.

(** The spread hand: regular, fingertips at 1.8 times the scale, and the
    grip 0. *)
Lemma C1_witness :
  regularHand spreadHand
  /\ avgDist_of spreadHand / scaleBase_of spreadHand = 1.8
  /\ calculateGrip spreadHand = Some (Fin 0).
Proof.
  destruct (sampleHand_row 0 0.5 0.9 0) as [Hs Ha]; [lra | lra |].
  fold spreadHand in Hs, Ha.
  assert (Hratio : avgDist_of spreadHand / scaleBase_of spreadHand = 1.8)
    by (rewrite Hs, Ha; lra).
  split; [exact regularHand_spreadHand |]. split; [exact Hratio |].
  apply (C1_calculateGrip_formula spreadHand regularHand_spreadHand).
  exact Hratio.
Defined.

Example calculateGrip_closedHand : calculateGrip closedHand = Some (Fin 1).
Proof.
  assert (Hs : scaleBase_of closedHand = 1)
    by (unfold closedHand; rewrite sampleHand_scaleBase; lra).
  assert (Ha : avgDist_of closedHand = 0.6)
    by (unfold closedHand; rewrite sampleHand_avgDist; lra).
  rewrite calculateGrip_formula; [| reflexivity | rewrite Hs; lra].
  rewrite Hs, Ha. unfold grip_formula. do 2 f_equal.
  apply clamp01_high. lra.
Qed.

(** ** The degenerate hand scale *)

Lemma avgDist_nonneg (h : Hand) : 0 <= avgDist_of h.
Proof.
  unfold avgDist_of.
  pose proof (euclid2D_nonneg (landmark_at h 4) (wrist_of h)).
  pose proof (euclid2D_nonneg (landmark_at h 8) (wrist_of h)).
  pose proof (euclid2D_nonneg (landmark_at h 12) (wrist_of h)).
  pose proof (euclid2D_nonneg (landmark_at h 16) (wrist_of h)).
  pose proof (euclid2D_nonneg (landmark_at h 20) (wrist_of h)).
  lra.
Qed.

(** In the exact arithmetic of [num], with a zero scale the clamp
    absorbs the infinity; only [0/0] survives, as [NaN]. *)
Lemma calculateGrip_zero_scale (h : Hand) :
  length h = 21%nat -> scaleBase_of h = 0 ->
  calculateGrip h = Some (if Rlt_dec 0 (avgDist_of h) then Fin 0 else NaN).
Proof.
  intros Hlen Hzero.
  pose proof (avgDist_nonneg h) as Hnonneg.
  hand21 h Hlen.
  unfold scaleBase_of, avgDist_of, wrist_of, landmark_at in *.
  cbn [nth] in *.
  unfold calculateGrip. cbn [nth_error obind fold_left].
  fin_arith. rewrite Hzero.
  rewrite div_by_zero_scale by lra.
  match goal with
  | |- context [Rlt_dec 0 ?a] =>
      match type of Hnonneg with
      | 0 <= ?b => replace a with b by lra
      end
  end.
  destruct (Rlt_dec 0 _) as [Hpos | Hnpos].
  - cbn [sub add neg].
    unfold div. destruct (Rlt_dec 1.2 0); [lra |]. reflexivity.
  - reflexivity.
Qed.

Lemma smooth_NaN_target (s : num) : smooth s NaN = NaN.
Proof. destruct s; reflexivity. Qed.

(** ** The particle loop *)

Lemma for_loop_particleStep (state : PhysicsState.t) (count : nat) :
  forall (start : nat) (w : World) (mesh : InstancedMesh.t),
    instancedParticles w = Some mesh ->
    for_loop start count (particleStep state) w
    = let r := placeParticles state (InstancedMesh.particles mesh) start count
                 (InstancedMesh.instanceMatrix mesh) in
      (completion_of (fst r),
       with_mesh w (InstancedMesh.mk (InstancedMesh.position mesh)
                      (InstancedMesh.particles mesh) (snd r))).
Proof.
  induction count as [| count IH]; intros start w mesh Hmesh.
  - cbn. unfold ret, with_mesh. destruct w as [ps lt hd im].
    cbn in *. subst im. destruct mesh; reflexivity.
  - cbn [for_loop placeParticles].
    unfold bind at 1. unfold particleStep at 1.
    unfold bind, get. rewrite Hmesh. unfold lift.
    destruct (nth_error (InstancedMesh.particles mesh) start) as [p |] eqn:Hp.
    + unfold set_instancedParticles.
      erewrite IH by reflexivity. cbn. reflexivity.
    + cbn. unfold with_mesh. destruct w as [ps lt hd im].
      cbn in *. subst im. destruct mesh; reflexivity.
Qed.

Lemma updateParticles_closed (state : PhysicsState.t) (w : World) :
  updateParticles state w
  = match instancedParticles w with
    | None => (Normal tt, w)
    | Some mesh =>
        let r := placeParticles state (InstancedMesh.particles mesh) 0
                   CONFIG.PARTICLE_COUNT (InstancedMesh.instanceMatrix mesh) in
        (completion_of (fst r),
         with_mesh w (InstancedMesh.mk (PhysicsState.position state)
                        (InstancedMesh.particles mesh) (snd r)))
    end.
Proof.
  unfold updateParticles, bind, get.
  destruct (instancedParticles w) as [mesh |] eqn:Hmesh; [| reflexivity].
  unfold set_instancedParticles.
  erewrite for_loop_particleStep by reflexivity.
  reflexivity.
Qed.

(** ** One tick *)

Lemma processVision_closed (f : Frame) (w : World) :
  processVision f w
  = (match frameTargets f (lastTimeRef w) with
     | Some tg => Normal tg
     | None => Throw
     end,
     mkWorld (physicsState w) (currentTime f) (handData w)
             (instancedParticles w)).
Proof.
  unfold processVision, frameTargets, bind, get.
  destruct (Req_dec_T (currentTime f) (lastTimeRef w)) as [Heq | Hne].
  - unfold ret. rewrite Heq. destruct w; reflexivity.
  - unfold set_lastTimeRef, lift. cbn.
    destruct (detectTargets f); reflexivity.
Qed.

Lemma syncUI_closed (tm : TrackingMode) (state : PhysicsState.t) (w : World) :
  syncUI tm state w
  = (Normal tt,
     mkWorld (physicsState w) (lastTimeRef w)
             (nextHandData tm state (handData w)) (instancedParticles w)).
Proof. destruct tm; reflexivity. Qed.

Lemma animate_body_not_ready (f : Frame) (w : World) :
  refsReady f = false ->
  animate_body f w
  = (Normal tt,
     mkWorld (advance (physicsState w)) (lastTimeRef w) (handData w)
             (instancedParticles w)).
Proof.
  intros Hready. unfold animate_body, bind, advanceTime, bind, get.
  cbn. rewrite Hready. reflexivity.
Qed.

(** A tick that passes the guard on the refs, in one equation: step 1
    may throw, and so may the particle loop, after the physics state was
    written and before the UI is synchronised. *)
Lemma animate_body_ready (f : Frame) (w : World) :
  refsReady f = true ->
  animate_body f w
  = match frameTargets f (lastTimeRef w) with
    | None =>
        (Throw,
         mkWorld (advance (physicsState w)) (currentTime f) (handData w)
                 (instancedParticles w))
    | Some tg =>
        let state := nextPhysics tg (physicsState w) in
        (completion_of (loopCompletes state w),
         mkWorld state (currentTime f)
           (if loopCompletes state w
            then nextHandData (t_trackingMode tg) state (handData w)
            else handData w)
           (nextMesh state w))
    end.
Proof.
  intros Hready. unfold animate_body.
  unfold bind at 1. unfold advanceTime at 1. unfold bind at 1. unfold get at 1.
  unfold set_physicsState at 1. rewrite Hready. cbn [negb].
  unfold bind at 1. rewrite processVision_closed.
  cbn [lastTimeRef physicsState handData instancedParticles].
  destruct (frameTargets f (lastTimeRef w)) as [tg |]; [| reflexivity].
  unfold bind at 1. unfold get at 1. cbn [physicsState].
  unfold bind at 1. unfold set_physicsState at 1.
  cbn [lastTimeRef physicsState handData instancedParticles].
  unfold bind at 1. fold (advance (physicsState w)).
  fold (nextPhysics tg (physicsState w)).
  cbv zeta. rewrite updateParticles_closed.
  unfold loopCompletes, nextMesh.
  cbn [instancedParticles].
  destruct (instancedParticles w) as [mesh |].
  - cbv zeta.
    destruct (fst (placeParticles _ _ _ _ _)); cbn [completion_of].
    + rewrite syncUI_closed. reflexivity.
    + reflexivity.
  - rewrite syncUI_closed. reflexivity.
Qed.

Lemma animate_not_ready (f : Frame) (w : World) :
  refsReady f = false ->
  animate f w
  = mkWorld (advance (physicsState w)) (lastTimeRef w) (handData w)
            (instancedParticles w).
Proof.
  intros Hready. unfold animate.
  rewrite animate_body_not_ready by exact Hready. reflexivity.
Qed.

Lemma animate_ready_world (f : Frame) (w : World) :
  refsReady f = true ->
  animate f w
  = match frameTargets f (lastTimeRef w) with
    | None =>
        mkWorld (advance (physicsState w)) (currentTime f) (handData w)
                (instancedParticles w)
    | Some tg =>
        let state := nextPhysics tg (physicsState w) in
        mkWorld state (currentTime f)
          (if loopCompletes state w
           then nextHandData (t_trackingMode tg) state (handData w)
           else handData w)
          (nextMesh state w)
    end.
Proof.
  intros Hready. unfold animate.
  rewrite animate_body_ready by exact Hready.
  destruct (frameTargets f (lastTimeRef w)); reflexivity.
Qed.

Lemma animate_physicsState (f : Frame) (w : World) :
  refsReady f = true ->
  physicsState (animate f w)
  = match frameTargets f (lastTimeRef w) with
    | None => advance (physicsState w)
    | Some tg => nextPhysics tg (physicsState w)
    end.
Proof.
  intros Hready. rewrite animate_ready_world by exact Hready.
  destruct (frameTargets f (lastTimeRef w)); reflexivity.
Qed.

(** The particle records are never written. *)
Lemma animate_particlesOf (f : Frame) (w : World) :
  particlesOf (animate f w) = particlesOf w.
Proof.
  destruct (refsReady f) eqn:Hready.
  - rewrite animate_ready_world by exact Hready.
    destruct (frameTargets f (lastTimeRef w)); [| reflexivity].
    unfold particlesOf, nextMesh. cbv zeta. cbn [instancedParticles].
    destruct (instancedParticles w); reflexivity.
  - rewrite animate_not_ready by exact Hready. reflexivity.
Qed.

Lemma placeParticles_completes (state : PhysicsState.t)
    (data : list Particle.t) (count : nat) :
  forall (start : nat) (matrices : list Matrix4),
    (start + count <= length data)%nat ->
    fst (placeParticles state data start count matrices) = true.
Proof.
  induction count as [| count IH]; intros start matrices Hlen.
  - reflexivity.
  - cbn [placeParticles].
    destruct (nth_error data start) as [p |] eqn:Hp.
    + apply IH. lia.
    + apply nth_error_None in Hp. lia.
Qed.

Lemma loopCompletes_full (state : PhysicsState.t) (w : World) :
  (CONFIG.PARTICLE_COUNT <= length (particlesOf w))%nat ->
  loopCompletes state w = true.
Proof.
  unfold loopCompletes, particlesOf.
  destruct (instancedParticles w) as [mesh |]; [| reflexivity].
  intros Hlen. apply placeParticles_completes. exact Hlen.
Qed.

Lemma sampleMesh_full (ps : PhysicsState.t) (lt : R) (hd : HandData.t) :
  (CONFIG.PARTICLE_COUNT
   <= length (particlesOf (mkWorld ps lt hd (Some sampleMesh))))%nat.
Proof.
  unfold particlesOf, sampleMesh, initThree. cbv zeta.
  cbn [instancedParticles InstancedMesh.particles].
  rewrite length_map, length_seq. apply Nat.le_refl.
Qed.

(** ** A tick on an unchanged video timestamp (C8) *)

Lemma untouched_initialWorld (mesh : option InstancedMesh.t) :
  untouched (initialWorld mesh).
Proof. split; reflexivity. Qed.

(** Ticks that stop at the guard leave the world untouched. *)
Lemma animate_untouched (f : Frame) (w : World) :
  refsReady f = false -> untouched w -> untouched (animate f w).
Proof.
  intros Hready [Hps Hhd]. rewrite animate_not_ready by exact Hready.
  split; cbn [physicsState handData]; [| exact Hhd].
  rewrite Hps. reflexivity.
Qed.

(** Until the refs are all set, a run leaves the mounted world
    untouched. *)
Lemma run_untouched (mesh : option InstancedMesh.t) (fs : list Frame) :
  Forall (fun f => refsReady f = false) fs ->
  untouched (run fs (initialWorld mesh)).
Proof.
  intros Hfs.
  assert (Hgen : forall w, untouched w -> untouched (run fs w)).
  { induction Hfs as [| f fs Hf _ IH]; intros w Hw; [exact Hw |].
    cbn [run fold_left]. apply (IH (animate f w)).
    apply animate_untouched; assumption. }
  apply Hgen. apply untouched_initialWorld.
Qed.

(** C8.  On a tick at which the video's timestamp equals the last
    processed one, the detector is not consulted: whatever hands the
    frame holds, step 1 leaves the world alone and yields the default
    targets (origin, grip 0, split 0, no hand).  The tick then moves the
    smoothed position, grip and split one step of 0.15 of the way to
    (origin, 0, 0): each value [v] becomes [v + (0 - v) * 0.15], which
    for a finite [v] is [0.85 * v]; and a tick that runs to its end
    reports the hand as absent.  This holds on the ticks that pass the
    guard on the refs, and on the ticks before the first of them, when
    the state still rests at (origin, 0, 0). *)
Theorem C8_unchanged_timestamp_decays (f : Frame) (w : World) :
  currentTime f = lastTimeRef w ->
  refsReady f = true \/ untouched w ->
  processVision f w = (Normal defaultTargets, w)
  /\ defaultTargets = mkTargets (Vector3.mk 0 0 0) 0 0 false TM_NONE
  /\ PhysicsState.position (physicsState (animate f w))
     = Vector3.mk
         (Vector3.x (PhysicsState.position (physicsState w))
          + (0 - Vector3.x (PhysicsState.position (physicsState w))) * 0.15)%js
         (Vector3.y (PhysicsState.position (physicsState w))
          + (0 - Vector3.y (PhysicsState.position (physicsState w))) * 0.15)%js
         (Vector3.z (PhysicsState.position (physicsState w))
          + (0 - Vector3.z (PhysicsState.position (physicsState w))) * 0.15)%js
  /\ PhysicsState.gripStrength (physicsState (animate f w))
     = (PhysicsState.gripStrength (physicsState w)
        + (0 - PhysicsState.gripStrength (physicsState w)) * 0.15)%js
  /\ PhysicsState.splitFactor (physicsState (animate f w))
     = (PhysicsState.splitFactor (physicsState w)
        + (0 - PhysicsState.splitFactor (physicsState w)) * 0.15)%js
  /\ (forall x y z : R,
        PhysicsState.position (physicsState w) = vec x y z ->
        PhysicsState.position (physicsState (animate f w))
        = vec (0.85 * x) (0.85 * y) (0.85 * z))
  /\ (forall g : R,
        PhysicsState.gripStrength (physicsState w) = Fin g ->
        PhysicsState.gripStrength (physicsState (animate f w))
        = Fin (0.85 * g))
  /\ (forall s : R,
        PhysicsState.splitFactor (physicsState w) = Fin s ->
        PhysicsState.splitFactor (physicsState (animate f w))
        = Fin (0.85 * s))
  /\ lastTimeRef (animate f w) = lastTimeRef w
  /\ (fst (animate_body f w) = Normal tt ->
      HandData.isPresent (handData (animate f w)) = false).
Proof.
  intros Htime Hcase.
  assert (Htargets : frameTargets f (lastTimeRef w) = Some defaultTargets).
  { unfold frameTargets.
    destruct (Req_dec_T (currentTime f) (lastTimeRef w)); [reflexivity | contradiction]. }
  split.
  { rewrite processVision_closed, Htargets, Htime. destruct w; reflexivity. }
  split; [reflexivity |].
  assert (Hstep :
            PhysicsState.position (physicsState (animate f w))
            = Vector3.mk
                (Vector3.x (PhysicsState.position (physicsState w))
                 + (0 - Vector3.x (PhysicsState.position (physicsState w))) * 0.15)%js
                (Vector3.y (PhysicsState.position (physicsState w))
                 + (0 - Vector3.y (PhysicsState.position (physicsState w))) * 0.15)%js
                (Vector3.z (PhysicsState.position (physicsState w))
                 + (0 - Vector3.z (PhysicsState.position (physicsState w))) * 0.15)%js
            /\ PhysicsState.gripStrength (physicsState (animate f w))
               = (PhysicsState.gripStrength (physicsState w)
                  + (0 - PhysicsState.gripStrength (physicsState w)) * 0.15)%js
            /\ PhysicsState.splitFactor (physicsState (animate f w))
               = (PhysicsState.splitFactor (physicsState w)
                  + (0 - PhysicsState.splitFactor (physicsState w)) * 0.15)%js).
  { destruct (refsReady f) eqn:Hready.
    - rewrite animate_physicsState by exact Hready.
      rewrite Htargets. repeat split; reflexivity.
    - destruct Hcase as [Habs | [Hps Hhd]]; [discriminate Habs |].
      rewrite animate_not_ready by exact Hready.
      cbn [physicsState]. rewrite Hps.
      cbn [advance at_time PhysicsState.initial PhysicsState.position
           PhysicsState.gripStrength PhysicsState.splitFactor
           Vector3.zero Vector3.x Vector3.y Vector3.z].
      rewrite !sub_Fin, !mul_Fin, !add_Fin.
      replace (0 + (0 - 0) * 0.15) with 0 by lra.
      repeat split; reflexivity. }
  destruct Hstep as (Hpos & Hgrip & Hsplit).
  split; [exact Hpos |]. split; [exact Hgrip |]. split; [exact Hsplit |].
  split.
  { intros x y z Hv. rewrite Hpos, Hv. unfold vec.
    cbn [Vector3.x Vector3.y Vector3.z].
    rewrite !sub_Fin, !mul_Fin, !add_Fin. f_equal; f_equal; lra. }
  split.
  { intros g Hg. rewrite Hgrip, Hg.
    rewrite !sub_Fin, !mul_Fin, !add_Fin. f_equal. lra. }
  split.
  { intros s Hs. rewrite Hsplit, Hs.
    rewrite !sub_Fin, !mul_Fin, !add_Fin. f_equal. lra. }
  destruct (refsReady f) eqn:Hready.
  - unfold animate. rewrite animate_body_ready by exact Hready.
    rewrite Htargets. cbv zeta. cbn [fst snd lastTimeRef handData].
    split; [exact Htime |].
    destruct (loopCompletes _ w); cbn [completion_of].
    + intros _. reflexivity.
    + discriminate.
  - destruct Hcase as [Habs | [Hps Hhd]]; [discriminate Habs |].
    rewrite animate_not_ready by exact Hready.
    cbn [lastTimeRef handData]. rewrite Hhd.
    split; reflexivity.
Qed.

(** A tick on a repeated video frame in the middle of a squeeze: the
    frame still shows the open hand, and the grip 0.8 falls to 0.68, the
    split 0.4 to 0.34, the position (1, 2, 0) moves to (0.85, 1.7, 0). *)
Lemma C8_witness :
  currentTime frameRepeated = lastTimeRef squeezedWorld
  /\ (refsReady frameRepeated = true \/ untouched squeezedWorld)
  /\ landmarks frameRepeated = [openHand]
  /\ PhysicsState.gripStrength (physicsState (animate frameRepeated squeezedWorld))
     = Fin 0.68
  /\ PhysicsState.splitFactor (physicsState (animate frameRepeated squeezedWorld))
     = Fin 0.34
  /\ PhysicsState.position (physicsState (animate frameRepeated squeezedWorld))
     = vec 0.85 1.7 0.
Proof.
  split; [reflexivity |]. split; [left; reflexivity |].
  split; [reflexivity |].
  destruct (C8_unchanged_timestamp_decays frameRepeated squeezedWorld
              eq_refl (or_introl eq_refl))
    as (_ & _ & _ & _ & _ & Hpos & Hgrip & Hsplit & _).
  split; [| split].
  - rewrite (Hgrip 0.8 eq_refl). f_equal. lra.
  - rewrite (Hsplit 0.4 eq_refl). f_equal. lra.
  - rewrite (Hpos 1 2 0 eq_refl). unfold vec. f_equal; f_equal; lra.
Defined.

(** ** The gesture of the UI snapshot (C2) *)

(** The thresholds are tried in order: the split test wins over the
    grip test. *)
Example classify_split_wins : classifyGesture (stateOf 0.4 0.9) = SPLIT.
Proof.
  unfold classifyGesture, stateOf. cbn [PhysicsState.splitFactor].
  rewrite gtb_Fin_true by lra. reflexivity.
Qed.

Example classify_grip : classifyGesture (stateOf 0.2 0.6) = GRIP.
Proof.
  unfold classifyGesture, stateOf.
  cbn [PhysicsState.splitFactor PhysicsState.gripStrength].
  rewrite gtb_Fin_false by lra. rewrite gtb_Fin_true by lra. reflexivity.
Qed.

Example classify_hover : classifyGesture (stateOf 0 0) = HOVER.
Proof.
  unfold classifyGesture, stateOf.
  cbn [PhysicsState.splitFactor PhysicsState.gripStrength].
  rewrite !gtb_Fin_false by lra. reflexivity.
Qed.

Lemma calculateGrip_openHand : calculateGrip openHand = Some (Fin 0).
Proof.
  assert (Hs : scaleBase_of openHand = 1)
    by (unfold openHand; rewrite sampleHand_scaleBase; lra).
  assert (Ha : avgDist_of openHand = 1.8)
    by (unfold openHand; rewrite sampleHand_avgDist; lra).
  rewrite calculateGrip_formula; [| reflexivity | rewrite Hs; lra].
  rewrite Hs, Ha. unfold grip_formula. do 2 f_equal.
  apply clamp01_low. lra.
Qed.

Lemma frameTargets_frameOpenHand :
  frameTargets frameOpenHand 0
  = Some (mkTargets (flatProjector 1 0 0) 0 0 true SINGLE).
Proof.
  unfold frameTargets, frameOpenHand. cbn [currentTime].
  destruct (Req_dec_T 1 0) as [Habs | _]; [lra |].
  unfold detectTargets. cbn [landmarks].
  change (nth_error openHand 9) with (Some (pt 1 0)). cbn [obind].
  rewrite calculateGrip_openHand. reflexivity.
Qed.

Lemma frameTargets_frameNoHand :
  frameTargets frameNoHand 1 = Some defaultTargets.
Proof.
  unfold frameTargets, frameNoHand. cbn [currentTime].
  destruct (Req_dec_T 2 1) as [Habs | _]; [lra | reflexivity].
Qed.

(** The sample world after the open hand was seen: the hand hovers. *)
Lemma sampleWorld_after_open_hand :
  let w1 := animate frameOpenHand sampleWorld in
  lastTimeRef w1 = 1
  /\ HandData.gesture (handData w1) = HOVER
  /\ HandData.isPresent (handData w1) = true
  /\ PhysicsState.splitFactor (physicsState w1) = Fin 0
  /\ PhysicsState.gripStrength (physicsState w1) = Fin 0
  /\ instancedParticles w1
     = nextMesh (nextPhysics (mkTargets (flatProjector 1 0 0) 0 0 true SINGLE)
                             PhysicsState.initial) sampleWorld.
Proof.
  cbv zeta. rewrite animate_ready_world by reflexivity.
  change (lastTimeRef sampleWorld) with 0.
  rewrite frameTargets_frameOpenHand. cbv zeta.
  rewrite loopCompletes_full by apply sampleMesh_full.
  cbn [lastTimeRef handData physicsState instancedParticles t_trackingMode
       nextHandData HandData.gesture HandData.isPresent].
  assert (Hsm : smooth (Fin 0) (Fin 0) = Fin 0).
  { unfold smooth. fin_arith. f_equal. lra. }
  assert (Hsplit : PhysicsState.splitFactor
                     (nextPhysics (mkTargets (flatProjector 1 0 0) 0 0 true SINGLE)
                                  (physicsState sampleWorld)) = Fin 0) by exact Hsm.
  assert (Hgrip : PhysicsState.gripStrength
                     (nextPhysics (mkTargets (flatProjector 1 0 0) 0 0 true SINGLE)
                                  (physicsState sampleWorld)) = Fin 0) by exact Hsm.
  repeat split; try assumption.
  unfold classifyGesture. rewrite Hsplit, Hgrip.
  rewrite !gtb_Fin_false by lra. reflexivity.
Qed.

Lemma animate_body_frameOpenHand :
  fst (animate_body frameOpenHand sampleWorld) = Normal tt.
Proof.
  rewrite animate_body_ready by reflexivity.
  change (lastTimeRef sampleWorld) with 0.
  rewrite frameTargets_frameOpenHand. cbv zeta.
  rewrite loopCompletes_full by apply sampleMesh_full.
  reflexivity.
Qed.

(** Targets without a tracking mode are the defaults: step 1 sets the
    mode whenever it sees a hand. *)
Lemma frameTargets_untracked (f : Frame) (last : R) (tg : Targets) :
  frameTargets f last = Some tg -> t_trackingMode tg = TM_NONE ->
  tg = defaultTargets.
Proof.
  unfold frameTargets. intros Htg.
  destruct (Req_dec_T (currentTime f) last).
  - intros _. congruence.
  - unfold detectTargets in Htg.
    destruct (landmarks f) as [| h1 [| h2 [| h3 hs]]].
    + intros _. congruence.
    + destruct (nth_error h1 9); [| discriminate]. cbn [obind] in Htg.
      destruct (calculateGrip h1); [| discriminate]. cbn [obind] in Htg.
      injection Htg as <-. discriminate.
    + destruct (nth_error h1 9); [| discriminate]. cbn [obind] in Htg.
      destruct (nth_error h2 9); [| discriminate]. cbn [obind] in Htg.
      destruct (calculateGrip h1); [| discriminate]. cbn [obind] in Htg.
      destruct (calculateGrip h2); [| discriminate]. cbn [obind] in Htg.
      injection Htg as <-. discriminate.
    + destruct (nth_error h1 9); [| discriminate]. cbn [obind] in Htg.
      destruct (calculateGrip h1); [| discriminate]. cbn [obind] in Htg.
      injection Htg as <-. discriminate.
Qed.

(** What a tick that runs through step 4 makes of the snapshot.  If it
    tracks a hand, the snapshot reports the hand and the gesture the
    specification assigns to the smoothed values of this tick.  If it
    tracks none, its targets are the defaults and the snapshot is the
    one of before with [isPresent] set to false, gesture and all. *)
Lemma snapshot_of_tick (f : Frame) (w : World) :
  refsReady f = true -> fst (animate_body f w) = Normal tt ->
  exists tg : Targets,
    frameTargets f (lastTimeRef w) = Some tg
    /\ (t_trackingMode tg <> TM_NONE ->
        HandData.isPresent (handData (animate f w)) = true
        /\ HandData.trackingMode (handData (animate f w)) = t_trackingMode tg
        /\ HandData.gesture (handData (animate f w))
           = specGesture
               (PhysicsState.splitFactor (physicsState (animate f w)))
               (PhysicsState.gripStrength (physicsState (animate f w)))
               true)
    /\ (t_trackingMode tg = TM_NONE ->
        tg = defaultTargets
        /\ handData (animate f w)
           = HandData.with_isPresent (handData w) false).
Proof.
  intros Hready. unfold animate.
  rewrite animate_body_ready by exact Hready.
  destruct (frameTargets f (lastTimeRef w)) as [tg |] eqn:Htg;
    [| discriminate].
  cbv zeta. cbn [fst snd].
  destruct (loopCompletes _ w); cbn [completion_of]; [intros _ | discriminate].
  cbn [handData physicsState].
  exists tg. split; [reflexivity |].
  pose proof (frameTargets_untracked f _ tg Htg) as Hdefault.
  destruct (t_trackingMode tg) eqn:Htm;
    cbn [nextHandData HandData.isPresent HandData.gesture
         HandData.trackingMode HandData.with_isPresent].
  - split; [intros _ | discriminate].
    split; [reflexivity |]. split; [reflexivity |].
    unfold specGesture, classifyGesture.
    destruct (_ >? 0.3)%js; [reflexivity |].
    destruct (_ >? 0.5)%js; reflexivity.
  - split; [intros _ | discriminate].
    split; [reflexivity |]. split; [reflexivity |].
    unfold specGesture, classifyGesture.
    destruct (_ >? 0.3)%js; [reflexivity |].
    destruct (_ >? 0.5)%js; reflexivity.
  - split; [intros Habs; contradiction Habs; reflexivity | intros _].
    split; [apply Hdefault; reflexivity | reflexivity].
Qed.

(** C2.  The code departs from the claim on the ticks without a hand.
    After the open hand was seen on one tick and no hand on the next,
    both ticks running to their end, the smoothed split and grip are 0
    and the snapshot reports no hand; the classification of the claim
    gives NONE.  The snapshot of the code still says HOVER, which
    [types.ts] documents as "Hand present but open", and still the
    tracking mode SINGLE: the no-hand branch of step 4,
    [setHandData(prev => ({ ...prev, isPresent: false }))], copies the
    gesture of the last tracked tick instead of classifying again. *)
Theorem C2_stale_gesture_after_loss :
  fst (animate_body frameOpenHand sampleWorld) = Normal tt
  /\ fst (animate_body frameNoHand (animate frameOpenHand sampleWorld))
     = Normal tt
  /\ landmarks frameNoHand = []
  /\ PhysicsState.splitFactor (physicsState worldAfterLoss) = Fin 0
  /\ PhysicsState.gripStrength (physicsState worldAfterLoss) = Fin 0
  /\ HandData.isPresent (handData worldAfterLoss) = false
  /\ HandData.gesture (handData worldAfterLoss) = HOVER
  /\ HandData.trackingMode (handData worldAfterLoss) = SINGLE
  /\ specGesture (PhysicsState.splitFactor (physicsState worldAfterLoss))
                 (PhysicsState.gripStrength (physicsState worldAfterLoss))
                 (HandData.isPresent (handData worldAfterLoss)) = NONE
  /\ HandData.gesture (handData worldAfterLoss)
     <> specGesture (PhysicsState.splitFactor (physicsState worldAfterLoss))
                    (PhysicsState.gripStrength (physicsState worldAfterLoss))
                    (HandData.isPresent (handData worldAfterLoss)).
Proof.
  split; [exact animate_body_frameOpenHand |].
  unfold worldAfterLoss, run. cbn [fold_left].
  destruct sampleWorld_after_open_hand
    as (Htime & Hgesture & Hpresent & Hsplit & Hgrip & Hmesh).
  assert (Hmode : HandData.trackingMode
                    (handData (animate frameOpenHand sampleWorld)) = SINGLE).
  { rewrite animate_ready_world by reflexivity.
    change (lastTimeRef sampleWorld) with 0.
    rewrite frameTargets_frameOpenHand. cbv zeta.
    rewrite loopCompletes_full by apply sampleMesh_full.
    reflexivity. }
  set (w1 := animate frameOpenHand sampleWorld) in *.
  assert (Hfull : loopCompletes (nextPhysics defaultTargets (physicsState w1)) w1
                  = true).
  { apply loopCompletes_full. unfold w1. rewrite animate_particlesOf.
    apply sampleMesh_full. }
  assert (Hsm : smooth (Fin 0) (Fin 0) = Fin 0).
  { unfold smooth. fin_arith. f_equal. lra. }
  assert (Hw2 : animate frameNoHand w1
                = mkWorld (nextPhysics defaultTargets (physicsState w1)) 2
                    (HandData.with_isPresent (handData w1) false)
                    (nextMesh (nextPhysics defaultTargets (physicsState w1)) w1)).
  { rewrite animate_ready_world by reflexivity.
    rewrite Htime, frameTargets_frameNoHand. cbv zeta.
    rewrite Hfull. reflexivity. }
  split.
  { rewrite animate_body_ready by reflexivity.
    rewrite Htime, frameTargets_frameNoHand. cbv zeta.
    rewrite Hfull. reflexivity. }
  split; [reflexivity |].
  rewrite Hw2. cbn [handData physicsState HandData.isPresent HandData.gesture
                    HandData.trackingMode HandData.with_isPresent].
  assert (Hs2 : PhysicsState.splitFactor
                  (nextPhysics defaultTargets (physicsState w1)) = Fin 0).
  { cbn [nextPhysics updateRotationSpeed smoothPhysics advance
         PhysicsState.splitFactor targetSplit defaultTargets].
    rewrite Hsplit. exact Hsm. }
  assert (Hg2 : PhysicsState.gripStrength
                  (nextPhysics defaultTargets (physicsState w1)) = Fin 0).
  { cbn [nextPhysics updateRotationSpeed smoothPhysics advance
         PhysicsState.gripStrength targetGrip defaultTargets].
    rewrite Hgrip. exact Hsm. }
  rewrite Hs2, Hg2, Hgesture, Hmode.
  assert (Hspec : specGesture (Fin 0) (Fin 0) false = NONE).
  { unfold specGesture. rewrite !gtb_Fin_false by lra. reflexivity. }
  rewrite Hspec.
  repeat split; try reflexivity. discriminate.
Qed.

(** ** Convergence of the smoother (C3) *)

Lemma residual_step (n : nat) (t s0 : R) :
  residual n t s0 + (t - residual n t s0) * CONFIG.SMOOTHING_FACTOR
  = residual (S n) t s0.
Proof. unfold residual. cbn [pow]. ring. Qed.

Lemma smooth_iter (n : nat) (t s0 : R) :
  Nat.iter n (fun s => smooth s (Fin t)) (Fin s0) = Fin (residual n t s0).
Proof.
  induction n as [| n IH].
  - cbn [Nat.iter nat_rect]. unfold residual. cbn [pow]. f_equal. ring.
  - rewrite Nat.iter_succ, IH, smooth_Fin, residual_step.
    reflexivity.
Qed.

Lemma lerp_iter (n : nat) (tx ty tz x y z : R) :
  Nat.iter n (fun v => Vector3.lerp v (vec tx ty tz) CONFIG.SMOOTHING_FACTOR)
           (vec x y z)
  = vec (residual n tx x) (residual n ty y) (residual n tz z).
Proof.
  induction n as [| n IH].
  - cbn [Nat.iter nat_rect]. unfold residual, vec. cbn [pow].
    f_equal; f_equal; ring.
  - rewrite Nat.iter_succ, IH. unfold Vector3.lerp, vec.
    cbn [Vector3.x Vector3.y Vector3.z]. fin_arith.
    rewrite !residual_step. reflexivity.
Qed.

Lemma residual_converges (t s0 : R) : Un_cv (fun n => residual n t s0) t.
Proof.
  intros eps Heps. unfold R_dist, residual.
  destruct (Req_dec_T (s0 - t) 0) as [Hzero | Hnz].
  - exists 0%nat. intros n _. rewrite Hzero.
    replace (t + _ * 0 - t) with 0 by ring. rewrite Rabs_R0. exact Heps.
  - assert (Hq : Rabs (1 - CONFIG.SMOOTHING_FACTOR) < 1).
    { unfold CONFIG.SMOOTHING_FACTOR. rewrite Rabs_right; lra. }
    assert (Hpos : 0 < Rabs (s0 - t)) by (apply Rabs_pos_lt; exact Hnz).
    destruct (pow_lt_1_zero _ Hq (eps / Rabs (s0 - t))) as [N HN].
    { apply Rdiv_lt_0_compat; assumption. }
    exists N. intros n Hn.
    replace (t + (1 - CONFIG.SMOOTHING_FACTOR) ^ n * (s0 - t) - t)
      with ((1 - CONFIG.SMOOTHING_FACTOR) ^ n * (s0 - t)) by ring.
    rewrite Rabs_mult.
    specialize (HN n Hn).
    apply Rmult_lt_compat_r with (r := Rabs (s0 - t)) in HN; [| exact Hpos].
    replace (eps / Rabs (s0 - t) * Rabs (s0 - t)) with eps in HN
      by (field; lra).
    exact HN.
Qed.

(** C3.  With a constant finite target, [n] smoothing updates leave a
    residual error of exactly [(1 - SMOOTHING_FACTOR)^n] times the
    initial error, for a scalar ([state += (target - state) * factor])
    and for each component of the position vector (lerp by the same
    factor), as for the whole smoothing step of a tick; the smoothed
    value converges to the target. *)
Theorem C3_smoothing_residual (n : nat) (t s0 : R) (tx ty tz x y z : R) :
  Nat.iter n (fun s => smooth s (Fin t)) (Fin s0)
  = Fin (t + (1 - CONFIG.SMOOTHING_FACTOR) ^ n * (s0 - t))
  /\ Nat.iter n (fun v => Vector3.lerp v (vec tx ty tz) CONFIG.SMOOTHING_FACTOR)
              (vec x y z)
     = vec (tx + (1 - CONFIG.SMOOTHING_FACTOR) ^ n * (x - tx))
           (ty + (1 - CONFIG.SMOOTHING_FACTOR) ^ n * (y - ty))
           (tz + (1 - CONFIG.SMOOTHING_FACTOR) ^ n * (z - tz))
  /\ (forall (tm : TrackingMode) (split grip tsplit rot time : R),
        Nat.iter n (smoothPhysics (mkTargets (vec tx ty tz) t tsplit true tm))
                 (PhysicsState.mk (vec x y z) split s0 rot time)
        = PhysicsState.mk
            (vec (residual n tx x) (residual n ty y) (residual n tz z))
            (residual n tsplit split) (residual n t s0) rot time)
  /\ Un_cv (fun k => toR (Nat.iter k (fun s => smooth s (Fin t)) (Fin s0))) t.
Proof.
  split; [apply smooth_iter |].
  split; [apply lerp_iter |].
  split.
  - intros tm split grip tsplit rot time.
    induction n as [| n IH].
    + cbn [Nat.iter nat_rect]. unfold residual, vec. cbn [pow].
      f_equal; repeat f_equal; ring.
    + rewrite Nat.iter_succ, IH. unfold smoothPhysics.
      cbn [t_isPresent targetPos targetGrip targetSplit
           PhysicsState.position PhysicsState.splitFactor
           PhysicsState.gripStrength PhysicsState.rotationSpeed
           PhysicsState.time].
      unfold Vector3.lerp, vec. cbn [Vector3.x Vector3.y Vector3.z].
      rewrite !smooth_Fin. fin_arith. rewrite !residual_step. reflexivity.
  - intros eps Heps.
    destruct (residual_converges t s0 eps Heps) as [N HN].
    exists N. intros k Hk. rewrite smooth_iter. cbn [toR]. apply HN. exact Hk.
Qed.

(** ** The split target of two hands (C4) *)

Lemma nth_error_landmark_at (h : Hand) (i : nat) :
  (i < length h)%nat -> nth_error h i = Some (landmark_at h i).
Proof. intros Hi. unfold landmark_at. apply nth_error_nth'. exact Hi. Qed.

(** On a hand of 21 landmarks [calculateGrip] returns. *)
Lemma calculateGrip_total (h : Hand) :
  length h = 21%nat -> exists g : num, calculateGrip h = Some g.
Proof.
  intros Hlen.
  destruct (Rle_lt_or_eq_dec 0 (scaleBase_of h) (euclid2D_nonneg _ _))
    as [Hpos | Hzero].
  - eexists. apply calculateGrip_formula; assumption.
  - eexists. apply calculateGrip_zero_scale; [assumption | symmetry; exact Hzero].
Qed.

(** C4.  For two detected hands of 21 landmarks the tick tracks both
    (DUAL) and its split target is the distance [d] between their
    landmarks 9, remapped linearly from [[0.1, 0.6]] to [[0, 1]] and
    clamped: 0 for [d <= 0.1], 1 for [d >= 0.6], [(d - 0.1) / 0.5] in
    between. *)
Theorem C4_split_target (f : Frame) (h1 h2 : Hand) :
  landmarks f = [h1; h2] -> length h1 = 21%nat -> length h2 = 21%nat ->
  exists tg : Targets,
    detectTargets f = Some tg
    /\ t_trackingMode tg = DUAL
    /\ targetSplit tg = Fin (clamp01 ((separation_of h1 h2 - 0.1) / 0.5))
    /\ 0 <= clamp01 ((separation_of h1 h2 - 0.1) / 0.5) <= 1
    /\ (separation_of h1 h2 <= 0.1 -> targetSplit tg = Fin 0)
    /\ (0.6 <= separation_of h1 h2 -> targetSplit tg = Fin 1)
    /\ (0.1 <= separation_of h1 h2 <= 0.6 ->
        targetSplit tg = Fin ((separation_of h1 h2 - 0.1) / 0.5)).
Proof.
  intros Hf Hlen1 Hlen2.
  destruct (calculateGrip_total h1 Hlen1) as [g1 Hg1].
  destruct (calculateGrip_total h2 Hlen2) as [g2 Hg2].
  unfold detectTargets. rewrite Hf.
  rewrite (nth_error_landmark_at h1 9) by lia.
  rewrite (nth_error_landmark_at h2 9) by lia.
  cbn [obind]. rewrite Hg1, Hg2. cbn [obind].
  eexists. split; [reflexivity |].
  cbn [t_trackingMode targetSplit]. fin_arith.
  fold (separation_of h1 h2).
  split; [reflexivity |]. split; [reflexivity |].
  split; [apply clamp01_range |].
  split; [| split]; intros Hd; f_equal.
  - apply clamp01_low. lra.
  - apply clamp01_high. lra.
  - apply clamp01_mid. lra.
Qed.

(** Two hands whose landmarks 9 are 0.5 apart. *)
Lemma C4_witness :
  landmarks frameTwoHands = [rightHand; leftHand]
  /\ length rightHand = 21%nat /\ length leftHand = 21%nat
  /\ exists tg : Targets,
       detectTargets frameTwoHands = Some tg
       /\ targetSplit tg
          = Fin (clamp01 ((separation_of rightHand leftHand - 0.1) / 0.5)).
Proof.
  split; [reflexivity |]. split; [reflexivity |]. split; [reflexivity |].
  destruct (C4_split_target frameTwoHands rightHand leftHand
              eq_refl eq_refl eq_refl) as (tg & Hdet & _ & Hsplit & _).
  exists tg. split; assumption.
Defined.

(** ** Instance matrices after the particle loop *)

Lemma list_set_length {A : Type} (i : nat) (v : A) (l : list A) :
  length (list_set i v l) = length l.
Proof.
  revert i. induction l as [| a l IH]; intros [| i]; cbn; try reflexivity.
  rewrite IH. reflexivity.
Qed.

Lemma nth_error_list_set_same {A : Type} (i : nat) (v : A) (l : list A) :
  (i < length l)%nat -> nth_error (list_set i v l) i = Some v.
Proof.
  revert i. induction l as [| a l IH]; intros [| i] Hi; cbn in *;
    try lia; try reflexivity.
  apply IH. lia.
Qed.

Lemma nth_error_list_set_other {A : Type} (i j : nat) (v : A) (l : list A) :
  i <> j -> nth_error (list_set i v l) j = nth_error l j.
Proof.
  revert i j. induction l as [| a l IH]; intros [| i] [| j] Hij; cbn;
    try reflexivity; try congruence.
  apply IH. congruence.
Qed.

Lemma placeParticles_below (state : PhysicsState.t)
    (data : list Particle.t) (count : nat) :
  forall (start j : nat) (matrices : list Matrix4),
    (j < start)%nat ->
    nth_error (snd (placeParticles state data start count matrices)) j
    = nth_error matrices j.
Proof.
  induction count as [| count IH]; intros start j matrices Hj;
    cbn [placeParticles]; [reflexivity |].
  destruct (nth_error data start); [| reflexivity].
  rewrite IH by lia. apply nth_error_list_set_other. lia.
Qed.

(** A completed loop leaves in every instance it ran over the matrix of
    the particle of that index. *)
Lemma placeParticles_nth (state : PhysicsState.t)
    (data : list Particle.t) (count : nat) :
  forall (start j : nat) (matrices : list Matrix4) (p : Particle.t),
    fst (placeParticles state data start count matrices) = true ->
    (start <= j < start + count)%nat -> (j < length matrices)%nat ->
    nth_error data j = Some p ->
    nth_error (snd (placeParticles state data start count matrices)) j
    = Some (particleMatrix state j p).
Proof.
  induction count as [| count IH]; intros start j matrices p Hok Hj Hlen Hp;
    [lia |].
  cbn [placeParticles] in *.
  destruct (nth_error data start) as [q |] eqn:Hq; [| discriminate Hok].
  destruct (Nat.eq_dec j start) as [-> | Hne].
  - rewrite placeParticles_below by lia.
    rewrite nth_error_list_set_same by exact Hlen. congruence.
  - apply IH; try assumption; [lia |].
    rewrite list_set_length. exact Hlen.
Qed.

(** ** Surface mode (C5) *)

Lemma particleTarget_surface (state : PhysicsState.t) (i : nat)
    (p : Particle.t) :
  (PhysicsState.splitFactor state >? 0.1)%js = false ->
  particleTarget state i p = scaled (Particle.basePos p) (compression state).
Proof.
  intros Hsplit. unfold particleTarget. rewrite Hsplit. reflexivity.
Qed.

(** C5.  While the smoothed split factor is at most 0.1, the position
    written for every particle is [basePos * compression] with
    [compression = 1 - gripStrength * COMPRESSION_FACTOR], whatever the
    [time] accumulator and the index of the particle; and after a tick
    that runs to its end, every instance of the mesh holds that
    position. *)
Theorem C5_surface_mode (state : PhysicsState.t) :
  (PhysicsState.splitFactor state <= 0.1)%js ->
  (forall (i : nat) (p : Particle.t),
     m_position (particleMatrix state i p)
     = scaled (Particle.basePos p)
              (1 - PhysicsState.gripStrength state * CONFIG.COMPRESSION_FACTOR)%js)
  /\ (forall (i i' : nat) (time' : num) (p : Particle.t),
        m_position (particleMatrix (at_time state time') i' p)
        = m_position (particleMatrix state i p))
  /\ (forall (f : Frame) (w : World) (i : nat) (p : Particle.t),
        refsReady f = true -> fst (animate_body f w) = Normal tt ->
        physicsState (animate f w) = state ->
        (i < CONFIG.PARTICLE_COUNT)%nat ->
        (i < length (matricesOf w))%nat ->
        nth_error (particlesOf w) i = Some p ->
        exists m : Matrix4,
          nth_error (matricesOf (animate f w)) i = Some m
          /\ m_position m = scaled (Particle.basePos p) (compression state)).
Proof.
  intros Hle.
  assert (Hgt : (PhysicsState.splitFactor state >? 0.1)%js = false)
    by (apply gtb_false_of_le; exact Hle).
  split; [| split].
  - intros i p. unfold particleMatrix. cbn [m_position].
    apply particleTarget_surface. exact Hgt.
  - intros i i' time' p. unfold particleMatrix. cbn [m_position].
    rewrite !particleTarget_surface by exact Hgt. reflexivity.
  - intros f w i p Hready Hnormal Hstate Hi Hlen Hp.
    revert Hnormal Hstate. unfold animate.
    rewrite animate_body_ready by exact Hready.
    destruct (frameTargets f (lastTimeRef w)) as [tg |]; [| discriminate].
    cbv zeta. cbn [fst snd physicsState].
    intros Hnormal Hstate. rewrite Hstate in *.
    unfold loopCompletes in Hnormal. unfold matricesOf, particlesOf, nextMesh in *.
    cbn [instancedParticles].
    destruct (instancedParticles w) as [mesh |]; [| destruct i; discriminate Hp].
    cbn [InstancedMesh.instanceMatrix].
    exists (particleMatrix state i p). split.
    + apply placeParticles_nth; try assumption; [| lia].
      destruct (fst (placeParticles _ _ _ _ _)); [reflexivity | discriminate].
    + unfold particleMatrix. cbn [m_position].
      apply particleTarget_surface. exact Hgt.
Qed.

(** The initial state is in surface mode. *)
Lemma C5_witness :
  (PhysicsState.splitFactor PhysicsState.initial <= 0.1)%js
  /\ m_position (particleMatrix PhysicsState.initial 7 sampleParticle)
     = scaled (Particle.basePos sampleParticle)
              (1 - PhysicsState.gripStrength PhysicsState.initial
                   * CONFIG.COMPRESSION_FACTOR)%js.
Proof.
  assert (Hle : (PhysicsState.splitFactor PhysicsState.initial <= 0.1)%js)
    by (cbn; lra).
  split; [exact Hle |].
  apply (C5_surface_mode PhysicsState.initial Hle).
Defined.

(** ** The unit interval is invariant (C6) *)

Lemma in01_Fin (r : R) : 0 <= r <= 1 -> in01 (Fin r).
Proof. intros H. exists r. split; [reflexivity | exact H]. Qed.

Lemma smooth_in01 (s t : num) : in01 s -> in01 t -> in01 (smooth s t).
Proof.
  intros (x & -> & Hx) (y & -> & Hy). rewrite smooth_Fin.
  apply in01_Fin. unfold CONFIG.SMOOTHING_FACTOR. nra.
Qed.

Lemma calculateGrip_in01 (h : Hand) :
  positiveScale h -> exists g : num, calculateGrip h = Some g /\ in01 g.
Proof.
  intros [Hlen Hpos]. eexists. split.
  - apply calculateGrip_formula; assumption.
  - apply in01_Fin. apply clamp01_range.
Qed.

Lemma frameTargets_in01 (f : Frame) (last : R) (tg : Targets) :
  refsReady f = true ->
  Forall positiveScale (processedHands f last) ->
  frameTargets f last = Some tg ->
  in01 (targetGrip tg) /\ in01 (targetSplit tg).
Proof.
  intros Hready Hok. unfold processedHands in Hok. rewrite Hready in Hok.
  unfold frameTargets.
  assert (Hzero : in01 (Fin 0)) by (apply in01_Fin; lra).
  destruct (Req_dec_T (currentTime f) last) as [_ | _].
  { intros [= <-]. split; exact Hzero. }
  unfold detectTargets.
  destruct (landmarks f) as [| h1 [| h2 [| h3 hs]]].
  - intros [= <-]. split; exact Hzero.
  - apply Forall_inv in Hok.
    destruct (calculateGrip_in01 h1 Hok) as (g & Hg & Hin).
    destruct (nth_error h1 9); [| discriminate]. cbn [obind].
    rewrite Hg. cbn [obind]. intros [= <-]. split; assumption.
  - pose proof (Forall_inv Hok) as Hok1.
    pose proof (Forall_inv (Forall_inv_tail Hok)) as Hok2.
    destruct (calculateGrip_in01 h1 Hok1) as (g1 & Hg1 & (x1 & -> & Hx1)).
    destruct (calculateGrip_in01 h2 Hok2) as (g2 & Hg2 & (x2 & -> & Hx2)).
    destruct (nth_error h1 9) as [a |]; [| discriminate]. cbn [obind].
    destruct (nth_error h2 9) as [b |]; [| discriminate]. cbn [obind].
    rewrite Hg1, Hg2. cbn [obind]. intros Heq.
    assert (Htg : tg = mkTargets
                    (mapScreenToWorld f
                       ((Landmark.x a + Landmark.x b) / 2)%js
                       ((Landmark.y a + Landmark.y b) / 2)%js 0)
                    ((Fin x1 + Fin x2) / 2)%js
                    (max 0 (min 1 ((dist2D a b - 0.1) / 0.5)%js)) true DUAL)
      by congruence.
    rewrite Htg. cbn [targetGrip targetSplit]. fin_arith. split.
    + apply in01_Fin. lra.
    + apply in01_Fin. apply clamp01_range.
  - apply Forall_inv in Hok.
    destruct (calculateGrip_in01 h1 Hok) as (g & Hg & Hin).
    destruct (nth_error h1 9); [| discriminate]. cbn [obind].
    rewrite Hg. cbn [obind]. intros [= <-]. split; assumption.
Qed.

(** One tick keeps the smoothed grip and split in the unit interval. *)
Lemma animate_unitPhysics (f : Frame) (w : World) :
  unitPhysics (physicsState w) ->
  Forall positiveScale (processedHands f (lastTimeRef w)) ->
  unitPhysics (physicsState (animate f w)).
Proof.
  intros [Hgrip Hsplit] Hok.
  destruct (refsReady f) eqn:Hready.
  - rewrite animate_physicsState by exact Hready.
    destruct (frameTargets f (lastTimeRef w)) as [tg |] eqn:Htg.
    + destruct (frameTargets_in01 f _ tg Hready Hok Htg) as [Htg1 Htg2].
      split; cbn; apply smooth_in01; assumption.
    + split; assumption.
  - rewrite animate_not_ready by exact Hready. split; assumption.
Qed.

Lemma run_unitPhysics (fs : list Frame) :
  forall w : World,
    unitPhysics (physicsState w) -> positiveScaleRun fs w ->
    unitPhysics (physicsState (run fs w)).
Proof.
  induction fs as [| f fs IH]; intros w Hw Hrun.
  - exact Hw.
  - destruct Hrun as [Hf Hrest]. cbn [run fold_left].
    apply (IH (animate f w)); [| exact Hrest].
    apply animate_unitPhysics; assumption.
Qed.

(** The claim as the specification states it fails on the code.  The
    one-tick run that shows the tiny hand meets the precondition: the
    hand has 21 landmarks and a positive scale.  In binary64 the tick
    computes the target grip [NaN] and the smoothing step writes [NaN]
    to the grip, where the next step towards any target leaves it. *)
Lemma C6_counterexample :
  positiveScaleRun [frameOf tinyHand] (initialWorld (Some sampleMesh))
  /\ processedHands (frameOf tinyHand)
       (lastTimeRef (initialWorld (Some sampleMesh))) = [tinyHand]
  /\ Binary64.gripAfterTick Binary64.zero Binary64.tinyHand
     = Some PrimFloat.nan
  /\ Binary64.smooth PrimFloat.nan Binary64.zero = PrimFloat.nan.
Proof.
  assert (Hhands : processedHands (frameOf tinyHand)
                     (lastTimeRef (initialWorld (Some sampleMesh)))
                   = [tinyHand]).
  { unfold processedHands, frameOf.
    cbn [refsReady currentTime landmarks lastTimeRef initialWorld].
    destruct (Req_dec_T 1 0) as [Habs | _]; [lra | reflexivity]. }
  split; [| split; [exact Hhands | split; vm_compute; reflexivity]].
  cbn [positiveScaleRun]. split; [| exact I].
  rewrite Hhands. constructor; [| constructor].
  split; [reflexivity |].
  destruct tinyHand_scale as [Hs _]. rewrite Hs. exact toR_tiny_pos.
Qed.

(** C6, on the hands the arithmetic of the code can handle.  Starting
    from the initial state, along a run in which every processed
    landmark set is regular -- 21 landmarks in range, scale at
    least [scaleFloor] -- the smoothed [gripStrength] and [splitFactor]
    are numbers of [[0,1]] after every tick. *)
Theorem C6_unit_interval_invariant (mesh : option InstancedMesh.t)
    (fs : list Frame) :
  regularRun fs (initialWorld mesh) ->
  forall k : nat,
    in01 (PhysicsState.gripStrength
            (physicsState (run (firstn k fs) (initialWorld mesh))))
    /\ in01 (PhysicsState.splitFactor
               (physicsState (run (firstn k fs) (initialWorld mesh)))).
Proof.
  intros Hrun k.
  apply run_unitPhysics.
  - split; apply in01_Fin; lra.
  - apply regularRun_positiveScaleRun, regularRun_firstn. exact Hrun.
Qed.

Lemma calculateGrip_fist (wx bx tx y : R) :
  wx < bx -> wx <= tx -> (tx - wx) / (bx - wx) = 0.6 ->
  calculateGrip (sampleHand (pt wx y) (pt bx y) (pt tx y)) = Some (Fin 1).
Proof.
  intros Hb Ht Hratio.
  destruct (sampleHand_row wx bx tx y) as [Hs Ha]; [lra | lra |].
  rewrite calculateGrip_formula; [| reflexivity | rewrite Hs; lra].
  rewrite Hs, Ha. unfold grip_formula. rewrite Hratio.
  do 2 f_equal. apply clamp01_high. lra.
Qed.

(** The tick that sees the two fists: both targets are off 0. *)
Lemma frameTargets_frameTwoFists :
  exists tg : Targets,
    frameTargets frameTwoFists 0 = Some tg
    /\ targetGrip tg = Fin 1 /\ targetSplit tg = Fin 0.8.
Proof.
  unfold frameTargets, frameTwoFists. cbn [currentTime].
  destruct (Req_dec_T 1 0) as [Habs | _]; [lra |].
  unfold detectTargets. cbn [landmarks].
  change (nth_error rightFist 9) with (Some (pt 0.7 0.5)).
  change (nth_error leftFist 9) with (Some (pt 0.2 0.5)).
  cbn [obind].
  unfold rightFist, leftFist.
  rewrite !calculateGrip_fist by lra. cbn [obind].
  eexists. split; [reflexivity |].
  cbn [targetGrip targetSplit]. rewrite dist2D_Fin.
  rewrite euclid2D_horizontal by (cbn; lra).
  cbn [pt Landmark.x]. fin_arith. split.
  - f_equal. lra.
  - f_equal. replace ((0.7 - 0.2 - 0.1) / 0.5) with 0.8 by lra.
    apply clamp01_mid. lra.
Qed.

Lemma tick_frameTwoFists :
  PhysicsState.gripStrength
    (physicsState (animate frameTwoFists (initialWorld (Some sampleMesh))))
  = Fin 0.15
  /\ PhysicsState.splitFactor
       (physicsState (animate frameTwoFists (initialWorld (Some sampleMesh))))
     = Fin 0.12.
Proof.
  rewrite animate_physicsState by reflexivity.
  cbn [lastTimeRef initialWorld].
  destruct frameTargets_frameTwoFists as (tg & -> & Hgrip & Hsplit).
  cbn [nextPhysics updateRotationSpeed smoothPhysics advance
       physicsState initialWorld PhysicsState.gripStrength
       PhysicsState.splitFactor PhysicsState.initial].
  rewrite Hgrip, Hsplit, !smooth_Fin.
  unfold CONFIG.SMOOTHING_FACTOR. split; f_equal; lra.
Qed.

Lemma regularRun_twoFists :
  regularRun [frameTwoFists; frameNoHand] (initialWorld (Some sampleMesh)).
Proof.
  cbn [regularRun]. split; [| split; [| exact I]].
  - unfold processedHands, frameTwoFists.
    cbn [refsReady currentTime landmarks].
    destruct (Req_dec_T _ _); [constructor |].
    constructor; [exact regularHand_rightFist |].
    constructor; [exact regularHand_leftFist | constructor].
  - unfold processedHands, frameNoHand.
    cbn [refsReady currentTime landmarks].
    destruct (Req_dec_T _ _); constructor.
Qed.

(** Two fists seen and then lost: a run of regular hands on which the
    grip rises to 0.15 and the split to 0.12 at the first tick, and both
    are in [[0,1]] after the first and after the second tick. *)
Lemma C6_witness :
  regularRun [frameTwoFists; frameNoHand] (initialWorld (Some sampleMesh))
  /\ PhysicsState.gripStrength
       (physicsState (run (firstn 1 [frameTwoFists; frameNoHand])
                          (initialWorld (Some sampleMesh)))) = Fin 0.15
  /\ PhysicsState.splitFactor
       (physicsState (run (firstn 1 [frameTwoFists; frameNoHand])
                          (initialWorld (Some sampleMesh)))) = Fin 0.12
  /\ (forall k : nat,
        in01 (PhysicsState.gripStrength
                (physicsState (run (firstn k [frameTwoFists; frameNoHand])
                                   (initialWorld (Some sampleMesh)))))
        /\ in01 (PhysicsState.splitFactor
                   (physicsState (run (firstn k [frameTwoFists; frameNoHand])
                                      (initialWorld (Some sampleMesh)))))).
Proof.
  split; [exact regularRun_twoFists |].
  split; [exact (proj1 tick_frameTwoFists) |].
  split; [exact (proj2 tick_frameTwoFists) |].
  exact (C6_unit_interval_invariant (Some sampleMesh)
           [frameTwoFists; frameNoHand] regularRun_twoFists).
Defined.

(** ** The zero hand scale (C7) *)

Lemma mul_NaN_r (a : num) : (a * NaN)%js = NaN.
Proof. destruct a; reflexivity. Qed.

(** A [NaN] grip makes every particle position [NaN], in both modes. *)
Lemma particleTarget_NaN (state : PhysicsState.t) (i : nat) (p : Particle.t) :
  PhysicsState.gripStrength state = NaN ->
  particleTarget state i p = nanVector.
Proof.
  intros Hgrip.
  assert (Hc : compression state = NaN).
  { unfold compression. rewrite Hgrip. reflexivity. }
  assert (Hv : visualScale state = NaN).
  { unfold visualScale. rewrite Hc. reflexivity. }
  unfold particleTarget. rewrite Hc, Hv.
  destruct (_ >? _)%js.
  - rewrite (mul_NaN_r CONFIG.SPHERE_RADIUS).
    change (NaN * ?a)%js with NaN.
    rewrite !mul_NaN_r. reflexivity.
  - rewrite !mul_NaN_r. reflexivity.
Qed.

(** A [NaN] grip is never repaired by later ticks. *)
Lemma animate_grip_NaN (f : Frame) (w : World) :
  PhysicsState.gripStrength (physicsState w) = NaN ->
  PhysicsState.gripStrength (physicsState (animate f w)) = NaN.
Proof.
  intros Hgrip. destruct (refsReady f) eqn:Hready.
  - rewrite animate_physicsState by exact Hready.
    destruct (frameTargets f (lastTimeRef w)); cbn; rewrite Hgrip; reflexivity.
  - rewrite animate_not_ready by exact Hready. exact Hgrip.
Qed.

Lemma run_grip_NaN (fs : list Frame) :
  forall w : World,
    PhysicsState.gripStrength (physicsState w) = NaN ->
    PhysicsState.gripStrength (physicsState (run fs w)) = NaN.
Proof.
  induction fs as [| f fs IH]; intros w Hgrip; [exact Hgrip |].
  cbn [run fold_left]. apply (IH (animate f w)).
  apply animate_grip_NaN. exact Hgrip.
Qed.

(** The claim as the specification states it fails: with the wrist on
    the middle-finger base and the fingertips elsewhere the scale is
    zero, and [calculateGrip] returns the finite grip value 0. *)
Lemma C7_counterexample :
  length flatHand = 21%nat
  /\ scaleBase_of flatHand = 0
  /\ calculateGrip flatHand = Some (Fin 0)
  /\ in01 (Fin 0)
  /\ ~ (exists v : num, calculateGrip flatHand = Some v /\ nonfinite v).
Proof.
  assert (Hs : scaleBase_of flatHand = 0)
    by (unfold flatHand; apply sampleHand_scaleBase; lra).
  assert (Ha : avgDist_of flatHand = 1)
    by (unfold flatHand; apply sampleHand_avgDist; lra).
  assert (Hg : calculateGrip flatHand = Some (Fin 0)).
  { rewrite calculateGrip_zero_scale; [| reflexivity | exact Hs].
    rewrite Ha. destruct (Rlt_dec 0 1); [reflexivity | lra]. }
  split; [reflexivity |]. split; [exact Hs |]. split; [exact Hg |].
  split; [apply in01_Fin; lra |].
  intros (v & Hv & Hnon). rewrite Hg in Hv. injection Hv as <-.
  destruct Hnon as [Hn | [Hn | Hn]]; discriminate Hn.
Qed.

(** C7, as the code has it.  With [scaleBase = 0] the quotient
    [avgDist / scaleBase] is not finite.  If the fingertips are off the
    wrist by enough for their squared distances not to underflow (a mean
    distance of [scaleFloor] suffices) it is [+Infinity], the raw grip
    [-Infinity], and the clamp returns the grip 0.  If all fingertips
    are on the wrist ([avgDist = 0]) it is [NaN] and so is the result of
    [calculateGrip]; a tick that processes such a hand alone writes
    [NaN] to the smoothed grip, where it stays on every later tick, and
    every particle position computed from it is [NaN]. *)
Theorem C7_zero_scale (h : Hand) :
  length h = 21%nat -> scaleBase_of h = 0 ->
  nonfinite (Fin (avgDist_of h) / Fin (scaleBase_of h))%js
  /\ (scaleFloor <= avgDist_of h ->
      (Fin (avgDist_of h) / Fin (scaleBase_of h))%js = PInf
      /\ calculateGrip h = Some (Fin 0))
  /\ (avgDist_of h = 0 ->
      (Fin (avgDist_of h) / Fin (scaleBase_of h))%js = NaN
      /\ calculateGrip h = Some NaN
      /\ forall (f : Frame) (w : World),
           refsReady f = true -> currentTime f <> lastTimeRef w ->
           landmarks f = [h] ->
           PhysicsState.gripStrength (physicsState (animate f w)) = NaN
           /\ (forall fs : list Frame,
                 PhysicsState.gripStrength
                   (physicsState (run fs (animate f w))) = NaN)
           /\ (forall (i : nat) (p : Particle.t),
                 m_position (particleMatrix (physicsState (animate f w)) i p)
                 = nanVector)).
Proof.
  intros Hlen Hzero.
  pose proof (avgDist_nonneg h) as Hnonneg.
  pose proof (calculateGrip_zero_scale h Hlen Hzero) as Hgrip.
  rewrite Hzero, div_by_zero_scale by exact Hnonneg.
  split; [| split].
  - destruct (Rlt_dec 0 (avgDist_of h)); [right; left | left]; reflexivity.
  - intros Hfar. pose proof scaleFloor_pos as Hfloor.
    destruct (Rlt_dec 0 (avgDist_of h)); [| lra].
    split; [reflexivity | exact Hgrip].
  - intros Havg. destruct (Rlt_dec 0 (avgDist_of h)) as [Hpos | _]; [lra |].
    split; [reflexivity |]. split; [exact Hgrip |].
    intros f w Hready Htime Hf.
    assert (Hnext : PhysicsState.gripStrength (physicsState (animate f w)) = NaN).
    { rewrite animate_physicsState by exact Hready.
      unfold frameTargets.
      destruct (Req_dec_T (currentTime f) (lastTimeRef w)); [contradiction |].
      unfold detectTargets. rewrite Hf.
      rewrite (nth_error_landmark_at h 9) by lia. cbn [obind].
      rewrite Hgrip. cbn [obind].
      cbn [nextPhysics updateRotationSpeed smoothPhysics
           PhysicsState.gripStrength targetGrip].
      apply smooth_NaN_target. }
    split; [exact Hnext |]. split.
    + intros fs. apply run_grip_NaN. exact Hnext.
    + intros i p. unfold particleMatrix. cbn [m_position].
      apply particleTarget_NaN. exact Hnext.
Qed.

(** All landmarks at one point: the scale and the mean distance are 0,
    the grip is [NaN] and the tick writes it to the state. *)
Lemma C7_witness :
  length pointHand = 21%nat /\ scaleBase_of pointHand = 0
  /\ avgDist_of pointHand = 0
  /\ calculateGrip pointHand = Some NaN
  /\ PhysicsState.gripStrength
       (physicsState (animate (frameOf pointHand) sampleWorld)) = NaN.
Proof.
  assert (Hs : scaleBase_of pointHand = 0)
    by (unfold pointHand; apply sampleHand_scaleBase; lra).
  assert (Ha : avgDist_of pointHand = 0)
    by (unfold pointHand; apply sampleHand_avgDist; lra).
  split; [reflexivity |]. split; [exact Hs |]. split; [exact Ha |].
  destruct (C7_zero_scale pointHand eq_refl Hs) as (_ & _ & Hnan).
  destruct (Hnan Ha) as (_ & Hgrip & Htick).
  split; [exact Hgrip |].
  apply (Htick (frameOf pointHand) sampleWorld).
  - reflexivity.
  - cbn. lra.
  - reflexivity.
Defined.

(** Between the two cases the squares of the code underflow: with
    landmark 9 on the wrist and the fingertips [2^-600] off it, the
    binary64 mean distance is 0 and the grip [NaN]. *)
Example calculateGrip_zero_scale_underflow :
  Binary64.calculateGrip
    (Binary64.sampleHand
       (Binary64.mkLandmark Binary64.zero Binary64.zero Binary64.zero)
       (Binary64.mkLandmark Binary64.zero Binary64.zero Binary64.zero)
       (Binary64.mkLandmark Binary64.tiny Binary64.zero Binary64.zero))
  = Some PrimFloat.nan.
Proof. vm_compute. reflexivity. Qed.

(** ** The metrics of the HUD (C9) *)

Lemma round_nearest (x : R) : nearest x (Int_part (x + / 2)).
Proof.
  unfold nearest. destruct (base_Int_part (x + / 2)) as [Hle Hgt]. lra.
Qed.

Lemma round_Fin (x : R) : round (Fin x) = Fin (IZR (Int_part (x + / 2))).
Proof. reflexivity. Qed.




(** ** The pressure on a half *)

Lemma toR_grip075 :
  Binary64.toR Binary64.grip075
  = IZR 5404319552844595 * / IZR 72057594037927936.
Proof.
  unfold Binary64.toR.
  change (FloatOps.Prim2SF Binary64.grip075)
    with (SpecFloat.S754_finite false 5404319552844595 (-56)).
  cbv iota. change (powerRZ 2 (-56)) with (/ 2 ^ Pos.to_nat 56).
  rewrite pow_IZR.
  replace (2 ^ Z.of_nat (Pos.to_nat 56))%Z with 72057594037927936%Z
    by reflexivity.
  lra.
Qed.

(** The double next to 0.075 lies below 0.075, and its hundredfold below
    7.5: rounding the exact product gives 7.  The binary64 product is
    7.5 and the HUD shows 8.  Both are within [nearestWithin] of the
    exact product. *)
Example pressure_on_a_half :
  Binary64.toR Binary64.grip075 * 100 < 7.5
  /\ round (Fin (Binary64.toR Binary64.grip075) * 100)%js = Fin 7
  /\ Binary64.toR (Binary64.pressure Binary64.grip075) = 8
  /\ nearestWithin (Binary64.toR Binary64.grip075 * 100) 7
  /\ nearestWithin (Binary64.toR Binary64.grip075 * 100) 8.
Proof.
  rewrite toR_grip075.
  set (x := IZR 5404319552844595 * / IZR 72057594037927936 * 100).
  assert (Hx : 7 < x < 7.5) by (unfold x; lra).
  assert (Hpow : 2 ^ 50 = IZR 1125899906842624)
    by (rewrite pow_IZR; f_equal).
  assert (Hslack : 3 / 1000000000000000 <= Rabs x / 2 ^ 50
                   /\ x - / 2 < 7).
  { rewrite Rabs_pos_eq by lra. rewrite Hpow. unfold x. split; lra. }
  split; [lra |]. split.
  { rewrite mul_Fin. fold x. rewrite round_Fin. do 2 f_equal.
    symmetry. apply Int_part_spec. lra. }
  split.
  { unfold Binary64.toR.
    change (FloatOps.Prim2SF (Binary64.pressure Binary64.grip075))
      with (SpecFloat.S754_finite false 4503599627370496 (-49)).
    cbv iota. change (powerRZ 2 (-49)) with (/ 2 ^ Pos.to_nat 49).
    rewrite pow_IZR.
    replace (2 ^ Z.of_nat (Pos.to_nat 49))%Z with 562949953421312%Z
      by reflexivity.
    lra. }
  unfold nearestWithin. split; apply Rabs_le; unfold x in *; lra.
Qed.

(** ** The noise seed is not read (C10) *)

Lemma particleMatrix_sameSeed (state : PhysicsState.t) (i : nat)
    (p q : Particle.t) :
  sameSeed p q -> particleMatrix state i p = particleMatrix state i q.
Proof.
  destruct p as [bp rp sp], q as [bq rq sq]. intros [Hb Hs].
  cbn in Hb, Hs. subst bq sq. reflexivity.
Qed.

Lemma Forall2_nth_error {A B : Type} (R : A -> B -> Prop)
    (l : list A) (l' : list B) :
  Forall2 R l l' ->
  forall i : nat,
    match nth_error l i, nth_error l' i with
    | Some a, Some b => R a b
    | None, None => True
    | _, _ => False
    end.
Proof.
  induction 1 as [| a b l l' Hab Hrest IH]; intros [| i]; cbn;
    try exact I; try exact Hab.
  apply IH.
Qed.

Lemma placeParticles_sameSeed (state : PhysicsState.t)
    (data data' : list Particle.t) (count : nat) :
  Forall2 sameSeed data data' ->
  forall (start : nat) (matrices : list Matrix4),
    placeParticles state data start count matrices
    = placeParticles state data' start count matrices.
Proof.
  intros Hsame.
  induction count as [| count IH]; intros start matrices;
    cbn [placeParticles]; [reflexivity |].
  pose proof (Forall2_nth_error _ _ _ Hsame start) as Hnth.
  destruct (nth_error data start) as [p |], (nth_error data' start) as [q |];
    try contradiction; [| reflexivity].
  rewrite (particleMatrix_sameSeed state start p q Hnth). apply IH.
Qed.

Lemma Forall2_map_seq {A B : Type} (R : A -> B -> Prop)
    (f : nat -> A) (g : nat -> B) (len : nat) :
  (forall i : nat, R (f i) (g i)) ->
  forall start : nat,
    Forall2 R (map f (seq start len)) (map g (seq start len)).
Proof.
  intros Hfg. induction len as [| len IH]; intros start; cbn; constructor.
  - apply Hfg.
  - apply IH.
Qed.

(** Two runs of [initThree] whose random draws agree on the speeds build
    meshes that differ at most in [randomOffset]. *)
Lemma initThree_sameButOffsets (random random' : nat -> R) :
  (forall i : nat, random (4 * i + 3)%nat = random' (4 * i + 3)%nat) ->
  sameButOffsets (initialWorld (Some (initThree random)))
                 (initialWorld (Some (initThree random'))).
Proof.
  intros Hspeed.
  assert (Hseed : forall i, sameSeed (particleData random i)
                                     (particleData random' i)).
  { intros i. split; cbn [particleData Particle.basePos Particle.speed];
      [reflexivity | rewrite Hspeed; reflexivity]. }
  unfold sameButOffsets, initialWorld, initThree. cbv zeta.
  cbn [physicsState lastTimeRef handData instancedParticles
       InstancedMesh.position InstancedMesh.instanceMatrix
       InstancedMesh.particles].
  split; [reflexivity |]. split; [reflexivity |]. split; [reflexivity |].
  split; [reflexivity |]. split; [reflexivity |].
  apply Forall2_map_seq. exact Hseed.
Qed.

(** C10.  Two ticks on worlds that agree on everything but the
    [randomOffset] fields run alike: they complete or throw alike and
    leave worlds that again agree on everything but [randomOffset], with
    identical instance matrices; the matrix of one particle is the same
    for any two values of its [randomOffset]; and a tick leaves the
    particle records ([basePos], [randomOffset], [speed]) as they
    were. *)
Theorem C10_randomOffset_unused (f : Frame) (w w' : World) :
  sameButOffsets w w' ->
  fst (animate_body f w) = fst (animate_body f w')
  /\ sameButOffsets (animate f w) (animate f w')
  /\ matricesOf (animate f w) = matricesOf (animate f w')
  /\ particlesOf (animate f w) = particlesOf w
  /\ particlesOf (animate f w') = particlesOf w'
  /\ (forall (state : PhysicsState.t) (i : nat) (basePos : Vector3.t)
             (speed : num) (randomOffset randomOffset' : Vector3.t),
        particleMatrix state i (Particle.mk basePos randomOffset speed)
        = particleMatrix state i (Particle.mk basePos randomOffset' speed)).
Proof.
  intros (Hps & Hlt & Hhd & Hmesh).
  assert (Hloop : forall state, loopCompletes state w = loopCompletes state w').
  { intros state. unfold loopCompletes.
    destruct (instancedParticles w) as [m |], (instancedParticles w') as [m' |];
      try contradiction; [| reflexivity].
    destruct Hmesh as (_ & Hmat & Hsame).
    rewrite (placeParticles_sameSeed state _ _ _ Hsame), Hmat. reflexivity. }
  assert (Hnext : forall state,
             match nextMesh state w, nextMesh state w' with
             | None, None => True
             | Some m, Some m' =>
                 InstancedMesh.position m = InstancedMesh.position m'
                 /\ InstancedMesh.instanceMatrix m
                    = InstancedMesh.instanceMatrix m'
                 /\ Forall2 sameSeed (InstancedMesh.particles m)
                                    (InstancedMesh.particles m')
             | _, _ => False
             end).
  { intros state. unfold nextMesh.
    destruct (instancedParticles w) as [m |], (instancedParticles w') as [m' |];
      try contradiction; [| exact I].
    destruct Hmesh as (_ & Hmat & Hsame).
    cbn [InstancedMesh.position InstancedMesh.instanceMatrix
         InstancedMesh.particles].
    rewrite (placeParticles_sameSeed state _ _ _ Hsame), Hmat.
    repeat split. exact Hsame. }
  assert (Hbody : fst (animate_body f w) = fst (animate_body f w')
                  /\ sameButOffsets (animate f w) (animate f w')).
  { unfold animate. destruct (refsReady f) eqn:Hready.
    - rewrite !animate_body_ready by exact Hready.
      rewrite <- Hps, <- Hlt, <- Hhd.
      destruct (frameTargets f (lastTimeRef w)) as [tg |].
      + cbv zeta. rewrite <- Hloop. cbn [fst snd].
        split; [reflexivity |].
        unfold sameButOffsets.
        cbn [physicsState lastTimeRef handData instancedParticles].
        repeat split. apply Hnext.
      + cbn [fst snd]. split; [reflexivity |].
        unfold sameButOffsets.
        cbn [physicsState lastTimeRef handData instancedParticles].
        repeat split. exact Hmesh.
    - rewrite !animate_body_not_ready by exact Hready.
      rewrite <- Hps, <- Hlt, <- Hhd. cbn [fst snd].
      split; [reflexivity |].
      unfold sameButOffsets.
      cbn [physicsState lastTimeRef handData instancedParticles].
      repeat split. exact Hmesh. }
  destruct Hbody as [Hfst Hsame'].
  split; [exact Hfst |]. split; [exact Hsame' |].
  split.
  { destruct Hsame' as (_ & _ & _ & Hm). unfold matricesOf.
    destruct (instancedParticles (animate f w)),
             (instancedParticles (animate f w'));
      try contradiction; [| reflexivity].
    apply Hm. }
  split; [apply animate_particlesOf |].
  split; [apply animate_particlesOf |].
  intros state i basePos speed randomOffset randomOffset'.
  apply particleMatrix_sameSeed. split; reflexivity.
Qed.

Lemma sameButOffsets_sample : sameButOffsets sampleWorld sampleWorld'.
Proof.
  apply initThree_sameButOffsets. intros i. unfold sampleRandom, sampleRandom'.
  replace (4 * i + 3)%nat with (3 + i * 4)%nat by lia.
  rewrite Nat.Div0.mod_add. reflexivity.
Qed.

(** Two runs of the scene setup whose particles carry different noise
    seeds. *)
Lemma C10_witness :
  sameButOffsets sampleWorld sampleWorld'
  /\ particlesOf sampleWorld <> particlesOf sampleWorld'
  /\ matricesOf (animate frameOpenHand sampleWorld)
     = matricesOf (animate frameOpenHand sampleWorld').
Proof.
  split; [exact sameButOffsets_sample |].
  split.
  - unfold particlesOf, sampleWorld, sampleWorld', initialWorld, sampleMesh,
      initThree. cbv zeta.
    cbn [instancedParticles InstancedMesh.particles].
    intros Heq. apply (f_equal (fun l => nth_error l 0)) in Heq.
    rewrite !nth_error_map, nth_error_seq in Heq.
    change (0 <? CONFIG.PARTICLE_COUNT)%nat with true in Heq.
    apply (f_equal (option_map
                      (fun p => toR (Vector3.x (Particle.randomOffset p)))))
      in Heq.
    cbn [option_map particleData Particle.randomOffset Vector3.x Nat.add
         Nat.mul] in Heq.
    unfold sampleRandom, sampleRandom' in Heq.
    cbn [Nat.modulo Nat.divmod Nat.eqb fst snd Nat.sub] in Heq.
    rewrite !sub_Fin, !mul_Fin in Heq. cbn [toR] in Heq.
    injection Heq as Hx. lra.
  - apply (C10_randomOffset_unused frameOpenHand sampleWorld sampleWorld'
             sameButOffsets_sample).
Defined.

(** * Further properties of the code *)

(** ** [calculateGrip] on hands of any length *)

Lemma calculateGrip_firstn (h : Hand) :
  calculateGrip (firstn 21 h) = calculateGrip h.
Proof.
  unfold calculateGrip. rewrite !nth_error_firstn.
  reflexivity.
Qed.

Lemma landmark_at_firstn (h : Hand) (i : nat) :
  (i < 21)%nat -> landmark_at (firstn 21 h) i = landmark_at h i.
Proof.
  intros Hi. unfold landmark_at. rewrite nth_firstn.
  destruct (Nat.ltb_spec i 21); [reflexivity | lia].
Qed.

Lemma scaleBase_firstn (h : Hand) :
  scaleBase_of (firstn 21 h) = scaleBase_of h.
Proof.
  unfold scaleBase_of, wrist_of. rewrite !landmark_at_firstn by lia.
  reflexivity.
Qed.

Lemma avgDist_firstn (h : Hand) : avgDist_of (firstn 21 h) = avgDist_of h.
Proof.
  unfold avgDist_of, wrist_of. rewrite !landmark_at_firstn by lia.
  reflexivity.
Qed.

Lemma gripOf_positive (a s : R) :
  0 < s -> gripOf a s = Fin (grip_formula a s).
Proof.
  intros Hs. unfold gripOf, grip_formula. fin_arith. reflexivity.
Qed.

Lemma gripOf_zero (a : R) :
  0 <= a -> gripOf a 0 = if Rlt_dec 0 a then Fin 0 else NaN.
Proof.
  intros Ha. unfold gripOf. rewrite div_by_zero_scale by exact Ha.
  destruct (Rlt_dec 0 a); [| reflexivity].
  cbn [sub add neg]. unfold div. destruct (Rlt_dec 1.2 0); [lra |].
  reflexivity.
Qed.

(** [calculateGrip] on any hand that has its 21 landmarks, in the exact
    arithmetic of [num]. *)
Lemma calculateGrip_closed (h : Hand) :
  (21 <= length h)%nat ->
  calculateGrip h = Some (gripOf (avgDist_of h) (scaleBase_of h)).
Proof.
  intros Hlen.
  rewrite <- calculateGrip_firstn, <- avgDist_firstn, <- scaleBase_firstn.
  assert (Hlen21 : length (firstn 21 h) = 21%nat)
    by (rewrite length_firstn; lia).
  destruct (Rle_lt_or_eq_dec 0 (scaleBase_of (firstn 21 h))
              (euclid2D_nonneg _ _)) as [Hpos | Hzero].
  - rewrite calculateGrip_formula by assumption.
    rewrite gripOf_positive by exact Hpos. reflexivity.
  - rewrite calculateGrip_zero_scale by (try assumption; symmetry; exact Hzero).
    rewrite <- Hzero, gripOf_zero by apply avgDist_nonneg. reflexivity.
Qed.

Lemma calculateGrip_short (h : Hand) :
  (length h < 21)%nat -> calculateGrip h = None.
Proof.
  intros Hlen. unfold calculateGrip.
  assert (H20 : nth_error h 20 = None) by (apply nth_error_None; lia).
  rewrite H20.
  destruct (nth_error h 0); [| reflexivity]. cbn [obind].
  destruct (nth_error h 4); [| reflexivity]. cbn [obind].
  destruct (nth_error h 8); [| reflexivity]. cbn [obind].
  destruct (nth_error h 12); [| reflexivity]. cbn [obind].
  destruct (nth_error h 16); reflexivity.
Qed.

(** X1.  [calculateGrip] throws exactly on the hands that have fewer than
    21 landmarks; landmarks beyond the 21st are not looked at. *)
Theorem X1_calculateGrip_throws_iff_short (h : Hand) :
  (calculateGrip h = None <-> (length h < 21)%nat)
  /\ calculateGrip (firstn 21 h) = calculateGrip h.
Proof.
  split; [| apply calculateGrip_firstn].
  split.
  - intros Hnone. destruct (Nat.lt_ge_cases (length h) 21) as [Hlt | Hge];
      [exact Hlt |].
    rewrite calculateGrip_closed in Hnone by exact Hge. discriminate Hnone.
  - apply calculateGrip_short.
Qed.

Lemma gripOf_cases (a s : R) :
  0 <= a -> 0 <= s ->
  (s = 0 /\ a = 0 /\ gripOf a s = NaN)
  \/ (~ (s = 0 /\ a = 0)
      /\ exists g : R, gripOf a s = Fin g /\ 0 <= g <= 1).
Proof.
  intros Ha Hs.
  destruct (Rle_lt_or_eq_dec 0 s Hs) as [Hpos | Hzero].
  - right. split; [lra |]. rewrite gripOf_positive by exact Hpos.
    eexists. split; [reflexivity | apply clamp01_range].
  - subst s. rewrite gripOf_zero by exact Ha.
    destruct (Rlt_dec 0 a) as [Hapos | Hanpos].
    + right. split; [lra |]. exists 0. split; [reflexivity | lra].
    + left. repeat split. lra.
Qed.

(** X2.  On a hand with its 21 landmarks, [calculateGrip] returns
    [NaN] or a finite grip of [[0,1]], never an infinity.  It returns
    [NaN] when landmark 9 and all five fingertips coincide with the
    wrist in the image plane, a grip of [[0,1]] when the hand lies
    in range with a scale of at least [scaleFloor], and the
    grip 0 when the scale is zero and the mean fingertip distance at
    least [scaleFloor]. *)
Theorem X2_calculateGrip_range (h : Hand) :
  (21 <= length h)%nat ->
  (calculateGrip h = Some NaN
   \/ exists g : R, calculateGrip h = Some (Fin g) /\ 0 <= g <= 1)
  /\ (scaleBase_of h = 0 -> avgDist_of h = 0 -> calculateGrip h = Some NaN)
  /\ (Forall inRange h -> scaleFloor <= scaleBase_of h ->
      exists g : R, calculateGrip h = Some (Fin g) /\ 0 <= g <= 1)
  /\ (scaleBase_of h = 0 -> scaleFloor <= avgDist_of h ->
      calculateGrip h = Some (Fin 0)).
Proof.
  intros Hlen. rewrite calculateGrip_closed by exact Hlen.
  pose proof scaleFloor_pos as Hfloor.
  destruct (gripOf_cases (avgDist_of h) (scaleBase_of h)
              (avgDist_nonneg h) (euclid2D_nonneg _ _))
    as [(Hs & Ha & Hnan) | (Hnot & g & Hg & Hrange)].
  - rewrite Hnan. split; [left; reflexivity |].
    split; [reflexivity |]. split; intros; lra.
  - rewrite Hg. split; [right; exists g; split; [reflexivity | exact Hrange] |].
    split; [intros Hs Ha; contradiction Hnot; split; assumption |].
    split; [intros _ _; exists g; split; [reflexivity | exact Hrange] |].
    intros Hs Ha. rewrite <- Hg, Hs. rewrite gripOf_zero by lra.
    destruct (Rlt_dec 0 (avgDist_of h)); [reflexivity | lra].
Qed.

(** The spread hand is in range and has a grip of [[0,1]]. *)
Lemma X2_witness :
  (21 <= length spreadHand)%nat
  /\ Forall inRange spreadHand /\ scaleFloor <= scaleBase_of spreadHand
  /\ exists g : R, calculateGrip spreadHand = Some (Fin g) /\ 0 <= g <= 1.
Proof.
  assert (Hlen : (21 <= length spreadHand)%nat) by (cbn; lia).
  destruct regularHand_spreadHand as (_ & Hframe & Hscale).
  split; [exact Hlen |]. split; [exact Hframe |]. split; [exact Hscale |].
  apply (X2_calculateGrip_range spreadHand Hlen); assumption.
Defined.

(** ** The grip does not depend on where the hand is *)

Lemma euclid2D_moved (k dx dy : R) (depth : Landmark.t -> R)
    (a b : Landmark.t) :
  0 <= k ->
  euclid2D (moveLandmark k dx dy depth a) (moveLandmark k dx dy depth b)
  = k * euclid2D a b.
Proof.
  intros Hk. unfold euclid2D, moveLandmark.
  cbn [Landmark.x Landmark.y].
  replace ((k * Landmark.x a + dx - (k * Landmark.x b + dx)) ^ 2
           + (k * Landmark.y a + dy - (k * Landmark.y b + dy)) ^ 2)
    with ((k * k) * ((Landmark.x a - Landmark.x b) ^ 2
                     + (Landmark.y a - Landmark.y b) ^ 2)) by ring.
  rewrite sqrt_mult.
  - rewrite sqrt_square by exact Hk. reflexivity.
  - nra.
  - apply Rplus_le_le_0_compat; apply pow2_ge_0.
Qed.

Lemma landmark_at_map (f : Landmark.t -> Landmark.t) (h : Hand) (i : nat) :
  (i < length h)%nat -> landmark_at (map f h) i = f (landmark_at h i).
Proof.
  intros Hi. unfold landmark_at.
  rewrite (nth_indep _ _ (f (Landmark.mk 0 0 0)))
    by (rewrite length_map; exact Hi).
  apply map_nth.
Qed.

Lemma scaleBase_moved (k dx dy : R) (depth : Landmark.t -> R) (h : Hand) :
  0 <= k -> (21 <= length h)%nat ->
  scaleBase_of (moveHand k dx dy depth h) = k * scaleBase_of h.
Proof.
  intros Hk Hlen. unfold scaleBase_of, wrist_of, moveHand.
  rewrite !landmark_at_map by lia. apply euclid2D_moved. exact Hk.
Qed.

Lemma avgDist_moved (k dx dy : R) (depth : Landmark.t -> R) (h : Hand) :
  0 <= k -> (21 <= length h)%nat ->
  avgDist_of (moveHand k dx dy depth h) = k * avgDist_of h.
Proof.
  intros Hk Hlen. unfold avgDist_of, wrist_of, moveHand.
  rewrite !landmark_at_map by lia.
  rewrite !euclid2D_moved by exact Hk. field.
Qed.

Lemma gripOf_scaled (k a s : R) :
  0 < k -> 0 <= a -> 0 <= s -> gripOf (k * a) (k * s) = gripOf a s.
Proof.
  intros Hk Ha Hs.
  destruct (Rle_lt_or_eq_dec 0 s Hs) as [Hpos | Hzero].
  - rewrite !gripOf_positive by nra. unfold grip_formula.
    replace (k * a / (k * s)) with (a / s) by (field; lra). reflexivity.
  - subst s. replace (k * 0) with 0 by ring.
    rewrite !gripOf_zero by nra.
    destruct (Rlt_dec 0 (k * a)), (Rlt_dec 0 a); try reflexivity; nra.
Qed.

(** In exact arithmetic the grip of a hand does not change when the
    hand is scaled by a positive factor and shifted. *)
Lemma calculateGrip_moved (k dx dy : R) (depth : Landmark.t -> R)
    (h : Hand) :
  0 < k ->
  calculateGrip (moveHand k dx dy depth h) = calculateGrip h.
Proof.
  intros Hk.
  destruct (Nat.lt_ge_cases (length h) 21) as [Hshort | Hlen].
  - rewrite !calculateGrip_short;
      [reflexivity | exact Hshort | unfold moveHand; rewrite length_map; exact Hshort].
  - rewrite !calculateGrip_closed;
      [| exact Hlen | unfold moveHand; rewrite length_map; exact Hlen].
    rewrite scaleBase_moved, avgDist_moved by (try lra; exact Hlen).
    rewrite gripOf_scaled;
      [reflexivity | exact Hk | apply avgDist_nonneg | apply euclid2D_nonneg].
Qed.

(** X3.  The grip of a regular hand does not change when the hand is
    scaled by a positive factor and shifted in the image plane to
    another regular hand: it is independent of the apparent size and
    place of the hand.  The depths of the landmarks of a hand, regular or
    not and of any length, do not matter at all. *)
Theorem X3_calculateGrip_scale_invariant (k dx dy : R)
    (depth : Landmark.t -> R) (h : Hand) :
  0 < k -> regularHand h -> regularHand (moveHand k dx dy depth h) ->
  calculateGrip (moveHand k dx dy depth h) = calculateGrip h
  /\ forall h0 : Hand,
       calculateGrip (moveHand 1 0 0 depth h0) = calculateGrip h0.
Proof.
  intros Hk _ _. split.
  - apply calculateGrip_moved. exact Hk.
  - intros h0. apply calculateGrip_moved. lra.
Qed.

Lemma regularHand_spreadHandMoved : regularHand spreadHandMoved.
Proof.
  destruct regularHand_spreadHand as (Hlen & _ & _).
  destruct (sampleHand_row 0 0.5 0.9 0) as [Hs _]; [lra | lra |].
  fold spreadHand in Hs.
  split; [reflexivity |]. split.
  - unfold spreadHandMoved, moveHand, spreadHand, sampleHand, moveLandmark, pt.
    cbn [map Landmark.x Landmark.y].
    repeat (apply Forall_cons;
            [split; cbn [Landmark.x Landmark.y]; apply withinRange_unit; lra |]).
    apply Forall_nil.
  - unfold spreadHandMoved. rewrite scaleBase_moved by (try lra; cbn; lia).
    rewrite Hs. pose proof scaleFloor_small. lra.
Qed.

(** The spread hand, half as large and elsewhere in the frame, is as
    open. *)
Lemma X3_witness :
  0 < 0.5 /\ regularHand spreadHand /\ regularHand spreadHandMoved
  /\ calculateGrip spreadHandMoved = calculateGrip spreadHand.
Proof.
  split; [lra |]. split; [exact regularHand_spreadHand |].
  split; [exact regularHand_spreadHandMoved |].
  apply (X3_calculateGrip_scale_invariant 0.5 0.25 0.5 (fun _ => 7) spreadHand);
    [lra | exact regularHand_spreadHand | exact regularHand_spreadHandMoved].
Defined.

(** ** Step 1 of a tick *)

Lemma add_comm_num (a b : num) : (a + b)%js = (b + a)%js.
Proof.
  destruct a as [x | | |], b as [y | | |]; try reflexivity.
  cbn [add]. f_equal. ring.
Qed.

Lemma dist2D_sym (a b : Landmark.t) : dist2D a b = dist2D b a.
Proof.
  rewrite !dist2D_Fin. unfold euclid2D. do 2 f_equal. ring.
Qed.

(** X4.  With two hands, step 1 does not depend on the order in which
    the detector lists them: both orders give the same position, grip
    and split targets, or throw alike. *)
Theorem X4_two_hands_order (f : Frame) (h1 h2 : Hand) :
  detectTargets (withLandmarks f [h2; h1])
  = detectTargets (withLandmarks f [h1; h2]).
Proof.
  unfold detectTargets, withLandmarks. cbn [landmarks mapScreenToWorld].
  destruct (nth_error h1 9) as [a |], (nth_error h2 9) as [b |];
    cbn [obind]; try reflexivity.
  destruct (calculateGrip h1) as [g1 |], (calculateGrip h2) as [g2 |];
    cbn [obind]; try reflexivity.
  rewrite (dist2D_sym b a), (add_comm_num g2 g1).
  rewrite (add_comm_num (Landmark.x b) (Landmark.x a)).
  rewrite (add_comm_num (Landmark.y b) (Landmark.y a)).
  reflexivity.
Qed.

Lemma nth_error_9_of_full (h : Hand) :
  (21 <= length h)%nat -> exists a, nth_error h 9 = Some a.
Proof.
  intros Hlen. exists (landmark_at h 9). apply nth_error_landmark_at. lia.
Qed.

(** Step 1 throws exactly when a hand it processes lacks landmarks. *)
Lemma frameTargets_None_iff (f : Frame) (last : R) :
  refsReady f = true ->
  frameTargets f last = None <-> Exists short (processedHands f last).
Proof.
  intros Hready. unfold frameTargets, processedHands. rewrite Hready.
  destruct (Req_dec_T (currentTime f) last) as [_ | _].
  { split; [discriminate | intros H; inversion H]. }
  unfold detectTargets.
  destruct (landmarks f) as [| h1 [| h2 [| h3 hs]]].
  - split; [discriminate | intros H; inversion H].
  - destruct (Nat.lt_ge_cases (length h1) 21) as [Hs1 | Hf1].
    + rewrite (calculateGrip_short h1 Hs1).
      split; [intros _; left; exact Hs1 |].
      intros _. destruct (nth_error h1 9); reflexivity.
    + destruct (nth_error_9_of_full h1 Hf1) as [a ->]. cbn [obind].
      rewrite calculateGrip_closed by exact Hf1. cbn [obind].
      split; [discriminate |].
      intros H. inversion H as [? ? Hs | ? ? Hs]; subst;
        [unfold short in Hs; lia | inversion Hs].
  - destruct (Nat.lt_ge_cases (length h1) 21) as [Hs1 | Hf1].
    + rewrite (calculateGrip_short h1 Hs1).
      split; [intros _; left; exact Hs1 |].
      intros _. destruct (nth_error h1 9); [| reflexivity]. cbn [obind].
      destruct (nth_error h2 9); reflexivity.
    + destruct (nth_error_9_of_full h1 Hf1) as [a ->]. cbn [obind].
      rewrite (calculateGrip_closed h1) by exact Hf1.
      destruct (Nat.lt_ge_cases (length h2) 21) as [Hs2 | Hf2].
      * rewrite (calculateGrip_short h2 Hs2).
        split; [intros _; right; left; exact Hs2 |].
        intros _. destruct (nth_error h2 9); reflexivity.
      * destruct (nth_error_9_of_full h2 Hf2) as [b ->]. cbn [obind].
        rewrite (calculateGrip_closed h2) by exact Hf2. cbn [obind].
        split; [discriminate |].
        intros H. inversion H as [? ? Hs | ? ? Hs]; subst;
          [unfold short in Hs; lia |].
        inversion Hs as [? ? Hs' | ? ? Hs']; subst;
          [unfold short in Hs'; lia | inversion Hs'].
  - destruct (Nat.lt_ge_cases (length h1) 21) as [Hs1 | Hf1].
    + rewrite (calculateGrip_short h1 Hs1).
      split; [intros _; left; exact Hs1 |].
      intros _. destruct (nth_error h1 9); reflexivity.
    + destruct (nth_error_9_of_full h1 Hf1) as [a ->]. cbn [obind].
      rewrite calculateGrip_closed by exact Hf1. cbn [obind].
      split; [discriminate |].
      intros H. inversion H as [? ? Hs | ? ? Hs]; subst;
        [unfold short in Hs; lia | inversion Hs].
Qed.

(** X5.  A tick that passes the guard throws in step 1 exactly when a
    hand it hands to [calculateGrip] has fewer than 21 landmarks.  Such a
    tick has advanced [time] and recorded the video timestamp, and
    nothing else: the smoothed values, the UI snapshot and the mesh stay
    as they were. *)
Theorem X5_step1_throw (f : Frame) (w : World) :
  refsReady f = true ->
  (fst (processVision f w) = Throw
   <-> Exists short (processedHands f (lastTimeRef w)))
  /\ (Exists short (processedHands f (lastTimeRef w)) ->
      animate_body f w
      = (Throw,
         mkWorld (advance (physicsState w)) (currentTime f) (handData w)
                 (instancedParticles w))).
Proof.
  intros Hready.
  pose proof (frameTargets_None_iff f (lastTimeRef w) Hready) as Hiff.
  split.
  - rewrite processVision_closed. cbn [fst].
    destruct (frameTargets f (lastTimeRef w)) as [tg |].
    + split; [discriminate |]. intros H. apply Hiff in H. discriminate H.
    + split; [intros _; apply Hiff; reflexivity | reflexivity].
  - intros Hshort. apply Hiff in Hshort.
    rewrite animate_body_ready by exact Hready. rewrite Hshort. reflexivity.
Qed.

(** A frame showing a hand cut off after ten landmarks. *)
Lemma X5_witness :
  refsReady frameCutHand = true
  /\ Exists short (processedHands frameCutHand (lastTimeRef sampleWorld))
  /\ fst (animate_body frameCutHand sampleWorld) = Throw
  /\ handData (animate frameCutHand sampleWorld) = HandData.initial.
Proof.
  assert (Hshort : Exists short
                     (processedHands frameCutHand (lastTimeRef sampleWorld))).
  { unfold processedHands, frameCutHand.
    cbn [refsReady currentTime landmarks lastTimeRef sampleWorld initialWorld].
    destruct (Req_dec_T 1 0); [lra |].
    left. unfold short, cutHand. cbn. lia. }
  split; [reflexivity |]. split; [exact Hshort |].
  destruct (X5_step1_throw frameCutHand sampleWorld eq_refl) as [_ Hthrow].
  unfold animate. rewrite (Hthrow Hshort). split; reflexivity.
Defined.

(** X6.  A video frame is processed at most once: after any tick that
    passed the guard, whether it completed or threw, a further tick on
    the same frame does not consult the detector and takes the default
    targets. *)
Theorem X6_frame_processed_once (f : Frame) (w : World) :
  refsReady f = true ->
  lastTimeRef (animate f w) = currentTime f
  /\ processVision f (animate f w) = (Normal defaultTargets, animate f w).
Proof.
  intros Hready.
  assert (Hlast : lastTimeRef (animate f w) = currentTime f).
  { rewrite animate_ready_world by exact Hready.
    destruct (frameTargets f (lastTimeRef w)); reflexivity. }
  split; [exact Hlast |].
  rewrite processVision_closed. unfold frameTargets. rewrite Hlast.
  destruct (Req_dec_T (currentTime f) (currentTime f)) as [_ | Hne];
    [| contradiction Hne; reflexivity].
  destruct (animate f w) as [ps lt hd im]. cbn in Hlast. subst lt.
  reflexivity.
Qed.

(** The frame with the open hand, ticked twice. *)
Lemma X6_witness :
  refsReady frameOpenHand = true
  /\ processVision frameOpenHand (animate frameOpenHand sampleWorld)
     = (Normal defaultTargets, animate frameOpenHand sampleWorld).
Proof.
  split; [reflexivity |].
  apply (X6_frame_processed_once frameOpenHand sampleWorld eq_refl).
Defined.

(** ** The time accumulator *)

Lemma animate_time (f : Frame) (w : World) :
  PhysicsState.time (physicsState (animate f w))
  = (PhysicsState.time (physicsState w) + 0.01)%js.
Proof.
  destruct (refsReady f) eqn:Hready.
  - rewrite animate_physicsState by exact Hready.
    destruct (frameTargets f (lastTimeRef w)); reflexivity.
  - rewrite animate_not_ready by exact Hready. reflexivity.
Qed.

Lemma run_time (fs : list Frame) :
  forall (w : World) (t : R),
    PhysicsState.time (physicsState w) = Fin t ->
    PhysicsState.time (physicsState (run fs w))
    = Fin (t + INR (length fs) * 0.01).
Proof.
  induction fs as [| f fs IH]; intros w t Ht.
  - cbn [run fold_left length INR]. rewrite Ht. f_equal. ring.
  - cbn [run fold_left]. fold (run fs (animate f w)).
    rewrite (IH (animate f w) (t + 0.01)).
    + f_equal. change (length (f :: fs)) with (S (length fs)).
      rewrite S_INR. ring.
    + rewrite animate_time, Ht. reflexivity.
Qed.

(** X7.  The [time] accumulator counts ticks, not seconds: after [n]
    ticks from the mounted state it is [n * 0.01], whatever the frames
    held and whether the ticks stopped at the guard, completed or
    threw. *)
Theorem X7_time_counts_ticks (mesh : option InstancedMesh.t)
    (fs : list Frame) :
  PhysicsState.time (physicsState (run fs (initialWorld mesh)))
  = Fin (INR (length fs) * 0.01).
Proof.
  rewrite (run_time fs (initialWorld mesh) 0) by reflexivity.
  f_equal. ring.
Qed.

(** ** Invariants that need no precondition *)

Lemma calculateGrip_unitOrNaN (h : Hand) (g : num) :
  calculateGrip h = Some g -> unitOrNaN g.
Proof.
  intros Hg.
  destruct (Nat.lt_ge_cases (length h) 21) as [Hshort | Hlen].
  - rewrite calculateGrip_short in Hg by exact Hshort. discriminate Hg.
  - rewrite calculateGrip_closed in Hg by exact Hlen. injection Hg as <-.
    destruct (gripOf_cases (avgDist_of h) (scaleBase_of h)
                (avgDist_nonneg h) (euclid2D_nonneg _ _))
      as [(_ & _ & Hnan) | (_ & g & Hg & Hrange)].
    + right. exact Hnan.
    + left. rewrite Hg. apply in01_Fin. exact Hrange.
Qed.

Lemma frameTargets_unitOrNaN (f : Frame) (last : R) (tg : Targets) :
  frameTargets f last = Some tg ->
  in01 (targetSplit tg) /\ unitOrNaN (targetGrip tg).
Proof.
  assert (Hzero : in01 (Fin 0)) by (apply in01_Fin; lra).
  unfold frameTargets.
  destruct (Req_dec_T (currentTime f) last) as [_ | _].
  { intros [= <-]. split; [exact Hzero | left; exact Hzero]. }
  unfold detectTargets.
  destruct (landmarks f) as [| h1 [| h2 [| h3 hs]]].
  - intros [= <-]. split; [exact Hzero | left; exact Hzero].
  - destruct (nth_error h1 9) as [a |]; [| discriminate]. cbn [obind].
    destruct (calculateGrip h1) as [g |] eqn:Hg; [| discriminate].
    cbn [obind]. intros Heq.
    assert (Htg : targetSplit tg = Fin 0 /\ targetGrip tg = g)
      by (injection Heq as <-; split; reflexivity).
    destruct Htg as [-> ->].
    split; [exact Hzero | exact (calculateGrip_unitOrNaN h1 g Hg)].
  - destruct (nth_error h1 9) as [a |]; [| discriminate]. cbn [obind].
    destruct (nth_error h2 9) as [b |]; [| discriminate]. cbn [obind].
    destruct (calculateGrip h1) as [g1 |] eqn:Hg1; [| discriminate].
    destruct (calculateGrip h2) as [g2 |] eqn:Hg2; [| discriminate].
    cbn [obind]. intros Heq.
    assert (Htg : targetSplit tg
                  = max 0 (min 1 ((dist2D a b - 0.1) / 0.5)%js)
                  /\ targetGrip tg = ((g1 + g2) / 2)%js)
      by (injection Heq as <-; split; reflexivity).
    destruct Htg as [-> ->]. split.
    + fin_arith. apply in01_Fin. apply clamp01_range.
    + destruct (calculateGrip_unitOrNaN h1 g1 Hg1) as [(x1 & -> & Hx1) | ->];
        [| right; reflexivity].
      destruct (calculateGrip_unitOrNaN h2 g2 Hg2) as [(x2 & -> & Hx2) | ->];
        [| right; reflexivity].
      left. fin_arith. apply in01_Fin. lra.
  - destruct (nth_error h1 9) as [a |]; [| discriminate]. cbn [obind].
    destruct (calculateGrip h1) as [g |] eqn:Hg; [| discriminate].
    cbn [obind]. intros Heq.
    assert (Htg : targetSplit tg = Fin 0 /\ targetGrip tg = g)
      by (injection Heq as <-; split; reflexivity).
    destruct Htg as [-> ->].
    split; [exact Hzero | exact (calculateGrip_unitOrNaN h1 g Hg)].
Qed.

Lemma smooth_unitOrNaN (s t : num) :
  unitOrNaN s -> unitOrNaN t -> unitOrNaN (smooth s t).
Proof.
  intros [Hs | ->] [Ht | ->].
  - left. apply smooth_in01; assumption.
  - right. apply smooth_NaN_target.
  - right. reflexivity.
  - right. reflexivity.
Qed.

Lemma animate_split_grip (f : Frame) (w : World) :
  in01 (PhysicsState.splitFactor (physicsState w))
  /\ unitOrNaN (PhysicsState.gripStrength (physicsState w)) ->
  in01 (PhysicsState.splitFactor (physicsState (animate f w)))
  /\ unitOrNaN (PhysicsState.gripStrength (physicsState (animate f w))).
Proof.
  intros [Hsplit Hgrip]. destruct (refsReady f) eqn:Hready.
  - rewrite animate_physicsState by exact Hready.
    destruct (frameTargets f (lastTimeRef w)) as [tg |] eqn:Htg.
    + destruct (frameTargets_unitOrNaN f _ tg Htg) as [Hts Htgp].
      split; cbn; [apply smooth_in01 | apply smooth_unitOrNaN]; assumption.
    + split; assumption.
  - rewrite animate_not_ready by exact Hready. split; assumption.
Qed.

(** X8.  Whatever the detector returns, along every run from the mounted
    state the smoothed [splitFactor] is a number of [[0,1]] and the
    smoothed [gripStrength] is a number of [[0,1]] or [NaN]: neither is
    ever infinite or outside the unit interval. *)
Theorem X8_split_always_unit (mesh : option InstancedMesh.t)
    (fs : list Frame) :
  in01 (PhysicsState.splitFactor (physicsState (run fs (initialWorld mesh))))
  /\ unitOrNaN
       (PhysicsState.gripStrength (physicsState (run fs (initialWorld mesh)))).
Proof.
  assert (Hgen : forall w,
             in01 (PhysicsState.splitFactor (physicsState w))
             /\ unitOrNaN (PhysicsState.gripStrength (physicsState w)) ->
             in01 (PhysicsState.splitFactor (physicsState (run fs w)))
             /\ unitOrNaN (PhysicsState.gripStrength (physicsState (run fs w)))).
  { induction fs as [| f fs IH]; intros w Hw; [exact Hw |].
    cbn [run fold_left]. apply (IH (animate f w)).
    apply animate_split_grip. exact Hw. }
  apply Hgen. split; [| left]; apply in01_Fin; lra.
Qed.

(** ** What the smoothed values bound *)

Lemma within_Fin (lo hi r : R) : lo <= r <= hi -> within lo hi (Fin r).
Proof. intros H. exists r. split; [reflexivity | exact H]. Qed.

(** X9.  While the smoothed grip and split are in [[0,1]], the
    compression is in [[0.3, 1]] (the sphere never shrinks below 30%),
    the visual scale in [[0.3, 3]], the scale of every particle in
    [[1, 3]] and the rotation speed step 3 assigns in
    [[0.005, 0.075]]. *)
Theorem X9_visual_bounds (state : PhysicsState.t) :
  unitPhysics state ->
  within 0.3 1 (compression state)
  /\ within 0.3 3 (visualScale state)
  /\ (forall (i : nat) (p : Particle.t),
        within 1 3 (m_scale (particleMatrix state i p)))
  /\ within 0.005 0.075
       (PhysicsState.rotationSpeed (updateRotationSpeed state)).
Proof.
  intros [(g & Hg & Hgr) (s & Hs & Hsr)].
  unfold compression, visualScale, compression, particleMatrix,
    updateRotationSpeed.
  cbn [m_scale PhysicsState.rotationSpeed].
  rewrite Hg, Hs. unfold CONFIG.COMPRESSION_FACTOR. fin_arith.
  split; [apply within_Fin; lra |].
  split; [apply within_Fin; nra |].
  split; [intros _ _; apply within_Fin; lra |].
  apply within_Fin; lra.
Qed.

(** The mounted state has its grip and split in the unit interval. *)
Lemma X9_witness :
  unitPhysics PhysicsState.initial
  /\ within 0.3 1 (compression PhysicsState.initial).
Proof.
  assert (Hunit : unitPhysics PhysicsState.initial)
    by (split; apply in01_Fin; lra).
  split; [exact Hunit |].
  apply (X9_visual_bounds PhysicsState.initial Hunit).
Defined.

Lemma animate_rotationSpeed (f : Frame) (w : World) :
  unitPhysics (physicsState w) ->
  within 0.005 0.075 (PhysicsState.rotationSpeed (physicsState w)) ->
  Forall positiveScale (processedHands f (lastTimeRef w)) ->
  within 0.005 0.075 (PhysicsState.rotationSpeed (physicsState (animate f w))).
Proof.
  intros Hunit Hrot Hok.
  destruct (refsReady f) eqn:Hready.
  - rewrite animate_physicsState by exact Hready.
    destruct (frameTargets f (lastTimeRef w)) as [tg |] eqn:Htg;
      [| exact Hrot].
    destruct (frameTargets_in01 f _ tg Hready Hok Htg) as [Htg1 Htg2].
    destruct Hunit as [Hg Hs].
    destruct (smooth_in01 _ _ Hg Htg1) as (g' & Hg' & Hgr).
    destruct (smooth_in01 _ _ Hs Htg2) as (s' & Hs' & Hsr).
    unfold nextPhysics, updateRotationSpeed, smoothPhysics, advance.
    cbn [PhysicsState.rotationSpeed PhysicsState.gripStrength
         PhysicsState.splitFactor].
    rewrite Hg', Hs'. fin_arith. apply within_Fin. lra.
  - rewrite animate_not_ready by exact Hready. exact Hrot.
Qed.

(** Along a run from the mounted state in which every processed
    landmark set is regular, the rotation speed stays in
    [[0.005, 0.075]]. *)
Lemma rotationSpeed_bounded (mesh : option InstancedMesh.t)
    (fs : list Frame) :
  regularRun fs (initialWorld mesh) ->
  within 0.005 0.075
    (PhysicsState.rotationSpeed (physicsState (run fs (initialWorld mesh)))).
Proof.
  assert (Hgen : forall w,
             unitPhysics (physicsState w) ->
             within 0.005 0.075 (PhysicsState.rotationSpeed (physicsState w)) ->
             positiveScaleRun fs w ->
             within 0.005 0.075
               (PhysicsState.rotationSpeed (physicsState (run fs w)))).
  { induction fs as [| f fs IH]; intros w Hunit Hrot Hrun; [exact Hrot |].
    destruct Hrun as [Hf Hrest]. cbn [run fold_left].
    apply (IH (animate f w)).
    - apply animate_unitPhysics; assumption.
    - apply animate_rotationSpeed; assumption.
    - exact Hrest. }
  intros Hrun. apply Hgen.
  - split; apply in01_Fin; lra.
  - apply within_Fin. lra.
  - apply regularRun_positiveScaleRun. exact Hrun.
Qed.

(** ** Losing the hand *)

Lemma noHand_targets (f : Frame) (last : R) :
  landmarks f = [] -> frameTargets f last = Some defaultTargets.
Proof.
  intros Hf. unfold frameTargets, detectTargets. rewrite Hf.
  destruct (Req_dec_T (currentTime f) last); reflexivity.
Qed.

Lemma decay_step (r : R) :
  smooth (Fin r) (Fin 0) = Fin ((1 - CONFIG.SMOOTHING_FACTOR) * r).
Proof. rewrite smooth_Fin. f_equal. ring. Qed.

(** X11.  While no hand is seen, nothing is reset: each tick that passes
    the guard multiplies the smoothed grip, the smoothed split and every
    coordinate of the smoothed position by [1 - SMOOTHING_FACTOR], so
    after [n] such ticks they are [(1 - SMOOTHING_FACTOR)^n] times what
    they were when the hand was lost. *)
Theorem X11_decay_without_hand (fs : list Frame) :
  Forall noHand fs ->
  forall (w : World) (x y z grip split : R),
    PhysicsState.position (physicsState w) = vec x y z ->
    PhysicsState.gripStrength (physicsState w) = Fin grip ->
    PhysicsState.splitFactor (physicsState w) = Fin split ->
    PhysicsState.position (physicsState (run fs w))
    = vec ((1 - CONFIG.SMOOTHING_FACTOR) ^ length fs * x)
          ((1 - CONFIG.SMOOTHING_FACTOR) ^ length fs * y)
          ((1 - CONFIG.SMOOTHING_FACTOR) ^ length fs * z)
    /\ PhysicsState.gripStrength (physicsState (run fs w))
       = Fin ((1 - CONFIG.SMOOTHING_FACTOR) ^ length fs * grip)
    /\ PhysicsState.splitFactor (physicsState (run fs w))
       = Fin ((1 - CONFIG.SMOOTHING_FACTOR) ^ length fs * split).
Proof.
  induction 1 as [| f fs [Hready Hnone] _ IH]; intros w x y z grip split Hp Hg Hs.
  - cbn [run fold_left length pow]. rewrite Hp, Hg, Hs. unfold vec.
    repeat split; repeat f_equal; ring.
  - cbn [run fold_left]. fold (run fs (animate f w)).
    assert (Hnext : physicsState (animate f w)
                    = nextPhysics defaultTargets (physicsState w)).
    { rewrite animate_physicsState by exact Hready.
      rewrite noHand_targets by exact Hnone. reflexivity. }
    destruct (IH (animate f w)
                ((1 - CONFIG.SMOOTHING_FACTOR) * x)
                ((1 - CONFIG.SMOOTHING_FACTOR) * y)
                ((1 - CONFIG.SMOOTHING_FACTOR) * z)
                ((1 - CONFIG.SMOOTHING_FACTOR) * grip)
                ((1 - CONFIG.SMOOTHING_FACTOR) * split))
      as (Hp' & Hg' & Hs').
    + rewrite Hnext.
      cbn [nextPhysics updateRotationSpeed smoothPhysics advance
           PhysicsState.position t_isPresent defaultTargets].
      rewrite Hp. unfold Vector3.lerp, vec.
      cbn [Vector3.x Vector3.y Vector3.z].
      fin_arith. f_equal; f_equal; ring.
    + rewrite Hnext.
      cbn [nextPhysics updateRotationSpeed smoothPhysics advance
           PhysicsState.gripStrength targetGrip defaultTargets].
      rewrite Hg. apply decay_step.
    + rewrite Hnext.
      cbn [nextPhysics updateRotationSpeed smoothPhysics advance
           PhysicsState.splitFactor targetSplit defaultTargets].
      rewrite Hs. apply decay_step.
    + rewrite Hp', Hg', Hs'. cbn [length pow]. unfold vec.
      split; [f_equal; f_equal; ring |]. split; f_equal; ring.
Qed.

(** Two ticks without a hand in the middle of a squeeze. *)
Lemma X11_witness :
  Forall noHand [frameNoHand; frameNoHand]
  /\ PhysicsState.gripStrength
       (physicsState (run [frameNoHand; frameNoHand] squeezedWorld))
     = Fin ((1 - CONFIG.SMOOTHING_FACTOR) ^ 2 * 0.8).
Proof.
  assert (Hfs : Forall noHand [frameNoHand; frameNoHand])
    by (repeat constructor).
  split; [exact Hfs |].
  apply (X11_decay_without_hand [frameNoHand; frameNoHand] Hfs
           squeezedWorld 1 2 0 0.8 0.4); reflexivity.
Defined.

(** ** Ticks that complete *)

Lemma processedHands_incl (f : Frame) (last : R) (P : Hand -> Prop) :
  Forall P (landmarks f) -> Forall P (processedHands f last).
Proof.
  intros Hall. unfold processedHands.
  destruct (refsReady f); [| constructor].
  destruct (Req_dec_T (currentTime f) last); [constructor |].
  destruct (landmarks f) as [| h1 [| h2 [| h3 hs]]].
  - constructor.
  - exact Hall.
  - exact Hall.
  - constructor; [exact (Forall_inv Hall) | constructor].
Qed.

Lemma animate_body_completes (f : Frame) (w : World) :
  fullHands f ->
  (CONFIG.PARTICLE_COUNT <= length (particlesOf w))%nat ->
  fst (animate_body f w) = Normal tt.
Proof.
  intros Hfull Hmesh. destruct (refsReady f) eqn:Hready.
  - rewrite animate_body_ready by exact Hready.
    destruct (frameTargets f (lastTimeRef w)) as [tg |] eqn:Htg.
    + cbv zeta. rewrite loopCompletes_full by exact Hmesh. reflexivity.
    + apply (frameTargets_None_iff f _ Hready) in Htg.
      pose proof (processedHands_incl f (lastTimeRef w) _ Hfull) as Hall.
      apply Exists_exists in Htg. destruct Htg as (h & Hin & Hshort).
      rewrite Forall_forall in Hall. specialize (Hall h Hin).
      unfold short in Hshort. lia.
  - rewrite animate_body_not_ready by exact Hready. reflexivity.
Qed.

Lemma initThree_full (random : nat -> R) :
  length (InstancedMesh.particles (initThree random)) = CONFIG.PARTICLE_COUNT
  /\ length (InstancedMesh.instanceMatrix (initThree random))
     = CONFIG.PARTICLE_COUNT.
Proof.
  unfold initThree. cbv zeta.
  cbn [InstancedMesh.particles InstancedMesh.instanceMatrix].
  rewrite !length_map, length_seq. split; reflexivity.
Qed.

(** X12.  From a world mounted by [initThree], and as long as the
    detector returns hands with their 21 landmarks, no tick ever throws:
    the particle loop always finds its [PARTICLE_COUNT] records. *)
Theorem X12_no_tick_throws (random : nat -> R) (fs : list Frame) :
  Forall fullHands fs ->
  runCompletes fs (initialWorld (Some (initThree random))).
Proof.
  intros Hfs.
  assert (Hgen : forall w,
             (CONFIG.PARTICLE_COUNT <= length (particlesOf w))%nat ->
             runCompletes fs w).
  { induction Hfs as [| f fs Hf _ IH]; intros w Hmesh; [exact I |].
    cbn [runCompletes]. split.
    - apply animate_body_completes; assumption.
    - apply IH. rewrite animate_particlesOf. exact Hmesh. }
  apply Hgen. unfold particlesOf, initialWorld. cbn [instancedParticles].
  destruct (initThree_full random) as [-> _]. apply Nat.le_refl.
Qed.

(** The open hand seen and then lost, from the sample mount. *)
Lemma X12_witness :
  Forall fullHands [frameOpenHand; frameNoHand]
  /\ runCompletes [frameOpenHand; frameNoHand]
       (initialWorld (Some (initThree sampleRandom))).
Proof.
  assert (Hfs : Forall fullHands [frameOpenHand; frameNoHand]).
  { constructor; [| constructor; [| constructor]].
    - unfold fullHands, frameOpenHand. cbn [landmarks].
      constructor; [cbn; lia | constructor].
    - unfold fullHands, frameNoHand. cbn [landmarks]. constructor. }
  split; [exact Hfs |].
  apply (X12_no_tick_throws sampleRandom [frameOpenHand; frameNoHand] Hfs).
Defined.

(** ** The matrices a tick leaves *)

Lemma placeParticles_length (state : PhysicsState.t)
    (data : list Particle.t) (count : nat) :
  forall (start : nat) (matrices : list Matrix4),
    length (snd (placeParticles state data start count matrices))
    = length matrices.
Proof.
  induction count as [| count IH]; intros start matrices;
    cbn [placeParticles]; [reflexivity |].
  destruct (nth_error data start); [| reflexivity].
  rewrite IH. apply list_set_length.
Qed.

Lemma matricesFrom_length (state : PhysicsState.t) (ps : list Particle.t) :
  forall i : nat, length (matricesFrom state i ps) = length ps.
Proof.
  induction ps as [| p ps IH]; intros i; cbn; [reflexivity |].
  rewrite IH. reflexivity.
Qed.

Lemma matricesFrom_nth (state : PhysicsState.t) (ps : list Particle.t) :
  forall i n : nat,
    nth_error (matricesFrom state i ps) n
    = option_map (particleMatrix state (i + n)) (nth_error ps n).
Proof.
  induction ps as [| p ps IH]; intros i [| n]; cbn [matricesFrom nth_error option_map];
    try reflexivity.
  - rewrite Nat.add_0_r. reflexivity.
  - rewrite IH. replace (S i + n)%nat with (i + S n)%nat by lia. reflexivity.
Qed.

(** A completed loop over a full mesh rewrites every matrix. *)
Lemma placeParticles_all (state : PhysicsState.t) (ps : list Particle.t)
    (matrices : list Matrix4) :
  length ps = CONFIG.PARTICLE_COUNT ->
  length matrices = CONFIG.PARTICLE_COUNT ->
  snd (placeParticles state ps 0 CONFIG.PARTICLE_COUNT matrices)
  = matricesFrom state 0 ps.
Proof.
  intros Hps Hmat. apply nth_error_ext. intros n.
  rewrite matricesFrom_nth. cbn [Nat.add].
  destruct (Nat.lt_ge_cases n CONFIG.PARTICLE_COUNT) as [Hlt | Hge].
  - destruct (nth_error ps n) as [p |] eqn:Hp.
    + cbn [option_map]. apply placeParticles_nth.
      * apply placeParticles_completes. lia.
      * lia.
      * lia.
      * exact Hp.
    + apply nth_error_None in Hp. lia.
  - assert (Hnone : nth_error ps n = None) by (apply nth_error_None; lia).
    rewrite Hnone. cbn [option_map]. apply nth_error_None.
    rewrite placeParticles_length. lia.
Qed.

(** X13.  A tick that runs to its end recomputes the whole mesh from the
    new physics state and the particle records: the mesh sits at the
    smoothed position and instance [i] holds the matrix of particle [i],
    for every [i]; nothing of the matrices of the tick before is left. *)
Theorem X13_matrices_recomputed (f : Frame) (w : World)
    (mesh : InstancedMesh.t) :
  instancedParticles w = Some mesh ->
  length (InstancedMesh.particles mesh) = CONFIG.PARTICLE_COUNT ->
  length (InstancedMesh.instanceMatrix mesh) = CONFIG.PARTICLE_COUNT ->
  refsReady f = true ->
  fst (animate_body f w) = Normal tt ->
  instancedParticles (animate f w)
  = Some (InstancedMesh.mk
            (PhysicsState.position (physicsState (animate f w)))
            (InstancedMesh.particles mesh)
            (matricesFrom (physicsState (animate f w)) 0
               (InstancedMesh.particles mesh))).
Proof.
  intros Hmesh Hps Hmat Hready. unfold animate.
  rewrite animate_body_ready by exact Hready.
  destruct (frameTargets f (lastTimeRef w)) as [tg |]; [| discriminate].
  cbv zeta. cbn [fst snd physicsState instancedParticles]. intros _.
  unfold nextMesh. rewrite Hmesh.
  rewrite placeParticles_all by assumption. reflexivity.
Qed.

(** the tick on which the open hand is seen, from the sample mount *)
Lemma X13_witness :
  instancedParticles sampleWorld = Some sampleMesh
  /\ length (InstancedMesh.particles sampleMesh) = CONFIG.PARTICLE_COUNT
  /\ length (InstancedMesh.instanceMatrix sampleMesh) = CONFIG.PARTICLE_COUNT
  /\ refsReady frameOpenHand = true
  /\ fst (animate_body frameOpenHand sampleWorld) = Normal tt
  /\ matricesOf (animate frameOpenHand sampleWorld)
     = matricesFrom (physicsState (animate frameOpenHand sampleWorld)) 0
         (InstancedMesh.particles sampleMesh).
Proof.
  destruct (initThree_full sampleRandom) as [Hps Hmat].
  split; [reflexivity |]. split; [exact Hps |]. split; [exact Hmat |].
  split; [reflexivity |]. split; [exact animate_body_frameOpenHand |].
  unfold matricesOf.
  rewrite (X13_matrices_recomputed frameOpenHand sampleWorld sampleMesh
             eq_refl Hps Hmat eq_refl animate_body_frameOpenHand).
  reflexivity.
Defined.

(** ** The seeds of [initThree] *)

Lemma PARTICLE_COUNT_INR : INR CONFIG.PARTICLE_COUNT = 1200.
Proof. rewrite INR_IZR_INZ. reflexivity. Qed.

Lemma particleData_basePos (random : nat -> R) (i : nat) :
  (i < CONFIG.PARTICLE_COUNT)%nat ->
  Particle.basePos (particleData random i)
  = vec (CONFIG.SPHERE_RADIUS * Rtrigo_def.cos (seedTheta i)
         * Rtrigo_def.sin (seedPhi i))
        (CONFIG.SPHERE_RADIUS * Rtrigo_def.sin (seedTheta i)
         * Rtrigo_def.sin (seedPhi i))
        (CONFIG.SPHERE_RADIUS * Rtrigo_def.cos (seedPhi i)).
Proof.
  intros Hi.
  assert (Hi' : 0 <= INR i < 1200).
  { split; [apply pos_INR |]. rewrite <- PARTICLE_COUNT_INR.
    apply lt_INR. exact Hi. }
  pose proof PI_RGT_0 as Hpi.
  unfold particleData, seedTheta, seedPhi, of_nat, vec.
  cbv zeta. cbn [Particle.basePos].
  rewrite PARTICLE_COUNT_INR. fin_arith.
  unfold acos.
  destruct (Rle_dec (-1) (-1 + 2 * INR i / 1200)) as [_ | Hn]; [| lra].
  destruct (Rle_dec (-1 + 2 * INR i / 1200) 1) as [_ | Hn]; [| lra].
  rewrite sqrt_Fin by lra. fin_arith.
  cbn [cos sin]. fin_arith. reflexivity.
Qed.

Lemma sphere_point (r theta phi : R) :
  normSq (r * Rtrigo_def.cos theta * Rtrigo_def.sin phi)
         (r * Rtrigo_def.sin theta * Rtrigo_def.sin phi)
         (r * Rtrigo_def.cos phi)
  = r * r.
Proof.
  unfold normSq.
  pose proof (sin2_cos2 theta) as Ht. pose proof (sin2_cos2 phi) as Hp.
  unfold Rsqr in Ht, Hp.
  set (ct := Rtrigo_def.cos theta) in *. set (st := Rtrigo_def.sin theta) in *.
  set (cp := Rtrigo_def.cos phi) in *. set (sp := Rtrigo_def.sin phi) in *.
  replace (r * ct * sp * (r * ct * sp) + r * st * sp * (r * st * sp)
           + r * cp * (r * cp))
    with (r * r * ((sp * sp) * (st * st + ct * ct) + cp * cp)) by ring.
  rewrite Ht, Rmult_1_r, Hp. ring.
Qed.

(** X14.  Every seed position [initThree] computes is a finite point of
    the sphere of radius [SPHERE_RADIUS] about the origin, whatever
    [Math.random()] returns. *)
Theorem X14_seeds_on_sphere (random : nat -> R) (i : nat) :
  (i < CONFIG.PARTICLE_COUNT)%nat ->
  exists x y z : R,
    Particle.basePos (particleData random i) = vec x y z
    /\ normSq x y z = CONFIG.SPHERE_RADIUS * CONFIG.SPHERE_RADIUS.
Proof.
  intros Hi. rewrite particleData_basePos by exact Hi.
  do 3 eexists. split; [reflexivity | apply sphere_point].
Qed.

(** seed 7 *)
Lemma X14_witness :
  (7 < CONFIG.PARTICLE_COUNT)%nat
  /\ exists x y z : R,
       Particle.basePos (particleData sampleRandom 7) = vec x y z
       /\ normSq x y z = CONFIG.SPHERE_RADIUS * CONFIG.SPHERE_RADIUS.
Proof.
  assert (Hi : (7 < CONFIG.PARTICLE_COUNT)%nat)
    by (unfold CONFIG.PARTICLE_COUNT; lia).
  split; [exact Hi |].
  apply (X14_seeds_on_sphere sampleRandom 7 Hi).
Defined.

Lemma initThree_matrix (random : nat -> R) (i : nat) :
  (i < CONFIG.PARTICLE_COUNT)%nat ->
  nth_error (InstancedMesh.particles (initThree random)) i
  = Some (particleData random i)
  /\ nth_error (InstancedMesh.instanceMatrix (initThree random)) i
     = Some (compose (Particle.basePos (particleData random i)) None 1).
Proof.
  intros Hi. unfold initThree. cbv zeta.
  cbn [InstancedMesh.particles InstancedMesh.instanceMatrix].
  rewrite !nth_error_map, nth_error_seq.
  destruct (Nat.ltb_spec i CONFIG.PARTICLE_COUNT); [| lia].
  split; reflexivity.
Qed.

(** X15.  With draws of [Math.random()] in [[0, 1)], [initThree] builds
    exactly [PARTICLE_COUNT] records and as many matrices; every speed
    is in [[0.5, 1.5]] and every component of a noise seed in
    [[-1, 1]]; the matrix of instance [i] places the dummy at the seed
    position of record [i], not turned, at scale 1. *)
Theorem X15_initThree_ranges (random : nat -> R) :
  (forall k : nat, 0 <= random k < 1) ->
  length (InstancedMesh.particles (initThree random)) = CONFIG.PARTICLE_COUNT
  /\ length (InstancedMesh.instanceMatrix (initThree random))
     = CONFIG.PARTICLE_COUNT
  /\ (forall i : nat,
        (i < CONFIG.PARTICLE_COUNT)%nat ->
        exists p : Particle.t,
          nth_error (InstancedMesh.particles (initThree random)) i = Some p
          /\ nth_error (InstancedMesh.instanceMatrix (initThree random)) i
             = Some (compose (Particle.basePos p) None 1)
          /\ within 0.5 1.5 (Particle.speed p)
          /\ within (-1) 1 (Vector3.x (Particle.randomOffset p))
          /\ within (-1) 1 (Vector3.y (Particle.randomOffset p))
          /\ within (-1) 1 (Vector3.z (Particle.randomOffset p))).
Proof.
  intros Hrandom.
  destruct (initThree_full random) as [Hps Hmat].
  split; [exact Hps |]. split; [exact Hmat |].
  intros i Hi. destruct (initThree_matrix random i Hi) as [Hp Hm].
  exists (particleData random i).
  split; [exact Hp |]. split; [exact Hm |].
  unfold particleData. cbv zeta.
  cbn [Particle.speed Particle.randomOffset Vector3.x Vector3.y Vector3.z].
  fin_arith.
  pose proof (Hrandom (4 * i)%nat). pose proof (Hrandom (4 * i + 1)%nat).
  pose proof (Hrandom (4 * i + 2)%nat). pose proof (Hrandom (4 * i + 3)%nat).
  repeat split; apply within_Fin; lra.
Qed.

(** a run in which every draw is 0.5 *)
Lemma X15_witness :
  (forall k : nat, 0 <= sampleRandom k < 1)
  /\ length (InstancedMesh.particles (initThree sampleRandom))
     = CONFIG.PARTICLE_COUNT.
Proof.
  assert (Hrandom : forall k : nat, 0 <= sampleRandom k < 1)
    by (intros k; unfold sampleRandom; lra).
  split; [exact Hrandom |].
  apply (X15_initThree_ranges sampleRandom Hrandom).
Defined.

Lemma compression_Fin (state : PhysicsState.t) (g : R) :
  PhysicsState.gripStrength state = Fin g ->
  compression state = Fin (1 - g * CONFIG.COMPRESSION_FACTOR).
Proof. intros Hg. unfold compression. rewrite Hg. reflexivity. Qed.

(** X16.  In surface mode, with a finite grip, the particle of every
    seed of [initThree] sits on the sphere of radius
    [SPHERE_RADIUS * compression] about the centre of the mesh: the
    swarm keeps the shape of a sphere while it is squeezed. *)
Theorem X16_surface_particles_on_sphere (random : nat -> R) (i : nat)
    (state : PhysicsState.t) (g : R) :
  (i < CONFIG.PARTICLE_COUNT)%nat ->
  (PhysicsState.splitFactor state <= 0.1)%js ->
  PhysicsState.gripStrength state = Fin g ->
  exists x y z : R,
    m_position (particleMatrix state i (particleData random i)) = vec x y z
    /\ normSq x y z
       = (CONFIG.SPHERE_RADIUS * (1 - g * CONFIG.COMPRESSION_FACTOR))
         * (CONFIG.SPHERE_RADIUS * (1 - g * CONFIG.COMPRESSION_FACTOR)).
Proof.
  intros Hi Hle Hg.
  unfold particleMatrix. cbn [m_position].
  rewrite particleTarget_surface by (apply gtb_false_of_le; exact Hle).
  rewrite particleData_basePos by exact Hi.
  rewrite (compression_Fin state g Hg).
  unfold scaled, vec. cbn [Vector3.x Vector3.y Vector3.z]. fin_arith.
  do 3 eexists. split; [reflexivity |].
  pose proof (sphere_point CONFIG.SPHERE_RADIUS (seedTheta i) (seedPhi i))
    as Hsphere.
  unfold normSq in *.
  set (c := 1 - g * CONFIG.COMPRESSION_FACTOR) in *.
  set (a := CONFIG.SPHERE_RADIUS * Rtrigo_def.cos (seedTheta i)
            * Rtrigo_def.sin (seedPhi i)) in *.
  set (b := CONFIG.SPHERE_RADIUS * Rtrigo_def.sin (seedTheta i)
            * Rtrigo_def.sin (seedPhi i)) in *.
  set (d := CONFIG.SPHERE_RADIUS * Rtrigo_def.cos (seedPhi i)) in *.
  replace (a * c * (a * c) + b * c * (b * c) + d * c * (d * c))
    with ((a * a + b * b + d * d) * (c * c)) by ring.
  rewrite Hsphere. ring.
Qed.

(** seed 7 in the mounted state *)
Lemma X16_witness :
  (7 < CONFIG.PARTICLE_COUNT)%nat
  /\ (PhysicsState.splitFactor PhysicsState.initial <= 0.1)%js
  /\ PhysicsState.gripStrength PhysicsState.initial = Fin 0
  /\ exists x y z : R,
       m_position (particleMatrix PhysicsState.initial 7
                     (particleData sampleRandom 7)) = vec x y z
       /\ normSq x y z
          = (CONFIG.SPHERE_RADIUS * (1 - 0 * CONFIG.COMPRESSION_FACTOR))
            * (CONFIG.SPHERE_RADIUS * (1 - 0 * CONFIG.COMPRESSION_FACTOR)).
Proof.
  assert (Hi : (7 < CONFIG.PARTICLE_COUNT)%nat)
    by (unfold CONFIG.PARTICLE_COUNT; lia).
  assert (Hle : (PhysicsState.splitFactor PhysicsState.initial <= 0.1)%js)
    by (cbn; lra).
  split; [exact Hi |]. split; [exact Hle |]. split; [reflexivity |].
  apply (X16_surface_particles_on_sphere sampleRandom 7 PhysicsState.initial
           0 Hi Hle eq_refl).
Defined.

(** ** The HUD on the snapshots of the loop *)

Lemma nearest_bounds (x : R) (n : Z) (lo hi : Z) :
  nearest x n -> IZR lo <= x <= IZR hi -> (lo <= n <= hi)%Z.
Proof.
  intros [Hlow Hhigh] [Hlo Hhi]. split.
  - assert (H : (lo - 1 < n)%Z); [| lia].
    apply lt_IZR. rewrite minus_IZR. lra.
  - assert (H : (n < hi + 1)%Z); [| lia].
    apply lt_IZR. rewrite plus_IZR. lra.
Qed.

(** X17.  On a snapshot whose grip and separation are in [[0,1]], the
    HUD shows a whole pressure between 0 and 100, a stability between 0
    and 100 and a whole energy output between 10 and 100: no bar of the
    HUD is ever drawn outside its track. *)
Theorem X17_hud_ranges (h : HandData.t) (g s : R) :
  0 <= g <= 1 -> 0 <= s <= 1 ->
  (exists n : Z,
     HUD.pressure (snapshotOf h g s) = Fin (IZR n) /\ (0 <= n <= 100)%Z)
  /\ within 0 100 (HUD.stability (snapshotOf h g s))
  /\ (exists n : Z,
        HUD.energyLevel (snapshotOf h g s) = Fin (IZR n)
        /\ (10 <= n <= 100)%Z).
Proof.
  intros Hg Hs.
  unfold HUD.pressure, HUD.stability, HUD.energyLevel, snapshotOf.
  cbn [HandData.gripStrength HandData.handSeparation].
  fin_arith. rewrite !round_Fin. fin_arith.
  split; [| split].
  - exists (Int_part (g * 100 + / 2)). split; [reflexivity |].
    apply (nearest_bounds (g * 100)); [apply round_nearest | lra].
  - apply within_Fin. split; [apply Rmax_l |].
    apply Rmax_lub; lra.
  - set (n := Int_part ((g * 0.5 + s * 0.5) * 100 + / 2)).
    assert (Hn : (0 <= n <= 100)%Z).
    { apply (nearest_bounds ((g * 0.5 + s * 0.5) * 100));
        [apply round_nearest | lra]. }
    destruct (Z.le_gt_cases (n + 10) 100) as [Hle | Hgt].
    + exists (n + 10)%Z. split; [| lia]. f_equal.
      rewrite plus_IZR. apply Rmin_right.
      apply IZR_le in Hle. rewrite plus_IZR in Hle. exact Hle.
    + exists 100%Z. split; [| lia]. f_equal.
      apply Rmin_left.
      assert (H : (100 <= n + 10)%Z) by lia.
      apply IZR_le in H. rewrite plus_IZR in H. exact H.
Qed.

(** a snapshot with grip 0.8 and separation 0.2 *)
Lemma X17_witness :
  0 <= 0.8 <= 1 /\ 0 <= 0.2 <= 1
  /\ within 0 100 (HUD.stability (snapshotOf HandData.initial 0.8 0.2)).
Proof.
  assert (Hg : 0 <= 0.8 <= 1) by lra.
  assert (Hs : 0 <= 0.2 <= 1) by lra.
  split; [exact Hg |]. split; [exact Hs |].
  apply (X17_hud_ranges HandData.initial 0.8 0.2 Hg Hs).
Defined.

Lemma gtb_threshold (a : num) (lo hi : R) :
  lo <= hi -> (a >? Fin hi)%js = true -> (a >? Fin lo)%js = true.
Proof.
  intros Hle. destruct a as [x | | |]; cbn; try discriminate; try reflexivity.
  destruct (Rlt_dec hi x); [| discriminate].
  intros _. destruct (Rlt_dec lo x); [reflexivity | lra].
Qed.

(** The snapshot of a tick that ran to its end. *)
Lemma animate_snapshot (f : Frame) (w : World) :
  refsReady f = true -> fst (animate_body f w) = Normal tt ->
  exists tg : Targets,
    frameTargets f (lastTimeRef w) = Some tg
    /\ handData (animate f w)
       = nextHandData (t_trackingMode tg) (physicsState (animate f w))
           (handData w).
Proof.
  intros Hready. unfold animate.
  rewrite animate_body_ready by exact Hready.
  destruct (frameTargets f (lastTimeRef w)) as [tg |]; [| discriminate].
  cbv zeta. cbn [fst snd].
  destruct (loopCompletes _ w); cbn [completion_of]; [intros _ | discriminate].
  exists tg. split; reflexivity.
Qed.

(** X18.  On the snapshot of a tick that tracked a hand, the status line
    of the HUD agrees with the gesture: it reads FIELD DIVERGENCE
    exactly when the gesture is SPLIT, CRITICAL COMPRESSION only when
    the gesture is GRIP, SUBJECT TRACKED whenever the gesture is HOVER,
    and never SCANNING. *)
Theorem X18_status_matches_gesture (f : Frame) (w : World) :
  refsReady f = true -> fst (animate_body f w) = Normal tt ->
  HandData.isPresent (handData (animate f w)) = true ->
  (HUD.getStatusText (handData (animate f w)) = HUD.FIELD_DIVERGENCE
   <-> HandData.gesture (handData (animate f w)) = SPLIT)
  /\ (HUD.getStatusText (handData (animate f w)) = HUD.CRITICAL_COMPRESSION ->
      HandData.gesture (handData (animate f w)) = GRIP)
  /\ (HandData.gesture (handData (animate f w)) = HOVER ->
      HUD.getStatusText (handData (animate f w)) = HUD.SUBJECT_TRACKED)
  /\ HUD.getStatusText (handData (animate f w)) <> HUD.SCANNING.
Proof.
  intros Hready Hnormal.
  destruct (animate_snapshot f w Hready Hnormal) as (tg & _ & ->).
  set (state := physicsState (animate f w)).
  assert (Htracked :
            forall tm, tm <> TM_NONE ->
              nextHandData tm state (handData w)
              = HandData.mk (classifyGesture state) (Fin 0, Fin 0)
                  StatePosition true tm
                  (PhysicsState.splitFactor state)
                  (PhysicsState.gripStrength state)
                  ((PhysicsState.gripStrength state
                    + PhysicsState.splitFactor state) / 2)%js).
  { intros [| |] Htm; try reflexivity. contradiction Htm. reflexivity. }
  destruct (t_trackingMode tg) eqn:Htm;
    [rewrite Htracked by discriminate | rewrite Htracked by discriminate |
     cbn [nextHandData HandData.with_isPresent HandData.isPresent];
     discriminate];
    intros _; unfold HUD.getStatusText, classifyGesture;
    cbn [HandData.handSeparation HandData.gripStrength HandData.isPresent
         HandData.gesture];
    destruct (PhysicsState.splitFactor state >? 0.3)%js;
    try (repeat split; try reflexivity; discriminate);
    destruct (PhysicsState.gripStrength state >? 0.6)%js eqn:Hcrit;
    try (rewrite (gtb_threshold _ 0.5 0.6) by (try lra; exact Hcrit);
         repeat split; try reflexivity; discriminate);
    destruct (PhysicsState.gripStrength state >? 0.5)%js;
    repeat split; try reflexivity; discriminate.
Qed.

(** the tick on which the open hand is seen *)
Lemma X18_witness :
  refsReady frameOpenHand = true
  /\ fst (animate_body frameOpenHand sampleWorld) = Normal tt
  /\ HandData.isPresent (handData (animate frameOpenHand sampleWorld)) = true
  /\ HUD.getStatusText (handData (animate frameOpenHand sampleWorld))
     <> HUD.SCANNING.
Proof.
  destruct sampleWorld_after_open_hand as (_ & _ & Hpresent & _).
  split; [reflexivity |]. split; [exact animate_body_frameOpenHand |].
  split; [exact Hpresent |].
  apply (X18_status_matches_gesture frameOpenHand sampleWorld eq_refl
           animate_body_frameOpenHand Hpresent).
Defined.

Lemma frameTargets_mode_none (f : Frame) (last : R) (tg : Targets) :
  frameTargets f last = Some tg ->
  t_isPresent tg = false -> t_trackingMode tg = TM_NONE.
Proof.
  unfold frameTargets.
  destruct (Req_dec_T (currentTime f) last); [intros [= <-]; reflexivity |].
  unfold detectTargets.
  destruct (landmarks f) as [| h1 [| h2 [| h3 hs]]].
  - intros [= <-]. reflexivity.
  - destruct (nth_error h1 9); [| discriminate]. cbn [obind].
    destruct (calculateGrip h1); [| discriminate]. cbn [obind].
    intros [= <-]. discriminate.
  - destruct (nth_error h1 9); [| discriminate]. cbn [obind].
    destruct (nth_error h2 9); [| discriminate]. cbn [obind].
    destruct (calculateGrip h1); [| discriminate].
    destruct (calculateGrip h2); [| discriminate]. cbn [obind].
    intros [= <-]. discriminate.
  - destruct (nth_error h1 9); [| discriminate]. cbn [obind].
    destruct (calculateGrip h1); [| discriminate]. cbn [obind].
    intros [= <-]. discriminate.
Qed.

(** X19.  When a tick that runs to its end tracks no hand, the HUD
    freezes: pressure, stability and energy output are those of the
    snapshot before the tick, although the smoothed values behind them
    decay; the status line keeps FIELD DIVERGENCE or CRITICAL
    COMPRESSION if the old separation or grip is above its threshold,
    and reads SCANNING otherwise. *)
Theorem X19_hud_frozen_without_hand (f : Frame) (w : World) :
  refsReady f = true -> fst (animate_body f w) = Normal tt ->
  HandData.isPresent (handData (animate f w)) = false ->
  handData (animate f w) = HandData.with_isPresent (handData w) false
  /\ HUD.pressure (handData (animate f w)) = HUD.pressure (handData w)
  /\ HUD.stability (handData (animate f w)) = HUD.stability (handData w)
  /\ HUD.energyLevel (handData (animate f w)) = HUD.energyLevel (handData w)
  /\ HUD.getStatusText (handData (animate f w))
     = (if (HandData.handSeparation (handData w) >? 0.3)%js
        then HUD.FIELD_DIVERGENCE
        else if (HandData.gripStrength (handData w) >? 0.6)%js
             then HUD.CRITICAL_COMPRESSION
             else HUD.SCANNING).
Proof.
  intros Hready Hnormal.
  destruct (animate_snapshot f w Hready Hnormal) as (tg & _ & ->).
  destruct (t_trackingMode tg);
    cbn [nextHandData HandData.isPresent]; try discriminate.
  intros _. split; [reflexivity |].
  repeat split.
Qed.

(** the tick without a hand in the middle of a squeeze *)
Lemma X19_witness :
  refsReady frameNoHand = true
  /\ fst (animate_body frameNoHand squeezedWorld) = Normal tt
  /\ HandData.isPresent (handData (animate frameNoHand squeezedWorld)) = false
  /\ HUD.pressure (handData (animate frameNoHand squeezedWorld))
     = HUD.pressure (handData squeezedWorld).
Proof.
  assert (Hnormal : fst (animate_body frameNoHand squeezedWorld) = Normal tt).
  { apply animate_body_completes.
    - unfold fullHands, frameNoHand. cbn [landmarks]. constructor.
    - apply sampleMesh_full. }
  assert (Hpresent :
            HandData.isPresent (handData (animate frameNoHand squeezedWorld))
            = false).
  { destruct (animate_snapshot frameNoHand squeezedWorld eq_refl Hnormal)
      as (tg & Htg & ->).
    rewrite noHand_targets in Htg by reflexivity. injection Htg as <-.
    reflexivity. }
  split; [reflexivity |]. split; [exact Hnormal |]. split; [exact Hpresent |].
  apply (X19_hud_frozen_without_hand frameNoHand squeezedWorld eq_refl
           Hnormal Hpresent).
Defined.

(** X20.  The colour of the status line goes with its text on every
    snapshot: red exactly with FIELD DIVERGENCE, orange exactly with
    CRITICAL COMPRESSION, cyan exactly with SUBJECT TRACKED or
    SCANNING. *)
Theorem X20_status_colour_matches_text (h : HandData.t) :
  (getStatusColor h = text_red_400
   <-> HUD.getStatusText h = HUD.FIELD_DIVERGENCE)
  /\ (getStatusColor h = text_orange_400
      <-> HUD.getStatusText h = HUD.CRITICAL_COMPRESSION)
  /\ (getStatusColor h = text_cyan_400
      <-> HUD.getStatusText h = HUD.SUBJECT_TRACKED
          \/ HUD.getStatusText h = HUD.SCANNING).
Proof.
  unfold getStatusColor, HUD.getStatusText.
  destruct (HandData.handSeparation h >? 0.3)%js.
  - repeat split; try discriminate; try reflexivity.
    intros [H | H]; discriminate H.
  - destruct (HandData.gripStrength h >? 0.6)%js.
    + repeat split; try discriminate; try reflexivity.
      intros [H | H]; discriminate H.
    + destruct (HandData.isPresent h);
        repeat split; try discriminate; try reflexivity;
        intros _; [left | right]; reflexivity.
Qed.

(** ** The math helpers *)

Lemma mapRange_Fin (v a b c d : R) :
  a <> b ->
  Utils.mapRange v a b c d = Fin ((v - a) * (d - c) / (b - a) + c).
Proof.
  intros Hab. unfold Utils.mapRange.
  rewrite !sub_Fin, mul_Fin, div_Fin by lra. reflexivity.
Qed.

Lemma rangeFloor_pos : 0 < rangeFloor.
Proof. unfold rangeFloor. apply Rinv_0_lt_compat, pow_lt. lra. Qed.

Lemma rangeFloor_small : rangeFloor <= / 16.
Proof.
  unfold rangeFloor. apply Rinv_le_contravar; [lra |].
  change 200%nat with (4 + 196)%nat. rewrite pow_add.
  assert (H : 1 <= 2 ^ 196) by (apply pow_R1_Rle; lra).
  replace (2 ^ 4) with 16 by (cbn; lra). lra.
Qed.

(** X22.  On numbers in the range of the arithmetic, with input bounds
    at least [rangeFloor] apart and [outMin <= outMax], [mapRange] sends
    [inMin] to [outMin], does not decrease when the value increases, and
    stays at or above [outMin] for values at or above [inMin]. *)
Theorem X22_mapRange_increasing (v v' a b c d : R) :
  withinRange a -> withinRange b -> withinRange c -> withinRange d ->
  withinRange v -> withinRange v' ->
  rangeFloor <= b - a -> c <= d -> v <= v' ->
  Utils.mapRange a a b c d = Fin c
  /\ exists r r' : R,
       Utils.mapRange v a b c d = Fin r
       /\ Utils.mapRange v' a b c d = Fin r'
       /\ r <= r'
       /\ (a <= v -> c <= r).
Proof.
  intros _ _ _ _ _ _ Hab Hcd Hv.
  pose proof rangeFloor_pos as Hfloor.
  rewrite !mapRange_Fin by lra.
  split; [f_equal; field; lra |].
  do 2 eexists. split; [reflexivity |]. split; [reflexivity |].
  assert (Hinv : 0 < / (b - a)) by (apply Rinv_0_lt_compat; lra).
  assert (Hslope : 0 <= (d - c) * / (b - a))
    by (apply Rmult_le_pos; lra).
  split.
  - unfold Rdiv. rewrite !Rmult_assoc.
    apply Rplus_le_compat_r. apply Rmult_le_compat_r; lra.
  - intros Hav. unfold Rdiv. rewrite Rmult_assoc.
    assert (0 <= (v - a) * ((d - c) * / (b - a)))
      by (apply Rmult_le_pos; lra).
    lra.
Qed.

(** the range [0.1 .. 0.6] onto [0 .. 1] *)
Lemma X22_witness :
  rangeFloor <= 0.6 - 0.1
  /\ Utils.mapRange 0.1 0.1 0.6 0 1 = Fin 0
  /\ exists r r' : R,
       Utils.mapRange 0.2 0.1 0.6 0 1 = Fin r
       /\ Utils.mapRange 0.4 0.1 0.6 0 1 = Fin r'
       /\ r <= r'
       /\ (0.1 <= 0.2 -> 0 <= r).
Proof.
  assert (Hab : rangeFloor <= 0.6 - 0.1)
    by (pose proof rangeFloor_small; lra).
  split; [exact Hab |].
  apply (X22_mapRange_increasing 0.2 0.4 0.1 0.6 0 1);
    try (apply withinRange_unit; lra); try exact Hab; lra.
Defined.

(** X23.  With equal input bounds [mapRange] divides by zero and its
    result is never a finite number: it is [NaN] or an infinity. *)
Theorem X23_mapRange_degenerate (v a c d : R) :
  nonfinite (Utils.mapRange v a a c d).
Proof.
  unfold Utils.mapRange. rewrite !sub_Fin, mul_Fin.
  replace (a - a) with 0 by ring.
  unfold div, signed_inf.
  destruct (Req_dec_T 0 0) as [_ | Hne]; [| contradiction Hne; reflexivity].
  destruct (Rlt_dec 0 ((v - a) * (d - c))).
  - right. left. reflexivity.
  - destruct (Rlt_dec ((v - a) * (d - c)) 0).
    + right. right. reflexivity.
    + left. reflexivity.
Qed.

(** X24.  The split target of two hands is the utility remap of their
    separation from [0.1 .. 0.6] to [0 .. 1], clamped: the loop inlines
    what [mapRange] computes. *)
Theorem X24_split_is_mapRange (f : Frame) (h1 h2 : Hand) :
  landmarks f = [h1; h2] ->
  (21 <= length h1)%nat -> (21 <= length h2)%nat ->
  exists tg : Targets,
    detectTargets f = Some tg
    /\ targetSplit tg
       = max 0 (min 1 (Utils.mapRange (separation_of h1 h2) 0.1 0.6 0 1)).
Proof.
  intros Hf Hlen1 Hlen2. unfold detectTargets. rewrite Hf.
  rewrite (nth_error_landmark_at h1 9) by lia.
  rewrite (nth_error_landmark_at h2 9) by lia. cbn [obind].
  rewrite !calculateGrip_closed by assumption. cbn [obind].
  eexists. split; [reflexivity |].
  cbn [targetSplit]. rewrite mapRange_Fin by lra. fin_arith.
  fold (separation_of h1 h2). do 2 f_equal.
  replace (0.6 - 0.1) with 0.5 by lra. lra.
Qed.

(** two hands side by side *)
Lemma X24_witness :
  landmarks frameTwoHands = [rightHand; leftHand]
  /\ (21 <= length rightHand)%nat /\ (21 <= length leftHand)%nat
  /\ exists tg : Targets,
       detectTargets frameTwoHands = Some tg
       /\ targetSplit tg
          = max 0 (min 1 (Utils.mapRange (separation_of rightHand leftHand)
                            0.1 0.6 0 1)).
Proof.
  assert (H1 : (21 <= length rightHand)%nat) by (cbn; lia).
  assert (H2 : (21 <= length leftHand)%nat) by (cbn; lia).
  split; [reflexivity |]. split; [exact H1 |]. split; [exact H2 |].
  apply (X24_split_is_mapRange frameTwoHands rightHand leftHand eq_refl H1 H2).
Defined.

Lemma mag_Fin (x y : R) :
  sqrt (Fin x * Fin x + Fin y * Fin y)%js = Fin (R_sqrt.sqrt (x * x + y * y)).
Proof. fin_arith. apply sqrt_Fin. nra. Qed.

Lemma mag_zero_iff (x y : R) :
  R_sqrt.sqrt (x * x + y * y) = 0 <-> x = 0 /\ y = 0.
Proof.
  split.
  - intros H. apply sqrt_eq_0 in H; [| nra]. split; nra.
  - intros [-> ->]. replace (0 * 0 + 0 * 0) with 0 by ring. apply sqrt_0.
Qed.

Lemma normalize_zero (z : option num) :
  Utils.normalize (point2 0 0 z) = point2 0 0 None.
Proof.
  unfold Utils.normalize, point2. cbn [Utils.x Utils.y].
  rewrite mag_Fin. unfold strictEq.
  destruct (Req_dec_T _ 0) as [_ | Hne]; [reflexivity |].
  contradiction Hne. apply mag_zero_iff. split; reflexivity.
Qed.

Lemma normalize_nonzero (x y : R) (z : option num) :
  ~ (x = 0 /\ y = 0) ->
  Utils.normalize (point2 x y z)
  = point2 (x / R_sqrt.sqrt (x * x + y * y))
           (y / R_sqrt.sqrt (x * x + y * y)) None.
Proof.
  intros Hnz. unfold Utils.normalize, point2. cbn [Utils.x Utils.y].
  rewrite mag_Fin. unfold strictEq.
  destruct (Req_dec_T _ 0) as [Hzero | Hne].
  - contradiction Hnz. apply mag_zero_iff. exact Hzero.
  - rewrite !div_Fin by exact Hne. reflexivity.
Qed.

Lemma rangeFloor_nonzero (x y : R) :
  rangeFloor <= Rabs x \/ rangeFloor <= Rabs y -> ~ (x = 0 /\ y = 0).
Proof.
  pose proof rangeFloor_pos as Hfloor.
  intros Hsize [Hx Hy]. subst x y. rewrite Rabs_R0 in Hsize.
  destruct Hsize; lra.
Qed.

(** X25.  [normalize] maps the zero vector to the zero vector, and a
    vector in the range of the arithmetic with a component of size
    [rangeFloor] or more to the vector of length 1 with the same
    direction; the optional [z] is dropped. *)
Theorem X25_normalize (x y : R) (z : option num) :
  Utils.normalize (point2 0 0 z) = point2 0 0 None
  /\ (withinRange x -> withinRange y ->
      rangeFloor <= Rabs x \/ rangeFloor <= Rabs y ->
      exists u v m : R,
        Utils.normalize (point2 x y z) = point2 u v None
        /\ u * u + v * v = 1
        /\ 0 < m /\ x = m * u /\ y = m * v).
Proof.
  split; [apply normalize_zero |].
  intros _ _ Hsize.
  pose proof (rangeFloor_nonzero x y Hsize) as Hnz.
  assert (Hsum : 0 < x * x + y * y).
  { destruct (Req_dec_T x 0) as [Hx | Hx];
      [destruct (Req_dec_T y 0) as [Hy | Hy]; [tauto | nra] | nra]. }
  set (m := R_sqrt.sqrt (x * x + y * y)).
  assert (Hm : 0 < m) by (apply sqrt_lt_R0; exact Hsum).
  assert (Hsq : m * m = x * x + y * y) by (apply sqrt_sqrt; lra).
  exists (x / m), (y / m), m.
  split; [apply normalize_nonzero; exact Hnz |].
  split.
  { replace (x / m * (x / m) + y / m * (y / m))
      with ((x * x + y * y) / (m * m)) by (field; lra).
    rewrite Hsq. field. lra. }
  split; [exact Hm |].
  split; field; lra.
Qed.

(** the vector (0.6, -0.8) has length 1 already *)
Lemma X25_witness :
  withinRange 0.6 /\ withinRange (-0.8)
  /\ (rangeFloor <= Rabs 0.6 \/ rangeFloor <= Rabs (-0.8))
  /\ exists u v m : R,
       Utils.normalize (point2 0.6 (-0.8) None) = point2 u v None
       /\ u * u + v * v = 1
       /\ 0 < m /\ 0.6 = m * u /\ -0.8 = m * v.
Proof.
  assert (Hx : withinRange 0.6) by (apply withinRange_unit; lra).
  assert (Hy : withinRange (-0.8)) by (apply withinRange_unit; lra).
  assert (Hsize : rangeFloor <= Rabs 0.6 \/ rangeFloor <= Rabs (-0.8)).
  { left. rewrite Rabs_pos_eq by lra. pose proof rangeFloor_small. lra. }
  split; [exact Hx |]. split; [exact Hy |]. split; [exact Hsize |].
  apply (X25_normalize 0.6 (-0.8) None); assumption.
Defined.

Lemma distance_Fin (x1 y1 x2 y2 : R) (z1 z2 : option num) :
  Utils.distance (point2 x1 y1 z1) (point2 x2 y2 z2)
  = Fin (R_sqrt.sqrt ((x2 - x1) * (x2 - x1) + (y2 - y1) * (y2 - y1))).
Proof.
  unfold Utils.distance, point2. cbn [Utils.x Utils.y pow2 sub add neg].
  rewrite sqrt_Fin.
  - do 2 f_equal; ring.
  - apply Rplus_le_le_0_compat; apply Rle_0_sqr.
Qed.

(** X26.  Between points in the range of the arithmetic [distance] is a
    finite number, not negative, the same in both directions, 0 between
    points with the same [x] and [y], and positive between points whose
    [x] or [y] differ by [rangeFloor] or more; the optional [z] of the
    points is ignored. *)
Theorem X26_distance (x1 y1 x2 y2 : R) (z1 z2 z1' z2' : option num) :
  withinRange x1 -> withinRange y1 -> withinRange x2 -> withinRange y2 ->
  exists d12 d21 : R,
    Utils.distance (point2 x1 y1 z1) (point2 x2 y2 z2) = Fin d12
    /\ Utils.distance (point2 x2 y2 z2) (point2 x1 y1 z1) = Fin d21
    /\ 0 <= d12
    /\ d21 = d12
    /\ (x1 = x2 -> y1 = y2 -> d12 = 0)
    /\ (rangeFloor <= Rabs (x2 - x1) \/ rangeFloor <= Rabs (y2 - y1) ->
        0 < d12)
    /\ Utils.distance (point2 x1 y1 z1') (point2 x2 y2 z2') = Fin d12.
Proof.
  intros _ _ _ _. rewrite !distance_Fin. do 2 eexists.
  split; [reflexivity |]. split; [reflexivity |].
  split; [apply sqrt_pos |].
  split; [f_equal; ring |].
  split.
  { intros -> ->.
    replace ((x2 - x2) * (x2 - x2) + (y2 - y2) * (y2 - y2)) with 0 by ring.
    apply sqrt_0. }
  split; [| reflexivity].
  intros Hsize. apply sqrt_lt_R0.
  pose proof (rangeFloor_nonzero (x2 - x1) (y2 - y1) Hsize) as Hnz.
  set (a := x2 - x1) in *. set (b := y2 - y1) in *.
  destruct (Req_dec_T a 0) as [Hx | Hx];
    [destruct (Req_dec_T b 0) as [Hy | Hy]; [tauto | nra] | nra].
Qed.

(** the points (0, 0) and (0.3, 0.4) *)
Lemma X26_witness :
  withinRange 0 /\ withinRange 0.3 /\ withinRange 0.4
  /\ exists d12 d21 : R,
       Utils.distance (point2 0 0 None) (point2 0.3 0.4 None) = Fin d12
       /\ Utils.distance (point2 0.3 0.4 None) (point2 0 0 None) = Fin d21
       /\ 0 <= d12 /\ d21 = d12.
Proof.
  assert (H0 : withinRange 0) by (apply withinRange_unit; lra).
  assert (H3 : withinRange 0.3) by (apply withinRange_unit; lra).
  assert (H4 : withinRange 0.4) by (apply withinRange_unit; lra).
  split; [exact H0 |]. split; [exact H3 |]. split; [exact H4 |].
  destruct (X26_distance 0 0 0.3 0.4 None None None None H0 H0 H3 H4)
    as (d12 & d21 & Hd12 & Hd21 & Hpos & Hsym & _).
  exists d12, d21. repeat split; assumption.
Defined.

(** X27.  With a draw of [Math.random()] in [[0, 1)] and bounds
    [min <= max] in the range of the arithmetic, [randomRange] returns a
    finite number that is not below [min], and [min] itself on the
    draw 0. *)
Theorem X27_randomRange_from_min (random lo hi : R) :
  0 <= random < 1 -> lo <= hi -> withinRange lo -> withinRange hi ->
  exists v : R,
    Utils.randomRange random lo hi = Fin v
    /\ lo <= v
    /\ (random = 0 -> v = lo).
Proof.
  intros Hr Hle _ _. unfold Utils.randomRange. fin_arith.
  eexists. split; [reflexivity |]. split.
  - assert (0 <= random * (hi - lo)) by (apply Rmult_le_pos; lra). lra.
  - intros ->. lra.
Qed.

(** a draw of 0.5 between -0.5 and 0.5 *)
Lemma X27_witness :
  0 <= 0.5 < 1 /\ - 0.5 <= 0.5 /\ withinRange (- 0.5) /\ withinRange 0.5
  /\ exists v : R,
       Utils.randomRange 0.5 (- 0.5) 0.5 = Fin v
       /\ - 0.5 <= v
       /\ (0.5 = 0 -> v = - 0.5).
Proof.
  assert (Hr : 0 <= 0.5 < 1) by lra.
  assert (Hle : - 0.5 <= 0.5) by lra.
  assert (Hlo : withinRange (- 0.5)) by (apply withinRange_unit; lra).
  assert (Hhi : withinRange 0.5) by (apply withinRange_unit; lra).
  split; [exact Hr |]. split; [exact Hle |].
  split; [exact Hlo |]. split; [exact Hhi |].
  apply (X27_randomRange_from_min 0.5 (- 0.5) 0.5 Hr Hle Hlo Hhi).
Defined.

(** ** The projector *)




Lemma mul_zero_nonfinite (r : R) (a : num) :
  r = 0 -> nonfinite a -> (Fin r * a)%js = NaN.
Proof.
  intros -> [-> | [-> | ->]]; cbn [mul]; try reflexivity;
    unfold signed_inf;
    destruct (Rlt_dec 0 0); try lra; reflexivity.
Qed.

Lemma div_zero_nonfinite (a r : R) :
  r = 0 -> nonfinite (Fin a / Fin r)%js.
Proof.
  intros ->. unfold div, signed_inf.
  destruct (Req_dec_T 0 0) as [_ | Hne]; [| contradiction Hne; reflexivity].
  destruct (Rlt_dec 0 a); [right; left; reflexivity |].
  destruct (Rlt_dec a 0); [right; right; reflexivity | left; reflexivity].
Qed.

(** X29.  Without a camera [mapScreenToWorld] returns the origin.  With
    a camera and a view ray parallel to the plane [z = depthZ] (the
    unprojected point is at the depth of the camera) the division by the
    [z] of the ray is a division by zero, and the [z] of the returned
    point is [NaN]. *)
Theorem X29_mapScreenToWorld_degenerate (camera : Projector.Camera)
    (sx sy d cx cy cz ux uy : R) :
  Projector.position camera = vec cx cy cz ->
  Projector.unproject camera (vec ((1 - sx) * 2 - 1) (- sy * 2 + 1) 0.5)
  = vec ux uy cz ->
  Vector3.z (Projector.mapScreenToWorld (Some camera) sx sy d) = NaN
  /\ Projector.mapScreenToWorld None sx sy d = Vector3.mk 0 0 0.
Proof.
  intros Hpos Hun. split; [| reflexivity].
  unfold Projector.mapScreenToWorld. cbv zeta.
  cbn [neg]. fin_arith.
  change (Vector3.mk (Fin ((1 - sx) * 2 - 1)) (Fin (- sy * 2 + 1)) (Fin 0.5))
    with (vec ((1 - sx) * 2 - 1) (- sy * 2 + 1) 0.5).
  rewrite Hun, Hpos.
  unfold Projector.normalize, Projector.divideScalar, Projector.length,
    Projector.sub, Projector.multiplyScalar, Projector.add, vec.
  cbn [Vector3.x Vector3.y Vector3.z]. fin_arith.
  rewrite sqrt_Fin
    by (apply Rplus_le_le_0_compat;
        [apply Rplus_le_le_0_compat |]; apply Rle_0_sqr).
  set (l := R_sqrt.sqrt _).
  assert (Hray : forall k : num,
             (exists r, k = Fin r) ->
             (Fin cz + Fin (cz - cz) * k
                       * ((Fin (d - cz)) / (Fin (cz - cz) * k)))%js = NaN).
  { intros k [r ->]. fin_arith.
    assert (Hzero : (cz - cz) * r = 0) by ring.
    rewrite (mul_zero_nonfinite _ _ Hzero (div_zero_nonfinite _ _ Hzero)).
    reflexivity. }
  unfold Projector.orElse.
  destruct (Req_dec_T l 0) as [_ | Hl].
  - apply Hray. rewrite div_Fin by lra. eexists. reflexivity.
  - apply Hray. rewrite div_Fin by exact Hl. eexists. reflexivity.
Qed.

(** the centre of the screen seen by the flat camera *)
Lemma X29_witness :
  Projector.position flatCamera = vec 0 0 8
  /\ Projector.unproject flatCamera
       (vec ((1 - 0.5) * 2 - 1) (Ropp 0.5 * 2 + 1) 0.5)
     = vec ((1 - 0.5) * 2 - 1) (Ropp 0.5 * 2 + 1) 8
  /\ Vector3.z (Projector.mapScreenToWorld (Some flatCamera) 0.5 0.5 0) = NaN.
Proof.
  split; [reflexivity |]. split; [reflexivity |].
  apply (X29_mapScreenToWorld_degenerate flatCamera 0.5 0.5 0 0 0 8
           ((1 - 0.5) * 2 - 1) (Ropp 0.5 * 2 + 1) eq_refl eq_refl).
Defined.

(** ** The sphere and the core *)

(** X10.  While the smoothed grip and split are in [[0,1]], step 3
    gives the sphere a colour with red in [[0, 0.5]], green in
    [[0.5, 1]] and blue 1, the core a colour with all components in
    [[0,1]], and the wireframe an opacity in [[0, 0.3]] that is 0
    exactly when the split is at least 0.3, so whenever the gesture is
    SPLIT; both meshes sit at the smoothed position, the core at 0.3
    times the scale of the sphere. *)
Theorem X10_sphere_and_core_look (state : PhysicsState.t)
    (sphere core : SceneMesh) (s : R) :
  unitPhysics state ->
  PhysicsState.splitFactor state = Fin s ->
  (exists r g : R,
     color (updateSphere state sphere) = (Fin r, Fin g, Fin 1)
     /\ 0 <= r <= 0.5 /\ 0.5 <= g <= 1)
  /\ (exists c : R,
        color (updateCore state core) = (Fin 1, Fin c, Fin c)
        /\ 0 <= c <= 1)
  /\ within 0 0.3 (opacity (updateSphere state sphere))
  /\ (opacity (updateSphere state sphere) = Fin 0 <-> 0.3 <= s)
  /\ (classifyGesture state = SPLIT ->
      opacity (updateSphere state sphere) = Fin 0)
  /\ mesh_position (updateSphere state sphere) = PhysicsState.position state
  /\ mesh_position (updateCore state core) = PhysicsState.position state
  /\ mesh_scale (updateCore state core)
     = (mesh_scale (updateSphere state sphere) * 0.3)%js.
Proof.
  intros [(g & Hg & Hgr) (s' & Hs' & Hsr)] Hs.
  assert (s' = s) by congruence. subst s'.
  unfold updateSphere, updateCore, classifyGesture.
  cbn [color opacity mesh_position mesh_scale].
  rewrite Hg, Hs. fin_arith.
  assert (Hop : Rmax 0 (0.3 - s) = 0 <-> 0.3 <= s).
  { unfold Rmax. destruct (Rle_dec 0 (0.3 - s)); split; intros; lra. }
  split.
  { do 2 eexists. split; [reflexivity |]. unfold Rmin, Rmax.
    destruct (Rle_dec 1 (g + s)), (Rle_dec 0 (1 - g * 0.5)); lra. }
  split.
  { eexists. split; [reflexivity |]. lra. }
  split.
  { apply within_Fin. unfold Rmax. destruct (Rle_dec 0 (0.3 - s)); lra. }
  split.
  { split.
    - intros H. injection H as H. apply Hop. exact H.
    - intros H. f_equal. apply Hop. exact H. }
  split.
  { unfold gtb. destruct (Rlt_dec 0.3 s) as [Hlt | _].
    - intros _. f_equal. apply Hop. lra.
    - destruct (Rlt_dec 0.5 g); discriminate. }
  repeat split.
Qed.

(** the mounted state and meshes at rest *)
Lemma X10_witness :
  unitPhysics PhysicsState.initial
  /\ PhysicsState.splitFactor PhysicsState.initial = Fin 0
  /\ within 0 0.3
       (opacity (updateSphere PhysicsState.initial
                   (mkSceneMesh Vector3.zero 0 0 1 (Fin 0, Fin 0, Fin 0) 0.3))).
Proof.
  assert (Hunit : unitPhysics PhysicsState.initial)
    by (split; apply in01_Fin; lra).
  split; [exact Hunit |]. split; [reflexivity |].
  apply (X10_sphere_and_core_look PhysicsState.initial
           (mkSceneMesh Vector3.zero 0 0 1 (Fin 0, Fin 0, Fin 0) 0.3)
           (mkSceneMesh Vector3.zero 0 0 1 (Fin 0, Fin 0, Fin 0) 0.3)
           0 Hunit eq_refl).
Defined.

(** ** The ball stays in its plane *)

Lemma detectTargets_planar (f : Frame) (tg : Targets) :
  planarFrame f -> detectTargets f = Some tg ->
  Vector3.z (targetPos tg) = Fin 0.
Proof.
  intros Hplanar. unfold detectTargets.
  destruct (landmarks f) as [| h1 [| h2 [| h3 hs]]].
  - intros [= <-]. reflexivity.
  - destruct (nth_error h1 9) as [a |]; [| discriminate]. cbn [obind].
    destruct (calculateGrip h1); [| discriminate]. cbn [obind].
    intros Heq.
    assert (Htg : targetPos tg
                  = mapScreenToWorld f (Landmark.x a) (Landmark.y a) 0)
      by (injection Heq as <-; reflexivity).
    rewrite Htg. apply Hplanar.
  - destruct (nth_error h1 9) as [a |]; [| discriminate]. cbn [obind].
    destruct (nth_error h2 9) as [b |]; [| discriminate]. cbn [obind].
    destruct (calculateGrip h1); [| discriminate].
    destruct (calculateGrip h2); [| discriminate]. cbn [obind].
    intros Heq.
    assert (Htg : targetPos tg
                  = mapScreenToWorld f
                      ((Landmark.x a + Landmark.x b) / 2)%js
                      ((Landmark.y a + Landmark.y b) / 2)%js 0)
      by (injection Heq as <-; reflexivity).
    rewrite Htg. fin_arith. apply Hplanar.
  - destruct (nth_error h1 9) as [a |]; [| discriminate]. cbn [obind].
    destruct (calculateGrip h1); [| discriminate]. cbn [obind].
    intros Heq.
    assert (Htg : targetPos tg
                  = mapScreenToWorld f (Landmark.x a) (Landmark.y a) 0)
      by (injection Heq as <-; reflexivity).
    rewrite Htg. apply Hplanar.
Qed.

Lemma animate_planar (f : Frame) (w : World) :
  planarFrame f ->
  within 0 0 (Vector3.z (PhysicsState.position (physicsState w))) ->
  within 0 0 (Vector3.z (PhysicsState.position (physicsState (animate f w)))).
Proof.
  intros Hplanar (z & Hz & Hzr).
  destruct (refsReady f) eqn:Hready.
  - rewrite animate_physicsState by exact Hready.
    destruct (frameTargets f (lastTimeRef w)) as [tg |] eqn:Htg.
    + assert (Htz : Vector3.z (if t_isPresent tg then targetPos tg
                               else Vector3.mk 0 0 0) = Fin 0).
      { destruct (t_isPresent tg); [| reflexivity].
        unfold frameTargets in Htg.
        destruct (Req_dec_T (currentTime f) (lastTimeRef w)).
        - injection Htg as <-. reflexivity.
        - apply (detectTargets_planar f tg Hplanar Htg). }
      cbn [nextPhysics updateRotationSpeed smoothPhysics advance
           PhysicsState.position].
      unfold Vector3.lerp. cbn [Vector3.z]. rewrite Htz, Hz. fin_arith.
      apply within_Fin. unfold CONFIG.SMOOTHING_FACTOR. lra.
    + exists z. split; [exact Hz | exact Hzr].
  - rewrite animate_not_ready by exact Hready.
    exists z. split; [exact Hz | exact Hzr].
Qed.

(** X21.  As long as the projector maps into the plane [z = 0] (as
    [mapScreenToWorld] does for depth 0 with a view ray that meets the
    plane), the smoothed position never leaves that plane: along every
    run from the mounted state its [z] is 0. *)
Theorem X21_position_stays_in_plane (mesh : option InstancedMesh.t)
    (fs : list Frame) :
  Forall planarFrame fs ->
  Vector3.z (PhysicsState.position (physicsState (run fs (initialWorld mesh))))
  = Fin 0.
Proof.
  intros Hfs.
  assert (Hgen : forall w,
             within 0 0 (Vector3.z (PhysicsState.position (physicsState w))) ->
             within 0 0
               (Vector3.z (PhysicsState.position (physicsState (run fs w))))).
  { induction Hfs as [| f fs Hf _ IH]; intros w Hw; [exact Hw |].
    cbn [run fold_left]. apply (IH (animate f w)).
    apply animate_planar; assumption. }
  destruct (Hgen (initialWorld mesh)) as (z & Hz & Hzr).
  - apply within_Fin. lra.
  - rewrite Hz. f_equal. lra.
Qed.

(** the open hand seen and then lost, under the flat projector *)
Lemma X21_witness :
  Forall planarFrame [frameOpenHand; frameNoHand]
  /\ Vector3.z (PhysicsState.position
                  (physicsState (run [frameOpenHand; frameNoHand]
                                     (initialWorld (Some sampleMesh)))))
     = Fin 0.
Proof.
  assert (Hfs : Forall planarFrame [frameOpenHand; frameNoHand]).
  { repeat constructor; intros sx sy; reflexivity. }
  split; [exact Hfs |].
  apply (X21_position_stays_in_plane (Some sampleMesh)
           [frameOpenHand; frameNoHand] Hfs).
Defined.
